(** * TuluNad Store backend: order placement, inventory ledger, cart and
      order history, embedded from the JavaScript sources.

    The controllers and models talk to MySQL through SQL text handed to
    [db.query] / [connection.query].  Every SQL string of the sources the
    development needs is a constructor of [statement] (writes) or a
    [select_*] function (reads); its meaning over the tables of [schema.sql]
    is [execute].  An async handler is a function in the monad [M]: state is
    the [World] (committed tables, the transaction open on the request's
    connection, the console, the scripted outcome of every driver call), and
    a rejected promise / thrown [Error] is [Throw]. *)

From Stdlib Require Import ZArith List String Bool Lia DecimalString Sorted.
Import ListNotations.

Open Scope string_scope.
Open Scope list_scope.
Open Scope Z_scope.

Set Implicit Arguments.

(** ** JavaScript values that reach the code *)

(** A JavaScript [Error]; only its [message] is ever read. *)
Record Error := mkError { message : string }.

(** Values produced by [JSON.parse] and consumed by [JSON.stringify]. *)
#[local] Unset Elimination Schemes.
Inductive json :=
| JNull
| JBool (b : bool)
| JNumber (n : Z)
| JString (s : string)
| JArray (elements : list json)
| JObject (fields : list (string * json)).
#[local] Set Elimination Schemes.

(** [`${n}`] for an integer-valued number. *)
Definition template (n : Z) : string := NilZero.string_of_int (Z.to_int n).

(** [s.includes(needle)] *)
Definition includes (needle s : string) : bool :=
  match String.index 0 needle s with Some _ => true | None => false end.

(** [a || b] on a string: the empty string is falsy. *)
Definition or_else (a b : string) : string :=
  if String.eqb a "" then b else a.

(** The characters the sources split on. *)
Definition slash : Ascii.ascii := Ascii.ascii_of_nat 47.
Definition dot : Ascii.ascii := Ascii.ascii_of_nat 46.
Definition space : Ascii.ascii := Ascii.ascii_of_nat 32.

(** [s.split(sep)] for a separator of one character. *)
Fixpoint split (sep : Ascii.ascii) (s : string) : list string :=
  match s with
  | EmptyString => [EmptyString]
  | String c rest =>
      if Ascii.eqb c sep
      then EmptyString :: split sep rest
      else match split sep rest with
           | piece :: pieces => String c piece :: pieces
           | [] => [String c EmptyString]
           end
  end.

(** [parts.join(sep)] *)
Definition join (sep : string) (parts : list string) : string := String.concat sep parts.

(** [parts.indexOf(x)]: [None] for -1. *)
Fixpoint indexOf (x : string) (parts : list string) : option nat :=
  match parts with
  | [] => None
  | y :: rest => if String.eqb y x then Some 0%nat else option_map S (indexOf x rest)
  end.

(** [s.lastIndexOf(c)] for one character: [None] for -1. *)
Fixpoint lastIndexOf (c : Ascii.ascii) (s : string) : option nat :=
  match s with
  | EmptyString => None
  | String a rest =>
      match lastIndexOf c rest with
      | Some k => Some (S k)
      | None => if Ascii.eqb a c then Some 0%nat else None
      end
  end.

(** How often a character occurs in a string. *)
Fixpoint occurrences (c : Ascii.ascii) (s : string) : nat :=
  match s with
  | EmptyString => 0%nat
  | String a rest => ((if Ascii.eqb a c then 1 else 0) + occurrences c rest)%nat
  end.

(** The placeholder of a statement. *)
Definition question : Ascii.ascii := Ascii.ascii_of_nat 63.

(** [roles.includes(role)] *)
Definition includes_role (role : string) (roles : list string) : bool :=
  existsb (String.eqb role) roles.

(** ** schema.sql: rows and tables *)

(** How the driver hands back [orders.shipping_address]: as text
    ([typeof v === 'string']) or as an already decoded value. *)
Inductive json_column :=
| Text (s : string)
| Decoded (j : json).

Record user := mkUser {
  u_id : Z;
  u_username : string;
  u_email : string
}.

Record product := mkProduct {
  p_id : Z;
  p_name : string;
  p_price : Z;
  p_stock_quantity : Z;
  p_image_id : string
}.

Record cart_item := mkCartItem {
  ci_id : Z;
  ci_user_id : Z;
  ci_product_id : Z;
  ci_quantity : Z
}.

Record order := mkOrder {
  o_id : Z;
  o_user_id : Z;
  o_total_amount : Z;
  o_shipping_address : json_column;
  o_status : string;
  o_order_date : Z
}.

Record order_item := mkOrderItem {
  oi_id : Z;
  oi_order_id : Z;
  oi_product_id : Z;
  oi_quantity : Z;
  oi_price : Z
}.

(** The database: one list of rows per table, in insertion order, the
    AUTO_INCREMENT counters, and the server clock read by
    [DEFAULT CURRENT_TIMESTAMP].  DECIMAL(10,2) amounts are kept in
    hundredths. *)
Record Db := mkDb {
  users : list user;
  products : list product;
  cart_items : list cart_item;
  orders : list order;
  order_items : list order_item;
  next_cart_item_id : Z;
  next_order_id : Z;
  next_order_item_id : Z;
  current_timestamp : Z
}.

Definition with_products (ps : list product) (d : Db) : Db :=
  mkDb (users d) ps (cart_items d) (orders d) (order_items d)
       (next_cart_item_id d) (next_order_id d) (next_order_item_id d)
       (current_timestamp d).

Definition with_cart_items (cs : list cart_item) (d : Db) : Db :=
  mkDb (users d) (products d) cs (orders d) (order_items d)
       (next_cart_item_id d) (next_order_id d) (next_order_item_id d)
       (current_timestamp d).

(** ** The SQL of the sources *)

(** The writing statements, with their [?] parameters in source order. *)
Inductive statement :=
| InsertOrder (user_id total_amount : Z) (shipping_address status : string)
    (* INSERT INTO orders (user_id, total_amount, shipping_address, status) VALUES (?, ?, ?, ?) *)
| InsertOrderItem (order_id product_id quantity price : Z)
    (* INSERT INTO order_items (order_id, product_id, quantity, price) VALUES (?, ?, ?, ?) *)
| UpdateStock (quantity product_id at_least : Z)
    (* UPDATE products SET stock_quantity = stock_quantity - ? WHERE id = ? AND stock_quantity >= ? *)
| InsertCartItem (user_id product_id quantity : Z)
    (* INSERT INTO cart_items (user_id, product_id, quantity) VALUES (?, ?, ?) *)
| UpdateCartItemById (quantity id : Z)
    (* UPDATE cart_items SET quantity = ? WHERE id = ? *)
| UpdateCartItemOfUser (quantity id user_id : Z)
    (* UPDATE cart_items SET quantity = ? WHERE id = ? AND user_id = ? *)
| DeleteCartItemOfUser (id user_id : Z)
    (* DELETE FROM cart_items WHERE id = ? AND user_id = ? *)
| DeleteCartOfUser (user_id : Z).
    (* DELETE FROM cart_items WHERE user_id = ? *)

(** The driver's ResultSetHeader.  [affectedRows] counts the rows the WHERE
    clause matched (mysql2 connects with FOUND_ROWS). *)
Record packet := mkPacket { insertId : Z; affectedRows : Z }.

Definition count {A} (f : A -> bool) (l : list A) : Z :=
  Z.of_nat (List.length (filter f l)).

(** UPDATE ... SET ... WHERE: rewrite the matching rows in place. *)
Definition update_where {A} (cond : A -> bool) (set : A -> A) (l : list A) : list A :=
  map (fun r => if cond r then set r else r) l.

(** DELETE ... WHERE *)
Definition delete_where {A} (cond : A -> bool) (l : list A) : list A :=
  filter (fun r => negb (cond r)) l.

Definition stock_guard (product_id at_least : Z) (p : product) : bool :=
  (p_id p =? product_id) && (at_least <=? p_stock_quantity p).

Definition take_stock (quantity : Z) (p : product) : product :=
  mkProduct (p_id p) (p_name p) (p_price p) (p_stock_quantity p - quantity) (p_image_id p).

Definition set_quantity (quantity : Z) (c : cart_item) : cart_item :=
  mkCartItem (ci_id c) (ci_user_id c) (ci_product_id c) quantity.

Definition cart_id_is (id : Z) (c : cart_item) : bool := ci_id c =? id.

Definition cart_owned (id user_id : Z) (c : cart_item) : bool :=
  (ci_id c =? id) && (ci_user_id c =? user_id).

Definition cart_of_user (user_id : Z) (c : cart_item) : bool := ci_user_id c =? user_id.

Definition cart_line_of (user_id product_id : Z) (c : cart_item) : bool :=
  (ci_user_id c =? user_id) && (ci_product_id c =? product_id).

Definition execute (s : statement) (d : Db) : Db * packet :=
  match s with
  | InsertOrder user_id total_amount shipping_address status =>
      let id := next_order_id d in
      (mkDb (users d) (products d) (cart_items d)
            (orders d ++ [mkOrder id user_id total_amount (Text shipping_address)
                                  status (current_timestamp d)])
            (order_items d)
            (next_cart_item_id d) (id + 1) (next_order_item_id d) (current_timestamp d),
       mkPacket id 1)
  | InsertOrderItem order_id product_id quantity price =>
      let id := next_order_item_id d in
      (mkDb (users d) (products d) (cart_items d) (orders d)
            (order_items d ++ [mkOrderItem id order_id product_id quantity price])
            (next_cart_item_id d) (next_order_id d) (id + 1) (current_timestamp d),
       mkPacket id 1)
  | UpdateStock quantity product_id at_least =>
      (with_products
         (update_where (stock_guard product_id at_least) (take_stock quantity) (products d)) d,
       mkPacket 0 (count (stock_guard product_id at_least) (products d)))
  | InsertCartItem user_id product_id quantity =>
      let id := next_cart_item_id d in
      (mkDb (users d) (products d)
            (cart_items d ++ [mkCartItem id user_id product_id quantity])
            (orders d) (order_items d)
            (id + 1) (next_order_id d) (next_order_item_id d) (current_timestamp d),
       mkPacket id 1)
  | UpdateCartItemById quantity id =>
      (with_cart_items (update_where (cart_id_is id) (set_quantity quantity) (cart_items d)) d,
       mkPacket 0 (count (cart_id_is id) (cart_items d)))
  | UpdateCartItemOfUser quantity id user_id =>
      (with_cart_items
         (update_where (cart_owned id user_id) (set_quantity quantity) (cart_items d)) d,
       mkPacket 0 (count (cart_owned id user_id) (cart_items d)))
  | DeleteCartItemOfUser id user_id =>
      (with_cart_items (delete_where (cart_owned id user_id) (cart_items d)) d,
       mkPacket 0 (count (cart_owned id user_id) (cart_items d)))
  | DeleteCartOfUser user_id =>
      (with_cart_items (delete_where (cart_of_user user_id) (cart_items d)) d,
       mkPacket 0 (count (cart_of_user user_id) (cart_items d)))
  end.

(** The statements of a transaction applied in order. *)
Definition replay (log : list statement) (d : Db) : Db :=
  fold_left (fun acc s => fst (execute s acc)) log d.

(** ** db.js: the pool, its connections and the promise monad *)

(** [transaction] is the statement log of the transaction open on the
    connection leased by the request, if any: the statements are seen by that
    connection only, until [commit] applies them to [committed].  [driver]
    scripts the calls into mysql2: the n-th call rejects with the n-th entry
    when it is [Some e] (lost connection, constraint violation, ...) and goes
    through otherwise; an exhausted script means a healthy driver. *)
Record World := mkWorld {
  committed : Db;
  transaction : option (list statement);
  leased : nat;
  driver : list (option Error);
  console : list string
}.

Inductive result (A : Type) :=
| Ok (a : A)
| Throw (e : Error).
Arguments Ok {A} a.
Arguments Throw {A} e.

Definition M (A : Type) := World -> result A * World.

Definition ret {A} (a : A) : M A := fun w => (Ok a, w).

Definition throw {A} (e : Error) : M A := fun w => (Throw e, w).

Definition bind {A B} (m : M A) (k : A -> M B) : M B :=
  fun w => match m w with
           | (Ok a, w') => k a w'
           | (Throw e, w') => (Throw e, w')
           end.

Notation "x <- m ;; k" := (bind m (fun x => k))
  (at level 61, m at next level, right associativity).
Notation "m ;;; k" := (bind m (fun _ => k))
  (at level 61, right associativity).

(** One call into the driver: consume the next scripted outcome. *)
Definition driver_call : M unit :=
  fun w => match driver w with
           | Some e :: rest =>
               (Throw e, mkWorld (committed w) (transaction w) (leased w) rest (console w))
           | None :: rest =>
               (Ok tt, mkWorld (committed w) (transaction w) (leased w) rest (console w))
           | [] => (Ok tt, w)
           end.

(** [console.error(...)] *)
Definition console_error (line : string) : M unit :=
  fun w => (Ok tt, mkWorld (committed w) (transaction w) (leased w) (driver w)
                           (console w ++ [line])).

(** Who runs a statement: the pool itself ([db.query], autocommit) or the
    connection leased by the request ([connection.query]). *)
Inductive handle := Pool | Connection.

(** The tables as the leased connection sees them. *)
Definition view (w : World) : Db :=
  match transaction w with
  | Some log => replay log (committed w)
  | None => committed w
  end.

Definition sees (h : handle) (w : World) : Db :=
  match h with Pool => committed w | Connection => view w end.

Definition query (h : handle) (s : statement) : M packet :=
  driver_call ;;;
  fun w => match h, transaction w with
           | Connection, Some log =>
               (Ok (snd (execute s (replay log (committed w)))),
                mkWorld (committed w) (Some (log ++ [s])) (leased w) (driver w) (console w))
           | _, _ =>
               let (d, r) := execute s (committed w) in
               (Ok r, mkWorld d (transaction w) (leased w) (driver w) (console w))
           end.

Definition select {R} (h : handle) (q : Db -> list R) : M (list R) :=
  driver_call ;;; fun w => (Ok (q (sees h w)), w).

Definition getConnection : M handle :=
  driver_call ;;;
  fun w => (Ok Connection, mkWorld (committed w) None (S (leased w)) (driver w) (console w)).

Definition beginTransaction : M unit :=
  driver_call ;;;
  fun w => (Ok tt, mkWorld (committed w) (Some []) (leased w) (driver w) (console w)).

Definition commit : M unit :=
  driver_call ;;;
  fun w => (Ok tt, mkWorld (view w) None (leased w) (driver w) (console w)).

Definition rollback : M unit :=
  driver_call ;;;
  fun w => (Ok tt, mkWorld (committed w) None (leased w) (driver w) (console w)).

Definition release : M unit :=
  fun w => (Ok tt, mkWorld (committed w) (transaction w) (pred (leased w)) (driver w) (console w)).

(** ** controllers/productController.js: the inventory ledger *)

Module productController.

Definition insufficient_stock (productId : Z) : Error :=
  mkError ("Insufficient stock or product not found for product ID: " ++ template productId)%string.

(** [connection || db] *)
Definition dbConnection (connection : option handle) : handle :=
  match connection with Some c => c | None => Pool end.

Definition deductProductStock (productId quantity : Z) (connection : option handle) : M bool :=
  result <- query (dbConnection connection) (UpdateStock quantity productId quantity) ;;
  if affectedRows result =? 0
  then throw (insufficient_stock productId)
  else ret true.

(** [imageUrl] is [None] for [null].  Nothing in the [try] block throws on
    a string, so its [catch] is never entered.  [substring(0, -1)], reached
    when there is no dot, is the empty string. *)
Definition getPublicIdFromUrl (imageUrl : option string) : option string :=
  match imageUrl with
  | None => None
  | Some imageUrl =>
      if String.eqb imageUrl "" || negb (includes "cloudinary.com" imageUrl)
      then None
      else
        let parts := split slash imageUrl in
        match indexOf "upload" parts with
        | None => None
        | Some uploadIndex =>
            if (List.length parts <=? uploadIndex + 2)%nat
            then None
            else
              let publicIdWithExtension := join "/" (skipn (uploadIndex + 2) parts) in
              Some (match lastIndexOf dot publicIdWithExtension with
                    | Some last => String.substring 0 last publicIdWithExtension
                    | None => ""
                    end)
        end
  end.

End productController.

(** ** models/productModel.js *)

Module productModel.

(** [productData] is the object's own enumerable properties, in the order of
    [for ... in].  The result is what the function hands on: the error given
    to the callback, or the statement text and the values given to
    [db.query]. *)
Definition updateProduct (productId : json) (productData : list (string * json))
  : Error + string * list json :=
  let fields := map (fun entry => (fst entry ++ " = ?")%string) productData in
  let values := map snd productData in
  match fields with
  | [] => inl (mkError "No fields to update.")
  | _ :: _ =>
      inr (("UPDATE products SET " ++ join ", " fields ++ " WHERE id = ?")%string,
           values ++ [productId])
  end.

End productModel.

(** ** models/cartModel.js *)

Module cartModel.

(** SELECT id, quantity FROM cart_items WHERE user_id = ? AND product_id = ? *)
Definition select_line (userId productId : Z) (d : Db) : list cart_item :=
  filter (cart_line_of userId productId) (cart_items d).

Inductive added :=
| Added (message : string) (cartItemId : Z).

Definition addItem (userId productId quantity : Z) : M added :=
  existingItems <- select Pool (select_line userId productId) ;;
  match existingItems with
  | existingCartItem :: _ =>
      let newQuantity := ci_quantity existingCartItem + quantity in
      query Pool (UpdateCartItemById newQuantity (ci_id existingCartItem)) ;;;
      ret (Added "Cart item quantity updated successfully." (ci_id existingCartItem))
  | [] =>
      result <- query Pool (InsertCartItem userId productId quantity) ;;
      ret (Added "Product added to cart successfully." (insertId result))
  end.

Definition not_found : Error :=
  mkError "Cart item not found or does not belong to the user.".

Definition updateCartItemQuantity (cartItemId userId quantity : Z) : M string :=
  result <- query Pool (UpdateCartItemOfUser quantity cartItemId userId) ;;
  if affectedRows result =? 0
  then throw not_found
  else ret "Cart item quantity updated successfully.".

Definition removeCartItem (cartItemId userId : Z) : M string :=
  result <- query Pool (DeleteCartItemOfUser cartItemId userId) ;;
  if affectedRows result =? 0
  then throw not_found
  else ret "Product removed from cart successfully.".

(** Resolves to the message and the number of deleted rows. *)
Definition clearCart (userId : Z) : M (string * Z) :=
  result <- query Pool (DeleteCartOfUser userId) ;;
  ret ("Cart cleared successfully.", affectedRows result).

(** A row of the cart listing. *)
Record cart_line := mkCartLine {
  cart_item_id : Z;
  line_product_id : Z;
  line_quantity : Z;
  line_product_name : string;
  line_product_price : Z;
  line_product_image_id : string;
  line_product_stock_quantity : Z
}.

(** SELECT ... FROM cart_items ci JOIN products p ON ci.product_id = p.id
    WHERE ci.user_id = ? *)
Definition select_cart (userId : Z) (d : Db) : list cart_line :=
  flat_map (fun ci =>
              map (fun p => mkCartLine (ci_id ci) (ci_product_id ci) (ci_quantity ci)
                                       (p_name p) (p_price p) (p_image_id p)
                                       (p_stock_quantity p))
                  (filter (fun p => ci_product_id ci =? p_id p) (products d)))
           (filter (cart_of_user userId) (cart_items d)).

(** The price goes through [parseFloat], which changes nothing on an amount
    in hundredths. *)
Definition getCartItems (userId : Z) : M (list cart_line) :=
  items <- select Pool (select_cart userId) ;;
  ret (map (fun item =>
              mkCartLine (cart_item_id item) (line_product_id item) (line_quantity item)
                         (line_product_name item) (line_product_price item)
                         (line_product_image_id item) (line_product_stock_quantity item))
           items).

End cartModel.

(** ** HTTP replies *)

Record view_item := mkViewItem {
  product_name : string;
  quantity : Z;
  item_price : Z;
  image_url : string
}.

Record customer := mkCustomer { username : string; email : string }.

(** One entry of the order history: the header and its nested items.
    [v_shipping_address] is [JNull] for JavaScript's [null]; [v_customer] is
    present in the admin listing only. *)
Record order_view := mkOrderView {
  v_order_id : Z;
  v_order_date : Z;
  v_total_amount : Z;
  v_status : string;
  v_shipping_address : json;
  v_customer : option customer;
  v_items : list view_item
}.

Inductive payload :=
| Message (message : string)
| OrderPlaced (message : string) (orderId : Z)
| OrderList (views : list order_view)
| CartUpdated (message : string)
| CartAdded (result : cartModel.added).

(** [res.status(s).json(b)] *)
Record response := mkResponse { status : Z; body : payload }.

(** [try { body } catch (error) { handler }] *)
Definition try_catch {A} (body : M A) (handler : Error -> M A) : M A :=
  fun w => match body w with
           | (Throw error, w') => handler error w'
           | (Ok a, w') => (Ok a, w')
           end.

(** [try { body } finally { cleanup }] *)
Definition finally {A} (body : M A) (cleanup : M unit) : M A :=
  fun w => let (r, w') := body w in
           match cleanup w' with
           | (Ok _, w'') => (r, w'')
           | (Throw e, w'') => (Throw e, w'')
           end.

(** [res.status(s).json(b)] of the handlers whose body is none of the
    [payload]s: [Sent b] is the body of the normal reply, [Failed m] the
    [{ message: m }] of the [catch] block. *)
Inductive sent (B : Type) :=
| Sent (b : B)
| Failed (message : string).
Arguments Sent {B} b.
Arguments Failed {B} message.

Record reply (B : Type) := mkReply { reply_status : Z; reply_body : sent B }.

(** ** controllers/cartController.js *)

Module cartController.

(** [productId] and [quantity] as found in [req.body].  [quantity] is [None]
    when [typeof quantity] is not ['number'], [productId] when the field is
    missing; [!productId] holds of a missing field and of 0. *)
Definition addItemToCart (userId : Z) (productId quantity : option Z) : M response :=
  match productId, quantity with
  | Some productId, Some quantity =>
      if (productId =? 0) || (quantity <=? 0)
      then ret (mkResponse 400 (Message "A valid Product ID and a positive quantity are required."))
      else
        try_catch
          (result <- cartModel.addItem userId productId quantity ;;
           ret (mkResponse 200 (CartAdded result)))
          (fun error =>
             console_error ("Error in addItemToCart controller: " ++ message error)%string ;;;
             ret (mkResponse 500 (Message (or_else (message error) "Failed to add item to cart."))))
  | _, _ => ret (mkResponse 400 (Message "A valid Product ID and a positive quantity are required."))
  end.

Definition status_of (error : Error) : Z :=
  if includes "not found" (message error) then 404 else 500.

Definition updateCartItem (cartItemId userId : Z) (quantity : option Z) : M response :=
  match quantity with
  | Some quantity =>
      if quantity <=? 0
      then ret (mkResponse 400 (Message "A valid positive quantity is required."))
      else
        try_catch
          (result <- cartModel.updateCartItemQuantity cartItemId userId quantity ;;
           ret (mkResponse 200 (CartUpdated result)))
          (fun error =>
             console_error ("Error in updateCartItem controller: " ++ message error)%string ;;;
             ret (mkResponse (status_of error) (Message (message error))))
  | None => ret (mkResponse 400 (Message "A valid positive quantity is required."))
  end.

Definition removeCartItem (cartItemId userId : Z) : M response :=
  try_catch
    (result <- cartModel.removeCartItem cartItemId userId ;;
     ret (mkResponse 200 (CartUpdated result)))
    (fun error =>
       console_error ("Error in removeCartItem controller: " ++ message error)%string ;;;
       ret (mkResponse (status_of error) (Message (message error)))).

Definition getCart (userId : Z) : M (reply (list cartModel.cart_line)) :=
  try_catch
    (items <- cartModel.getCartItems userId ;;
     ret (mkReply 200 (Sent items)))
    (fun error =>
       console_error ("Error in getCart controller: " ++ message error)%string ;;;
       ret (mkReply 500 (Failed (or_else (message error) "Failed to retrieve cart items.")))).

Definition clearUserCart (userId : Z) : M (reply (string * Z)) :=
  try_catch
    (result <- cartModel.clearCart userId ;;
     ret (mkReply 200 (Sent result)))
    (fun error =>
       console_error ("Error in clearUserCart controller: " ++ message error)%string ;;;
       ret (mkReply 500 (Failed (or_else (message error) "Failed to clear cart.")))).

End cartController.

(** ** controllers/orderController.js *)

(** The global [JSON] object.  [JSON_parse] is [None] where [JSON.parse]
    throws a SyntaxError. *)
Class JSON := {
  JSON_parse : string -> option json;
  JSON_stringify : json -> string
}.

(** One element of [req.body.items]. *)
Record item := mkItem {
  product_id : Z;
  item_quantity : Z;
  product_price : Z
}.

(** [req.body] of POST /orders.  [items] is [None] when the field is missing
    or not an array, [totalAmount] when it is [undefined] or [null],
    [shippingAddress] when it is falsy. *)
Record order_body := mkOrderBody {
  items : option (list item);
  totalAmount : option Z;
  shippingAddress : option json
}.

Record request := mkRequest { req_body : order_body; req_user_id : Z }.

(** A row of the history queries. *)
Record history_row := mkHistoryRow {
  r_order_id : Z;
  r_order_date : Z;
  r_total_amount : Z;
  r_status : string;
  r_shipping_address : json_column;
  r_customer : option customer;
  r_quantity : Z;
  r_item_price : Z;
  r_product_name : string;
  r_product_image_id : string
}.

Definition joined (c : option customer) (o : order) (oi : order_item) (p : product) : history_row :=
  mkHistoryRow (o_id o) (o_order_date o) (o_total_amount o) (o_status o)
               (o_shipping_address o) c
               (oi_quantity oi) (oi_price oi) (p_name p) (p_image_id p).

(** JOIN order_items oi ON o.id = oi.order_id JOIN products p ON oi.product_id = p.id *)
Definition join_lines (d : Db) (c : option customer) (o : order) : list history_row :=
  flat_map (fun oi =>
              map (joined c o oi)
                  (filter (fun p => oi_product_id oi =? p_id p) (products d)))
           (filter (fun oi => o_id o =? oi_order_id oi) (order_items d)).

(** ORDER BY o.order_date DESC *)
Fixpoint insert_desc (r : history_row) (l : list history_row) : list history_row :=
  match l with
  | [] => [r]
  | x :: xs => if r_order_date x <=? r_order_date r
               then r :: x :: xs
               else x :: insert_desc r xs
  end.

Definition order_by_date_desc (l : list history_row) : list history_row :=
  fold_right insert_desc [] l.

(** The query of [getUserOrders]. *)
Definition select_user_orders (userId : Z) (d : Db) : list history_row :=
  order_by_date_desc
    (flat_map (join_lines d None)
              (filter (fun o => o_user_id o =? userId) (orders d))).

(** The query of [getAllOrders]: also JOIN users u ON o.user_id = u.id. *)
Definition select_all_orders (d : Db) : list history_row :=
  order_by_date_desc
    (flat_map (fun o =>
                 flat_map (fun u => join_lines d (Some (mkCustomer (u_username u) (u_email u))) o)
                          (filter (fun u => o_user_id o =? u_id u) (users d)))
              (orders d)).

(** DECIMAL columns arrive as text of an amount; with amounts in hundredths
    [parseFloat] changes nothing. *)
Definition parseFloat (amount : Z) : Z := amount.

(** [ordersMap]: a JavaScript [Map], iterated in insertion order. *)
Definition orders_map := list (Z * order_view).

Definition has (m : orders_map) (k : Z) : bool :=
  existsb (fun e => fst e =? k) m.

Definition push_item (it : view_item) (v : order_view) : order_view :=
  mkOrderView (v_order_id v) (v_order_date v) (v_total_amount v) (v_status v)
              (v_shipping_address v) (v_customer v) (v_items v ++ [it]).

(** [ordersMap.get(k).items.push(it)] *)
Definition push_at (k : Z) (it : view_item) (m : orders_map) : orders_map :=
  map (fun e => if fst e =? k then (fst e, push_item it (snd e)) else e) m.

Definition item_of (row : history_row) : view_item :=
  mkViewItem (r_product_name row) (r_quantity row) (parseFloat (r_item_price row))
             (r_product_image_id row).

Section orderController.

Context {J : JSON}.

Definition order_lines (orderId : Z) (connection : handle) : list item -> M unit :=
  fix each (items : list item) : M unit :=
    match items with
    | [] => ret tt
    | item :: rest =>
        query connection
              (InsertOrderItem orderId (product_id item) (item_quantity item) (product_price item)) ;;;
        productController.deductProductStock (product_id item) (item_quantity item)
                                             (Some connection) ;;;
        each rest
    end.

(** The [try] block of [createOrder] once the connection is there. *)
Definition place (connection : handle) (userId : Z) (items : list item)
           (totalAmount : Z) (shippingAddress : json) : M response :=
  beginTransaction ;;;
  orderResult <- query connection
                   (InsertOrder userId totalAmount (JSON_stringify shippingAddress) "pending") ;;
  let orderId := insertId orderResult in
  order_lines orderId connection items ;;;
  cartModel.clearCart userId ;;;
  commit ;;;
  ret (mkResponse 201 (OrderPlaced "Order placed successfully!" orderId)).

Definition order_failed (error : Error) : M response :=
  console_error ("Error placing order: " ++ message error)%string ;;;
  ret (mkResponse 500 (Message (or_else (message error) "Failed to place order."))).

(** From [let connection;] to the end of the [finally] block.  [connection]
    stays [undefined] when [getConnection] rejects: then the [catch] and
    [finally] blocks skip [rollback] and [release]. *)
Definition transact (userId : Z) (items : list item)
           (totalAmount : Z) (shippingAddress : json) : M response :=
  fun w =>
    match getConnection w with
    | (Throw error, w') => order_failed error w'
    | (Ok connection, w') =>
        finally
          (try_catch
             (place connection userId items totalAmount shippingAddress)
             (fun error => rollback ;;; order_failed error))
          release w'
    end.

Definition createOrder (req : request) : M response :=
  let userId := req_user_id req in
  match items (req_body req) with
  | None | Some [] =>
      ret (mkResponse 400 (Message "Order must contain at least one item."))
  | Some items =>
      match totalAmount (req_body req) with
      | None => ret (mkResponse 400 (Message "Total amount is required."))
      | Some totalAmount =>
          match shippingAddress (req_body req) with
          | None => ret (mkResponse 400 (Message "Shipping address is required."))
          | Some shippingAddress => transact userId items totalAmount shippingAddress
          end
      end
  end.

Definition parse_address (row : history_row) : M json :=
  match r_shipping_address row with
  | Text s =>
      match JSON_parse s with
      | Some parsedAddress => ret parsedAddress
      | None =>
          console_error ("Could not parse shipping address for order ID "
                           ++ template (r_order_id row) ++ ": " ++ s)%string ;;;
          ret JNull
      end
  | Decoded parsedAddress => ret parsedAddress
  end.

(** The body of [results.forEach(row => ...)]. *)
Definition collect_row (ordersMap : orders_map) (row : history_row) : M orders_map :=
  ordersMap <-
    (if has ordersMap (r_order_id row)
     then ret ordersMap
     else
       parsedAddress <- parse_address row ;;
       ret (ordersMap ++
              [(r_order_id row,
                mkOrderView (r_order_id row) (r_order_date row)
                            (parseFloat (r_total_amount row)) (r_status row)
                            parsedAddress (r_customer row) [])])) ;;
  ret (push_at (r_order_id row) (item_of row) ordersMap).

Fixpoint forEach (results : list history_row) (ordersMap : orders_map) : M orders_map :=
  match results with
  | [] => ret ordersMap
  | row :: rest => ordersMap <- collect_row ordersMap row ;; forEach rest ordersMap
  end.

Definition getUserOrders (userId : Z) : M response :=
  try_catch
    (results <- select Pool (select_user_orders userId) ;;
     ordersMap <- forEach results [] ;;
     ret (mkResponse 200 (OrderList (map snd ordersMap))))
    (fun error =>
       console_error ("Error fetching user orders: " ++ message error)%string ;;;
       ret (mkResponse 500 (Message "Failed to fetch user orders."))).

Definition getAllOrders : M response :=
  try_catch
    (results <- select Pool select_all_orders ;;
     ordersMap <- forEach results [] ;;
     ret (mkResponse 200 (OrderList (map snd ordersMap))))
    (fun error =>
       console_error ("Error fetching all orders: " ++ message error)%string ;;;
       ret (mkResponse 500 (Message "Failed to fetch all orders."))).

End orderController.

(** ** services/cloudinaryService.js *)

(** [cloudinary.uploader.destroy(publicId, ...)]: the [result] field of what
    it resolves to, or the error it rejects with. *)
Class Cloudinary := { uploader_destroy : string -> result string }.

(** [console.log(...)] and [console.warn(...)] write to the same console. *)
Definition console_log (line : string) : M unit := console_error line.

Definition console_warn (line : string) : M unit := console_error line.

Module cloudinaryService.

Definition deleteImage `{Cloudinary} (publicId : string) : M bool :=
  match uploader_destroy publicId with
  | Ok outcome =>
      if negb (String.eqb outcome "ok")
      then
        console_warn ("Cloudinary deletion warning for public_id " ++ publicId
                        ++ ": " ++ outcome)%string ;;;
        ret false
      else
        console_log ("Image deleted from Cloudinary successfully: " ++ publicId)%string ;;;
        ret true
  | Throw error =>
      console_error ("Cloudinary deletion error for public_id " ++ publicId
                       ++ ": " ++ message error)%string ;;;
      ret false
  end.

End cloudinaryService.

(** ** controllers/productController.js: deleting a product *)

(** DELETE FROM products WHERE id = ?, with the ON DELETE CASCADE that
    schema.sql puts on cart_items.product_id and order_items.product_id: the
    lines of a deleted product go with it. *)
Definition delete_product (id : Z) (d : Db) : Db * packet :=
  if existsb (fun p => p_id p =? id) (products d)
  then
    (mkDb (users d)
          (delete_where (fun p => p_id p =? id) (products d))
          (delete_where (fun c => ci_product_id c =? id) (cart_items d))
          (orders d)
          (delete_where (fun oi => oi_product_id oi =? id) (order_items d))
          (next_cart_item_id d) (next_order_id d) (next_order_item_id d)
          (current_timestamp d),
     mkPacket 0 (count (fun p => p_id p =? id) (products d)))
  else (d, mkPacket 0 0).

(** [db.query] for a writing statement given by its meaning on the tables. *)
Definition run_pool (meaning : Db -> Db * packet) : M packet :=
  driver_call ;;;
  fun w => let (d, r) := meaning (committed w) in
           (Ok r, mkWorld d (transaction w) (leased w) (driver w) (console w)).

(** SELECT image_id FROM products WHERE id = ?.  A NULL image_id is the
    empty string here: [getPublicIdFromUrl] answers [null] to both. *)
Definition select_image (id : Z) (d : Db) : list string :=
  map p_image_id (filter (fun p => p_id p =? id) (products d)).

Definition deleteProduct `{Cloudinary} (id : Z) : M response :=
  try_catch
    (products <- select Pool (select_image id) ;;
     match products with
     | [] => ret (mkResponse 404 (Message "Product not found."))
     | imageUrl :: _ =>
         result <- run_pool (delete_product id) ;;
         if affectedRows result =? 0
         then ret (mkResponse 404 (Message "Product not found for deletion."))
         else
           (match productController.getPublicIdFromUrl (Some imageUrl) with
            | Some publicId =>
                if String.eqb publicId ""
                then ret tt
                else cloudinaryService.deleteImage publicId ;;; ret tt
            | None => ret tt
            end) ;;;
           ret (mkResponse 200 (Message "Product deleted successfully."))
     end)
    (fun error =>
       console_error ("Error deleting product with ID " ++ template id ++ ": "
                        ++ message error)%string ;;;
       ret (mkResponse 500 (Message "Failed to delete product."))).

(** ** middleware/authMiddleware.js *)

(** The payload of a token, which [protect] copies into [req.user]. *)
Record user_payload := mkPayload {
  t_id : Z;
  t_username : string;
  t_email : string;
  t_role : string
}.

(** [jwt.verify(token, process.env.JWT_SECRET)]: the decoded payload, or the
    error it throws. *)
Class JWT := { jwt_verify : string -> result user_payload }.

Module authMiddleware.

(** The token of [req.headers.authorization]: the second piece of a header
    that starts with [Bearer]; [None] where [token] stays [undefined]. *)
Definition bearer (authorization : option string) : option string :=
  match authorization with
  | Some header =>
      if negb (String.eqb header "") && String.prefix "Bearer" header
      then nth_error (split space header) 1
      else None
  | None => None
  end.

(** [deny s m] is [res.status(s).json({ message: m })]; [next user] is the
    rest of the route once [req.user] is set.  The handlers that follow throw
    nothing before their first [await], so the [catch] sees [jwt.verify]
    only. *)
Definition protect {R} `{JWT} (deny : Z -> string -> R)
           (authorization : option string) (next : user_payload -> M R) : M R :=
  match bearer authorization with
  | None => ret (deny 401 "Not authorized, no token provided.")
  | Some token =>
      if String.eqb token ""
      then ret (deny 401 "Not authorized, no token provided.")
      else
        match jwt_verify token with
        | Ok decoded =>
            next (mkPayload (t_id decoded) (t_username decoded) (t_email decoded)
                            (t_role decoded))
        | Throw error =>
            console_error ("Token verification failed: " ++ message error)%string ;;;
            ret (deny 401 "Not authorized, token failed.")
        end
  end.

(** [user] is [req.user], [None] when no middleware has set it. *)
Definition authorizeRoles {R} (deny : Z -> string -> R) (roles : list string)
           (user : option user_payload) (next : M R) : M R :=
  match user with
  | Some u =>
      if includes_role (t_role u) roles
      then next
      else ret (deny 403 ("User role '" ++ t_role u
                            ++ "' is not authorized to access this route.")%string)
  | None =>
      ret (deny 403 "User role 'undefined' is not authorized to access this route.")
  end.

End authMiddleware.

(** ** routes/orders.js and routes/cartRoutes.js *)

Definition deny_response (s : Z) (m : string) : response := mkResponse s (Message m).

Definition deny_reply {B} (s : Z) (m : string) : reply B := mkReply s (Failed m).

Section routes.

Context {J : JSON} {T : JWT}.

(** POST /api/orders *)
Definition post_orders (authorization : option string) (b : order_body) : M response :=
  authMiddleware.protect deny_response authorization
    (fun user => createOrder (mkRequest b (t_id user))).

(** GET /api/orders/my *)
Definition get_orders_my (authorization : option string) : M response :=
  authMiddleware.protect deny_response authorization
    (fun user => getUserOrders (t_id user)).

(** GET /api/orders/all *)
Definition get_orders_all (authorization : option string) : M response :=
  authMiddleware.protect deny_response authorization
    (fun user =>
       authMiddleware.authorizeRoles deny_response ["admin"] (Some user) getAllOrders).

(** GET /api/cart *)
Definition get_cart (authorization : option string) : M (reply (list cartModel.cart_line)) :=
  authMiddleware.protect deny_reply authorization
    (fun user => cartController.getCart (t_id user)).

(** DELETE /api/cart/clear *)
Definition delete_cart_clear (authorization : option string) : M (reply (string * Z)) :=
  authMiddleware.protect deny_reply authorization
    (fun user => cartController.clearUserCart (t_id user)).

End routes.

(** ** Vocabulary of the properties *)

(** No failure is scripted for the driver: no call is rejected, be it for a
    lost connection or for a constraint of schema.sql (a foreign key, the
    unique cart key) that its statement would violate. *)
Definition healthy (w : World) : Prop := driver w = [].

(** PRIMARY KEY (id) on products. *)
Definition primary_key (ps : list product) : Prop := NoDup (map p_id ps).

(** The stock of a product, if the product is there. *)
Definition stock_of (productId : Z) (ps : list product) : option Z :=
  option_map p_stock_quantity (find (fun p => p_id p =? productId) ps).

Definition stock_nonnegative (ps : list product) : Prop :=
  Forall (fun p => 0 <= p_stock_quantity p) ps.

(** A run of [deductProductStock(productId, q)] calls through the pool, one
    per element of [qs]: the sum of the quantities of the calls that
    succeeded, and the committed tables after each call. *)
Fixpoint deductions (productId : Z) (qs : list Z) (w : World) : Z * list Db :=
  match qs with
  | [] => (0, [])
  | q :: rest =>
      let (r, w') := productController.deductProductStock productId q None w in
      let (total, seen) := deductions productId rest w' in
      ((match r with Ok _ => q | Throw _ => 0 end) + total, committed w' :: seen)
  end.

(** The conditional update of one order line finds its row. *)
Definition line_matches (it : item) (ps : list product) : bool :=
  existsb (stock_guard (product_id it) (item_quantity it)) ps.

Definition line_taken (ps : list product) (it : item) : list product :=
  update_where (stock_guard (product_id it) (item_quantity it))
               (take_stock (item_quantity it)) ps.

(** The products table after the decrements of [lines], in order. *)
Definition stocks_after (lines : list item) (ps : list product) : list product :=
  fold_left line_taken lines ps.

(** Every decrement of [lines], run in order, finds its row. *)
Fixpoint in_stock (lines : list item) (ps : list product) : bool :=
  match lines with
  | [] => true
  | it :: rest => line_matches it ps && in_stock rest (line_taken ps it)
  end.

(** The number of cart lines of a (user, product) pair. *)
Definition lines_of (userId productId : Z) (d : Db) : list cart_item :=
  filter (cart_line_of userId productId) (cart_items d).

(** ** Data for the examples *)

Definition quote : string := String (Ascii.ascii_of_nat 34) EmptyString.

Fixpoint stringify (j : json) : string :=
  match j with
  | JNull => "null"
  | JBool true => "true"
  | JBool false => "false"
  | JNumber n => template n
  | JString s => quote ++ s ++ quote
  | JArray l => "[" ++ String.concat "," (map stringify l) ++ "]"
  | JObject fs =>
      "{" ++ String.concat ","
                (map (fun kv : string * json => let (k, v) := kv in quote ++ k ++ quote ++ ":" ++ stringify v) fs)
          ++ "}"
  end%string.

(** A [JSON] for the examples: it writes every value (without escapes) and
    reads back the bare literals only; any other text is a SyntaxError. *)
Definition literal_JSON : JSON :=
  {| JSON_parse := fun s =>
       if String.eqb s "null" then Some JNull
       else if String.eqb s "true" then Some (JBool true)
       else if String.eqb s "false" then Some (JBool false)
       else if String.eqb s "{}" then Some (JObject [])
       else if String.eqb s "[]" then Some (JArray [])
       else None;
     JSON_stringify := stringify |}.

Definition address : json :=
  JObject [("city", JString "Mangaluru"); ("pincode", JString "575001")].

(** Two products (stock 5 and 2), a cart of user 7 holding both. *)
Definition shop : Db :=
  mkDb [mkUser 7 "asha" "asha@example.com"]
       [mkProduct 1 "Kori Rotti" 12000 5 "img1"; mkProduct 2 "Banana Chips" 8000 2 "img2"]
       [mkCartItem 1 7 1 3; mkCartItem 2 7 2 1; mkCartItem 3 8 1 1]
       [] []
       4 1 1 1000.

Definition idle (d : Db) (script : list (option Error)) : World :=
  mkWorld d None 0 script [].

(** POST /orders by user 7 with the given lines. *)
Definition checkout (lines : list item) : request :=
  mkRequest (mkOrderBody (Some lines) (Some 44000) (Some address)) 7.

Definition lost : Error := mkError "Connection lost: The server closed the connection.".

(** A driver that rejects its [n+1]-th call with [lost]. *)
Definition fails_at (n : nat) : list (option Error) := repeat None n ++ [Some lost].

(** The order has a line whose product is still in the catalogue. *)
Definition live_line (d : Db) (o : order) : Prop :=
  exists oi p,
    In oi (order_items d) /\ oi_order_id oi = o_id o /\
    In p (products d) /\ p_id p = oi_product_id oi.

(** What [console.error] writes for an address that does not parse. *)
Definition address_anomaly (row : history_row) (s : string) : string :=
  ("Could not parse shipping address for order ID " ++ template (r_order_id row) ++ ": " ++ s)%string.

(** The address of view [v] is the one of [row]: decoded, or [null] with the
    anomaly on the console [c] when the text does not parse. *)
Definition address_held {J : JSON} (row : history_row) (v : order_view) (c : list string) : Prop :=
  match r_shipping_address row with
  | Text s =>
      match JSON_parse s with
      | Some j => v_shipping_address v = j
      | None => v_shipping_address v = JNull /\ In (address_anomaly row s) c
      end
  | Decoded j => v_shipping_address v = j
  end.

(** [m] groups the rows [done]: one entry per order id, each holding the
    items of all rows of that order, in row order, and the header of one of
    these rows. *)
Definition grouped {J : JSON} (done : list history_row) (m : orders_map) (c : list string) : Prop :=
  NoDup (map fst m) /\
  (forall k, In k (map fst m) <-> In k (map r_order_id done)) /\
  (forall k v, In (k, v) m ->
     v_order_id v = k /\
     v_items v = map item_of (filter (fun r => r_order_id r =? k) done) /\
     exists row, In row done /\ r_order_id row = k /\
                 v_order_date v = r_order_date row /\ address_held row v c).

Definition descending (dates : list Z) : Prop :=
  StronglySorted (fun a b => b <= a) dates.

(** [views] is the history that [rows] describe: one view per order id of
    the rows, each with the items of all rows of its order and the header of
    one of them, newest first. *)
Definition history_of {J : JSON} (rows : list history_row) (views : list order_view)
           (c : list string) : Prop :=
  NoDup (map v_order_id views) /\
  (forall row, In row rows -> In (r_order_id row) (map v_order_id views)) /\
  (forall v, In v views ->
     v_items v = map item_of (filter (fun r => r_order_id r =? v_order_id v) rows) /\
     exists row, In row rows /\ r_order_id row = v_order_id v /\
                 v_order_date v = r_order_date row /\ address_held row v c) /\
  descending (map v_order_date views).

(** Three orders of user 7: order 1 with two lines and an address that reads
    back, order 2 (the newest) with one line and an address that does not
    parse, order 3 whose lines are gone. *)
Definition archive : Db :=
  mkDb [mkUser 7 "asha" "asha@example.com"]
       [mkProduct 1 "Kori Rotti" 12000 5 "img1"; mkProduct 2 "Banana Chips" 8000 2 "img2"]
       []
       [mkOrder 1 7 32000 (Text "{}") "pending" 1000;
        mkOrder 2 7 12000 (Text "Car Street, Mangaluru") "shipped" 2000;
        mkOrder 3 7 5000 (Text "{}") "pending" 1500]
       [mkOrderItem 1 1 1 2 12000; mkOrderItem 2 1 2 1 8000; mkOrderItem 3 2 1 1 12000]
       1 4 4 3000.

(** The tables an order attempt writes inside its transaction. *)
Definition ledger (d : Db) : list order * list order_item * list product :=
  (orders d, order_items d, products d).

(** From [w] to [w'] nothing of the ledger was committed and a transaction
    is still open. *)
Definition pending (w w' : World) : Prop :=
  ledger (committed w') = ledger (committed w) /\ transaction w' <> None.

(** ** Vocabulary of the further properties *)

(** The rows of order_items that the lines of a request become, numbered
    from [start]. *)
Fixpoint new_items (orderId start : Z) (lines : list item) : list order_item :=
  match lines with
  | [] => []
  | it :: rest =>
      mkOrderItem start orderId (product_id it) (item_quantity it) (product_price it)
      :: new_items orderId (start + 1) rest
  end.

(** The statements that the loop over the lines sends. *)
Definition lines_log (orderId : Z) (lines : list item) : list statement :=
  flat_map (fun it =>
              [InsertOrderItem orderId (product_id it) (item_quantity it) (product_price it);
               UpdateStock (item_quantity it) (product_id it) (item_quantity it)])
           lines.

(** The tables once an order of [lines] is placed on [d]. *)
Definition placed {J : JSON} (userId totalAmount : Z) (shippingAddress : json)
           (lines : list item) (d : Db) : Db :=
  mkDb (users d)
       (stocks_after lines (products d))
       (delete_where (cart_of_user userId) (cart_items d))
       (orders d ++ [mkOrder (next_order_id d) userId totalAmount
                             (Text (JSON_stringify shippingAddress)) "pending"
                             (current_timestamp d)])
       (order_items d ++ new_items (next_order_id d) (next_order_item_id d) lines)
       (next_cart_item_id d) (next_order_id d + 1)
       (next_order_item_id d + Z.of_nat (List.length lines))
       (current_timestamp d).

(** What [lines] ask of a product in all. *)
Definition demand (productId : Z) (lines : list item) : Z :=
  fold_right (fun it total =>
                (if product_id it =? productId then item_quantity it else 0) + total)
             0 lines.

(** PRIMARY KEY (id) on cart_items. *)
Definition cart_primary_key (cs : list cart_item) : Prop := NoDup (map ci_id cs).

(** The quantity of a cart item, if the item is there. *)
Definition cart_quantity (cartItemId : Z) (cs : list cart_item) : option Z :=
  option_map ci_quantity (find (cart_id_is cartItemId) cs).

(** A [JWT] for the examples: two tokens verify, any other is rejected. *)
Definition sample_JWT : JWT :=
  {| jwt_verify := fun token =>
       if String.eqb token "token-of-asha"
       then Ok (mkPayload 7 "asha" "asha@example.com" "user")
       else if String.eqb token "token-of-admin"
       then Ok (mkPayload 1 "root" "root@example.com" "admin")
       else Throw (mkError "jwt malformed") |}.

(** A [Cloudinary] for the examples: the service is down. *)
Definition cloudinary_down : Cloudinary :=
  {| uploader_destroy := fun _ => Throw (mkError "getaddrinfo ENOTFOUND api.cloudinary.com") |}.

(** The archive with a delivery URL as the image of product 1, and a cart
    line for each product. *)
Definition gallery : Db :=
  mkDb (users archive)
       [mkProduct 1 "Kori Rotti" 12000 5
                  "http://res.cloudinary.com/demo/image/upload/v1712/tulunad-store-products/kori.jpg";
        mkProduct 2 "Banana Chips" 8000 2 "img2"]
       [mkCartItem 1 7 1 3; mkCartItem 2 7 2 1]
       (orders archive) (order_items archive)
       3 4 4 3000.

(** * Properties *)

(** ** Lists as tables *)

Lemma count_zero_existsb {A} (f : A -> bool) (l : list A) :
  (count f l =? 0) = negb (existsb f l).
Proof.
  unfold count. induction l as [|a l IH]; simpl; [reflexivity|].
  destruct (f a); simpl; [reflexivity|exact IH].
Qed.

Lemma update_where_none {A} (f : A -> bool) (g : A -> A) (l : list A) :
  existsb f l = false -> update_where f g l = l.
Proof.
  unfold update_where. induction l as [|a l IH]; simpl; [reflexivity|].
  intros H. apply orb_false_iff in H as [Ha Hl].
  rewrite Ha, (IH Hl). reflexivity.
Qed.

Lemma delete_where_none {A} (f : A -> bool) (l : list A) :
  existsb f l = false -> delete_where f l = l.
Proof.
  unfold delete_where. induction l as [|a l IH]; simpl; [reflexivity|].
  intros H. apply orb_false_iff in H as [Ha Hl].
  rewrite Ha. simpl. rewrite (IH Hl). reflexivity.
Qed.

Lemma with_products_same (d : Db) : with_products (products d) d = d.
Proof. destruct d; reflexivity. Qed.

Lemma with_cart_items_same (d : Db) : with_cart_items (cart_items d) d = d.
Proof. destruct d; reflexivity. Qed.

(** ** The products table under the conditional update *)

Lemma update_stock_ids (productId q : Z) (ps : list product) :
  map p_id (update_where (stock_guard productId q) (take_stock q) ps) = map p_id ps.
Proof.
  unfold update_where. rewrite map_map. apply map_ext.
  intros p. destruct (stock_guard productId q p); reflexivity.
Qed.

Lemma update_stock_primary_key (productId q : Z) (ps : list product) :
  primary_key ps ->
  primary_key (update_where (stock_guard productId q) (take_stock q) ps).
Proof. unfold primary_key. rewrite update_stock_ids. trivial. Qed.

Lemma stock_of_update (productId q other : Z) (ps : list product) :
  stock_of other (update_where (stock_guard productId q) (take_stock q) ps) =
  option_map (fun s => if (other =? productId) && (q <=? s) then s - q else s)
             (stock_of other ps).
Proof.
  unfold stock_of, update_where. induction ps as [|p ps IH]; [reflexivity|].
  cbn [map find].
  assert (Hid : p_id (if stock_guard productId q p then take_stock q p else p) = p_id p)
    by (destruct (stock_guard productId q p); reflexivity).
  rewrite Hid. destruct (p_id p =? other) eqn:Eo; [|exact IH].
  apply Z.eqb_eq in Eo. subst other. cbn [option_map].
  unfold stock_guard. destruct (p_id p =? productId); cbn [andb]; [|reflexivity].
  destruct (q <=? p_stock_quantity p); reflexivity.
Qed.

Lemma guard_absent (productId q : Z) (ps : list product) :
  ~ In productId (map p_id ps) -> existsb (stock_guard productId q) ps = false.
Proof.
  induction ps as [|p ps IH]; simpl; [reflexivity|].
  intros H. unfold stock_guard at 1.
  destruct (p_id p =? productId) eqn:Ep.
  - apply Z.eqb_eq in Ep. exfalso. apply H. now left.
  - simpl. apply IH. intros Hin. apply H. now right.
Qed.

(** Under the primary key the guard of the update is a test on the one row
    of the product. *)
Lemma guard_stock_of (productId q : Z) (ps : list product) :
  primary_key ps ->
  existsb (stock_guard productId q) ps =
  match stock_of productId ps with
  | Some s => q <=? s
  | None => false
  end.
Proof.
  unfold primary_key, stock_of. induction ps as [|p ps IH]; simpl; [reflexivity|].
  intros Hk. inversion Hk as [|? ? Hnotin Hrest]; subst.
  unfold stock_guard at 1.
  destruct (p_id p =? productId) eqn:Ep; simpl.
  - apply Z.eqb_eq in Ep. rewrite <- Ep in *.
    rewrite guard_absent by exact Hnotin. apply orb_false_r.
  - apply IH. exact Hrest.
Qed.

Lemma update_stock_nonnegative (productId q : Z) (ps : list product) :
  stock_nonnegative ps ->
  stock_nonnegative (update_where (stock_guard productId q) (take_stock q) ps).
Proof.
  unfold stock_nonnegative, update_where. intros H.
  apply Forall_forall. intros p' Hin.
  apply in_map_iff in Hin as (p & <- & Hp).
  rewrite Forall_forall in H. specialize (H p Hp).
  unfold stock_guard. destruct (p_id p =? productId); simpl; [|exact H].
  destruct (q <=? p_stock_quantity p) eqn:Eq; simpl; [|exact H].
  apply Z.leb_le in Eq. lia.
Qed.

(** ** The driver and the monad *)

Lemma driver_call_healthy (w : World) : healthy w -> driver_call w = (Ok tt, w).
Proof. unfold healthy, driver_call. intros ->. reflexivity. Qed.

Lemma replay_snoc (log : list statement) (s : statement) (d : Db) :
  replay (log ++ [s]) d = fst (execute s (replay log d)).
Proof. unfold replay. rewrite fold_left_app. reflexivity. Qed.

(** A statement that goes through runs against the tables its handle sees. *)
Lemma query_sees (h : handle) (s : statement) (w : World) :
  healthy w ->
  exists w',
    query h s w = (Ok (snd (execute s (sees h w))), w') /\
    sees h w' = fst (execute s (sees h w)) /\
    healthy w' /\ leased w' = leased w /\ console w' = console w.
Proof.
  intros Hw. unfold query, bind. rewrite (driver_call_healthy Hw).
  destruct h; cbn [sees].
  - destruct (execute s (committed w)) as [d r] eqn:E. eexists.
    repeat split; try reflexivity. exact Hw.
  - unfold view. destruct (transaction w) as [log|] eqn:Et.
    + eexists. split; [reflexivity|]. cbn [transaction committed].
      rewrite replay_snoc. repeat split; try reflexivity. exact Hw.
    + destruct (execute s (committed w)) as [d r] eqn:E. eexists.
      split; [reflexivity|]. cbn [transaction committed].
      repeat split; try reflexivity. exact Hw.
Qed.

Lemma query_pool (s : statement) (w : World) :
  healthy w ->
  query Pool s w =
  (Ok (snd (execute s (committed w))),
   mkWorld (fst (execute s (committed w))) (transaction w) (leased w) (driver w) (console w)).
Proof.
  intros Hw. unfold query, bind. rewrite (driver_call_healthy Hw).
  destruct (execute s (committed w)); reflexivity.
Qed.

Lemma query_in_transaction (s : statement) (w : World) (log : list statement) :
  healthy w -> transaction w = Some log ->
  query Connection s w =
  (Ok (snd (execute s (replay log (committed w)))),
   mkWorld (committed w) (Some (log ++ [s])) (leased w) (driver w) (console w)).
Proof.
  intros Hw Ht. unfold query, bind. rewrite (driver_call_healthy Hw), Ht. reflexivity.
Qed.

Lemma select_pool {R} (q : Db -> list R) (w : World) :
  healthy w -> select Pool q w = (Ok (q (committed w)), w).
Proof.
  intros Hw. unfold select, bind. rewrite (driver_call_healthy Hw). reflexivity.
Qed.
(** ** Inventory ledger *)

(** C4: [deductProductStock] lowers the stock of the product by exactly the
    quantity when the product is there with at least that much stock; when
    the product is absent or short it throws the one insufficient-stock error
    and the products table stays as it was. *)
Theorem deductProductStock_conditional_decrement :
  forall (w : World) (connection : option handle) (productId quantity : Z),
    healthy w ->
    primary_key (products (sees (productController.dbConnection connection) w)) ->
    let h := productController.dbConnection connection in
    let before := products (sees h w) in
    let (r, w') := productController.deductProductStock productId quantity connection w in
    let after := products (sees h w') in
    match stock_of productId before with
    | Some s =>
        if quantity <=? s
        then r = Ok true /\
             stock_of productId after = Some (s - quantity) /\
             (forall other, other <> productId -> stock_of other after = stock_of other before)
        else r = Throw (productController.insufficient_stock productId) /\ after = before
    | None => r = Throw (productController.insufficient_stock productId) /\ after = before
    end.
Proof.
  intros w connection productId quantity Hw Hk. cbv zeta.
  unfold productController.deductProductStock, bind.
  set (h := productController.dbConnection connection) in *.
  destruct (query_sees h (UpdateStock quantity productId quantity) Hw)
    as (w' & Hq & Hs & _).
  rewrite Hq. cbn [execute snd affectedRows].
  set (before := products (sees h w)) in *.
  rewrite count_zero_existsb, (guard_stock_of productId quantity Hk).
  cbn [execute fst] in Hs.
  assert (Hafter : products (sees h w') =
                   update_where (stock_guard productId quantity) (take_stock quantity) before)
    by (rewrite Hs; reflexivity).
  assert (Hnone : existsb (stock_guard productId quantity) before = false ->
                  products (sees h w') = before)
    by (intros E; rewrite Hafter; apply update_where_none; exact E).
  rewrite (guard_stock_of productId quantity Hk) in Hnone.
  destruct (stock_of productId before) as [s|] eqn:Es.
  - destruct (quantity <=? s) eqn:Eq; cbn [negb]; unfold ret, throw.
    + split; [reflexivity|]. rewrite Hafter. split.
      * rewrite stock_of_update, Es. cbn [option_map]. rewrite Z.eqb_refl, Eq. reflexivity.
      * intros other Ho. rewrite stock_of_update.
        apply Z.eqb_neq in Ho. rewrite Ho. cbn [andb].
        destruct (stock_of other before); reflexivity.
    + split; [reflexivity|]. apply Hnone. reflexivity.
  - cbn [negb]. unfold throw. split; [reflexivity|]. apply Hnone. reflexivity.
Qed.

Lemma deductProductStock_conditional_decrement_witness :
  healthy (idle shop []) /\ primary_key (products (sees Pool (idle shop []))) /\
  fst (productController.deductProductStock 1 3 None (idle shop [])) = Ok true /\
  stock_of 1 (products (committed
                (snd (productController.deductProductStock 1 3 None (idle shop []))))) = Some 2.
Proof.
  pose proof (@deductProductStock_conditional_decrement (idle shop []) None 1 3) as H.
  split; [reflexivity|]. split; [repeat constructor; simpl; intuition lia|].
  assert (Hw : healthy (idle shop [])) by reflexivity.
  assert (Hk : primary_key (products (sees (productController.dbConnection None) (idle shop []))))
    by (repeat constructor; simpl; intuition lia).
  specialize (H Hw Hk). cbv zeta in H.
  destruct (productController.deductProductStock 1 3 None (idle shop [])) as [r w'].
  change (stock_of 1 (products (sees (productController.dbConnection None) (idle shop []))))
    with (Some 5) in H.
  change (3 <=? 5) with true in H. cbv iota in H.
  destruct H as (Hr & Hs & _). split; [exact Hr|exact Hs].
Defined.
(** A pool statement under any driver script: it runs against the committed
    tables, or the driver rejects and nothing changes. *)
Lemma query_pool_cases (s : statement) (w : World) :
  (exists w', query Pool s w = (Ok (snd (execute s (committed w))), w') /\
              committed w' = fst (execute s (committed w)) /\
              transaction w' = transaction w /\ console w' = console w)
  \/
  (exists e w', query Pool s w = (Throw e, w') /\
                committed w' = committed w /\
                transaction w' = transaction w /\ console w' = console w).
Proof.
  unfold query, bind, driver_call.
  destruct (driver w) as [|[e|] rest].
  - left. destruct (execute s (committed w)). eexists. repeat split; reflexivity.
  - right. do 2 eexists. repeat split; reflexivity.
  - left. cbn [committed transaction leased driver console].
    destruct (execute s (committed w)). eexists. repeat split; reflexivity.
Qed.

(** One ledger call through the pool, whatever the driver does: either the
    guarded update found its row and was applied, or nothing changed. *)
Lemma deductProductStock_pool_step (productId q : Z) (w : World) :
  let (r, w') := productController.deductProductStock productId q None w in
  (r = Ok true /\
   existsb (stock_guard productId q) (products (committed w)) = true /\
   products (committed w') =
   update_where (stock_guard productId q) (take_stock q) (products (committed w)))
  \/
  ((exists e, r = Throw e) /\ products (committed w') = products (committed w)).
Proof.
  unfold productController.deductProductStock, bind.
  cbn [productController.dbConnection].
  destruct (query_pool_cases (UpdateStock q productId q) w)
    as [(w' & -> & Hc & _) | (e & w' & -> & Hc & _)].
  - cbn [execute snd fst affectedRows] in *. rewrite count_zero_existsb.
    destruct (existsb (stock_guard productId q) (products (committed w))) eqn:Ex;
      cbn [negb]; unfold ret, throw.
    + left. rewrite Hc. repeat split; reflexivity.
    + right. split; [eexists; reflexivity|]. rewrite Hc. cbn [products with_products].
      apply update_where_none. exact Ex.
  - right. split; [eexists; reflexivity|]. rewrite Hc. reflexivity.
Qed.

(** C3: against a product with stock [S >= 0], the quantities of the
    [deductProductStock] calls that succeed never add up to more than [S],
    and after every call the stock of the product is still non-negative. *)
Theorem deductProductStock_never_oversells :
  forall (qs : list Z) (w : World) (productId S : Z),
    primary_key (products (committed w)) ->
    stock_of productId (products (committed w)) = Some S ->
    0 <= S ->
    fst (deductions productId qs w) <= S /\
    Forall (fun d => exists s, stock_of productId (products d) = Some s /\ 0 <= s)
           (snd (deductions productId qs w)).
Proof.
  induction qs as [|q qs IH]; intros w productId S Hk Hs HS.
  - cbn. split; [exact HS|constructor].
  - cbn [deductions].
    pose proof (deductProductStock_pool_step productId q w) as Hstep.
    destruct (productController.deductProductStock productId q None w) as [r w'].
    destruct Hstep as [(-> & Hguard & Hafter) | ((e & ->) & Hsame)].
    + rewrite (guard_stock_of productId q Hk), Hs in Hguard. apply Z.leb_le in Hguard.
      assert (Hs' : stock_of productId (products (committed w')) = Some (S - q)).
      { rewrite Hafter, stock_of_update, Hs. cbn [option_map].
        rewrite Z.eqb_refl. cbn [andb].
        replace (q <=? S) with true by (symmetry; apply Z.leb_le; exact Hguard).
        reflexivity. }
      assert (Hk' : primary_key (products (committed w')))
        by (rewrite Hafter; apply update_stock_primary_key; exact Hk).
      destruct (IH w' productId (S - q) Hk' Hs' ltac:(lia)) as [Htot Hseen].
      destruct (deductions productId qs w') as [total seen]. cbn [fst snd] in *.
      split; [lia|]. constructor; [|exact Hseen].
      exists (S - q). split; [exact Hs'|lia].
    + rewrite <- Hsame in Hk, Hs.
      destruct (IH w' productId S Hk Hs HS) as [Htot Hseen].
      destruct (deductions productId qs w') as [total seen]. cbn [fst snd] in *.
      split; [lia|]. constructor; [|exact Hseen].
      exists S. split; [exact Hs|exact HS].
Qed.

Lemma deductProductStock_never_oversells_witness :
  fst (deductions 1 [3; 3; 2; 1] (idle shop [])) <= 5 /\
  Forall (fun d => exists s, stock_of 1 (products d) = Some s /\ 0 <= s)
         (snd (deductions 1 [3; 3; 2; 1] (idle shop []))).
Proof.
  apply (@deductProductStock_never_oversells [3; 3; 2; 1] (idle shop []) 1 5).
  - repeat constructor; simpl; intuition lia.
  - reflexivity.
  - lia.
Defined.

(** The same fact as an invariant of the statement: no guarded decrement
    takes a stock below zero, on whichever handle it runs. *)
Lemma deductProductStock_keeps_stock_nonnegative
      (productId q : Z) (connection : option handle) (w : World) :
  healthy w ->
  stock_nonnegative (products (sees (productController.dbConnection connection) w)) ->
  stock_nonnegative
    (products (sees (productController.dbConnection connection)
                    (snd (productController.deductProductStock productId q connection w)))).
Proof.
  intros Hw Hinv. unfold productController.deductProductStock, bind.
  destruct (query_sees (productController.dbConnection connection)
                       (UpdateStock q productId q) Hw) as (w' & Hq & Hs & _).
  rewrite Hq.
  assert (Hgoal : stock_nonnegative
                    (products (sees (productController.dbConnection connection) w'))).
  { rewrite Hs. cbn [execute fst]. apply update_stock_nonnegative. exact Hinv. }
  destruct (affectedRows _ =? 0); exact Hgoal.
Qed.
(** ** Cart *)

Lemma world_eta (w : World) :
  mkWorld (committed w) (transaction w) (leased w) (driver w) (console w) = w.
Proof. destruct w; reflexivity. Qed.

(** Changing quantities moves no line to another (user, product) pair. *)
Lemma filter_line_update (userId productId q : Z) (c : cart_item -> bool) (l : list cart_item) :
  filter (cart_line_of userId productId) (update_where c (set_quantity q) l) =
  update_where c (set_quantity q) (filter (cart_line_of userId productId) l).
Proof.
  unfold update_where. induction l as [|x l IH]; [reflexivity|].
  cbn [map filter].
  assert (E : cart_line_of userId productId (if c x then set_quantity q x else x) =
              cart_line_of userId productId x) by (destruct (c x); reflexivity).
  rewrite E. destruct (cart_line_of userId productId x); cbn [map]; rewrite IH; reflexivity.
Qed.

Lemma update_where_length {A} (c : A -> bool) (g : A -> A) (l : list A) :
  List.length (update_where c g l) = List.length l.
Proof. apply length_map. Qed.

(** C7: [addItem] is an upsert on (userId, productId).  From a cart without
    a line for the pair, two calls with [q1] and [q2] leave exactly one line
    for it, of quantity [q1 + q2]; and when a line is already there the call
    raises its quantity by the given one and inserts nothing. *)
Theorem addItem_upsert :
  forall (w : World) (userId productId : Z),
    healthy w ->
    (forall q1 q2,
        lines_of userId productId (committed w) = [] ->
        let (r1, w1) := cartModel.addItem userId productId q1 w in
        let (r2, w2) := cartModel.addItem userId productId q2 w1 in
        exists id,
          r1 = Ok (cartModel.Added "Product added to cart successfully." id) /\
          r2 = Ok (cartModel.Added "Cart item quantity updated successfully." id) /\
          lines_of userId productId (committed w2) =
          [mkCartItem id userId productId (q1 + q2)])
    /\
    (forall q line others,
        lines_of userId productId (committed w) = line :: others ->
        let (r, w') := cartModel.addItem userId productId q w in
        r = Ok (cartModel.Added "Cart item quantity updated successfully." (ci_id line)) /\
        (exists others',
            lines_of userId productId (committed w') =
            set_quantity (ci_quantity line + q) line :: others' /\
            List.length others' = List.length others) /\
        List.length (cart_items (committed w')) = List.length (cart_items (committed w))).
Proof.
  intros w userId productId Hw. split.
  - intros q1 q2 Hnone.
    unfold cartModel.addItem at 1. unfold bind at 1.
    rewrite (select_pool _ Hw). unfold cartModel.select_line.
    unfold lines_of in Hnone. rewrite Hnone.
    unfold bind at 1. rewrite (query_pool _ Hw). cbn [execute fst snd insertId]. unfold ret.
    set (d := committed w) in *.
    set (new := mkCartItem (next_cart_item_id d) userId productId q1).
    match goal with |- context [cartModel.addItem _ _ _ ?x] => set (w1 := x) end.
    assert (Hw1 : healthy w1) by exact Hw.
    unfold cartModel.addItem, bind at 1.
    rewrite (select_pool _ Hw1). unfold cartModel.select_line.
    assert (Hsel : filter (cart_line_of userId productId) (cart_items (committed w1)) = [new]).
    { subst w1. cbn [committed cart_items]. rewrite filter_app, Hnone. cbn [filter app].
      unfold cart_line_of at 1. cbn [new ci_user_id ci_product_id].
      rewrite !Z.eqb_refl. reflexivity. }
    rewrite Hsel. unfold bind. rewrite (query_pool _ Hw1). unfold ret.
    exists (next_cart_item_id d). split; [reflexivity|]. split; [reflexivity|].
    unfold lines_of. cbn [execute fst committed cart_items with_cart_items].
    rewrite filter_line_update. fold (lines_of userId productId (committed w1)).
    unfold lines_of. rewrite Hsel. unfold update_where. cbn [map].
    unfold cart_id_is. cbn [new ci_id]. rewrite Z.eqb_refl. reflexivity.
  - intros q line others Hsome.
    unfold cartModel.addItem, bind at 1.
    rewrite (select_pool _ Hw). unfold cartModel.select_line.
    unfold lines_of in Hsome. rewrite Hsome.
    unfold bind. rewrite (query_pool _ Hw). unfold ret.
    split; [reflexivity|].
    cbn [execute fst committed cart_items with_cart_items]. split.
    + unfold lines_of. cbn [execute fst committed cart_items with_cart_items].
      rewrite filter_line_update, Hsome.
      unfold update_where. cbn [map]. unfold cart_id_is at 1. rewrite Z.eqb_refl.
      eexists. split; [reflexivity|]. apply length_map.
    + apply update_where_length.
Qed.

Lemma addItem_upsert_witness :
  healthy (idle shop []) /\
  lines_of 9 2 (committed (idle shop [])) = [] /\
  exists id,
    lines_of 9 2 (committed (snd (cartModel.addItem 9 2 4
                                    (snd (cartModel.addItem 9 2 1 (idle shop []))))))
    = [mkCartItem id 9 2 (1 + 4)].
Proof.
  assert (Hw : healthy (idle shop [])) by reflexivity.
  destruct (@addItem_upsert (idle shop []) 9 2 Hw) as [Hfresh _].
  specialize (Hfresh 1 4 eq_refl).
  split; [exact Hw|]. split; [reflexivity|].
  destruct (cartModel.addItem 9 2 1 (idle shop [])) as [r1 w1].
  cbn [snd]. destruct (cartModel.addItem 9 2 4 w1) as [r2 w2].
  cbn [snd]. destruct Hfresh as (id & _ & _ & Hlines).
  exists id. exact Hlines.
Defined.

(** With a healthy driver, a call that matches no row of the caller throws
    the not-found error and leaves the world as it was. *)
Lemma cart_miss_throws_not_found (w : World) (cartItemId userId quantity : Z) :
  healthy w ->
  existsb (cart_owned cartItemId userId) (cart_items (committed w)) = false ->
  cartModel.updateCartItemQuantity cartItemId userId quantity w
  = (Throw cartModel.not_found, w) /\
  cartModel.removeCartItem cartItemId userId w = (Throw cartModel.not_found, w).
Proof.
  intros Hw Hnone.
  unfold cartModel.updateCartItemQuantity, cartModel.removeCartItem, bind.
  rewrite !(query_pool _ Hw). cbn [execute fst snd affectedRows].
  rewrite count_zero_existsb, Hnone. cbn [negb]. unfold throw.
  rewrite update_where_none, delete_where_none by exact Hnone.
  rewrite with_cart_items_same, world_eta. split; reflexivity.
Qed.

(** C8: [updateCartItemQuantity] and [removeCartItem] are scoped by the
    owner.  When no cart item has both that id and that user, neither call
    can succeed, whatever the driver does, and the committed tables stay as
    they were; with a healthy driver each throws the not-found error and
    leaves the whole world untouched. *)
Theorem cart_item_scoped_by_owner :
  forall (w : World) (cartItemId userId quantity : Z),
    existsb (cart_owned cartItemId userId) (cart_items (committed w)) = false ->
    ((exists e, fst (cartModel.updateCartItemQuantity cartItemId userId quantity w) = Throw e) /\
     committed (snd (cartModel.updateCartItemQuantity cartItemId userId quantity w)) = committed w /\
     (healthy w ->
      cartModel.updateCartItemQuantity cartItemId userId quantity w
      = (Throw cartModel.not_found, w)))
    /\
    ((exists e, fst (cartModel.removeCartItem cartItemId userId w) = Throw e) /\
     committed (snd (cartModel.removeCartItem cartItemId userId w)) = committed w /\
     (healthy w ->
      cartModel.removeCartItem cartItemId userId w = (Throw cartModel.not_found, w))).
Proof.
  intros w cartItemId userId quantity Hnone.
  assert (Hupd : fst (execute (UpdateCartItemOfUser quantity cartItemId userId) (committed w))
                 = committed w).
  { cbn [execute fst]. rewrite update_where_none by exact Hnone.
    apply with_cart_items_same. }
  assert (Hdel : fst (execute (DeleteCartItemOfUser cartItemId userId) (committed w))
                 = committed w).
  { cbn [execute fst]. rewrite delete_where_none by exact Hnone.
    apply with_cart_items_same. }
  assert (Hrows : forall s,
             s = UpdateCartItemOfUser quantity cartItemId userId \/
             s = DeleteCartItemOfUser cartItemId userId ->
             (affectedRows (snd (execute s (committed w))) =? 0) = true).
  { intros s [-> | ->]; cbn [execute snd affectedRows];
      rewrite count_zero_existsb, Hnone; reflexivity. }
  split.
  - unfold cartModel.updateCartItemQuantity, bind. repeat split.
    + destruct (query_pool_cases (UpdateCartItemOfUser quantity cartItemId userId) w)
        as [(w' & -> & _) | (e & w' & -> & _)].
      * rewrite Hrows by (left; reflexivity). eexists. reflexivity.
      * eexists. reflexivity.
    + destruct (query_pool_cases (UpdateCartItemOfUser quantity cartItemId userId) w)
        as [(w' & -> & Hc & _) | (e & w' & -> & Hc & _)].
      * rewrite Hrows by (left; reflexivity). cbn [snd throw]. rewrite Hc. exact Hupd.
      * exact Hc.
    + intros Hw. fold (cartModel.updateCartItemQuantity cartItemId userId quantity w).
      apply (@cart_miss_throws_not_found w cartItemId userId quantity Hw Hnone).
  - unfold cartModel.removeCartItem, bind. repeat split.
    + destruct (query_pool_cases (DeleteCartItemOfUser cartItemId userId) w)
        as [(w' & -> & _) | (e & w' & -> & _)].
      * rewrite Hrows by (right; reflexivity). eexists. reflexivity.
      * eexists. reflexivity.
    + destruct (query_pool_cases (DeleteCartItemOfUser cartItemId userId) w)
        as [(w' & -> & Hc & _) | (e & w' & -> & Hc & _)].
      * rewrite Hrows by (right; reflexivity). cbn [snd throw]. rewrite Hc. exact Hdel.
      * exact Hc.
    + intros Hw. fold (cartModel.removeCartItem cartItemId userId w).
      apply (@cart_miss_throws_not_found w cartItemId userId quantity Hw Hnone).
Qed.

Lemma cart_item_scoped_by_owner_witness :
  existsb (cart_owned 1 8) (cart_items (committed (idle shop []))) = false /\
  cartModel.updateCartItemQuantity 1 8 10 (idle shop [])
  = (Throw cartModel.not_found, idle shop []) /\
  cartModel.removeCartItem 1 8 (idle shop []) = (Throw cartModel.not_found, idle shop []).
Proof.
  assert (Hnone : existsb (cart_owned 1 8) (cart_items (committed (idle shop []))) = false)
    by reflexivity.
  destruct (@cart_item_scoped_by_owner (idle shop []) 1 8 10 Hnone)
    as [(_ & _ & Hupdate) (_ & _ & Hremove)].
  split; [exact Hnone|]. split; [apply Hupdate|apply Hremove]; reflexivity.
Defined.

(** Conversely the owner's calls go through: the item gets the new quantity,
    respectively disappears. *)
Lemma cart_item_owner_succeeds (w : World) (cartItemId userId quantity : Z) :
  healthy w ->
  existsb (cart_owned cartItemId userId) (cart_items (committed w)) = true ->
  fst (cartModel.updateCartItemQuantity cartItemId userId quantity w)
  = Ok "Cart item quantity updated successfully." /\
  fst (cartModel.removeCartItem cartItemId userId w)
  = Ok "Product removed from cart successfully.".
Proof.
  intros Hw Hsome.
  unfold cartModel.updateCartItemQuantity, cartModel.removeCartItem, bind.
  rewrite !(query_pool _ Hw). cbn [execute snd affectedRows].
  rewrite count_zero_existsb, Hsome. split; reflexivity.
Qed.

(** X20: the controllers turn the not-found error of the cart model into a
    404 carrying its message. *)
Lemma cartController_not_found_is_404 (w : World) (cartItemId userId quantity : Z) :
  healthy w -> 0 < quantity ->
  existsb (cart_owned cartItemId userId) (cart_items (committed w)) = false ->
  fst (cartController.updateCartItem cartItemId userId (Some quantity) w)
  = Ok (mkResponse 404 (Message "Cart item not found or does not belong to the user.")) /\
  fst (cartController.removeCartItem cartItemId userId w)
  = Ok (mkResponse 404 (Message "Cart item not found or does not belong to the user.")).
Proof.
  intros Hw Hq Hnone.
  destruct (@cart_miss_throws_not_found w cartItemId userId quantity Hw Hnone)
    as [Hupdate Hremove].
  unfold cartController.updateCartItem, cartController.removeCartItem, try_catch, bind.
  replace (quantity <=? 0) with false by (symmetry; apply Z.leb_gt; exact Hq).
  rewrite Hupdate, Hremove. split; reflexivity.
Qed.

(** ** Order placement *)

Lemma getConnection_healthy (w : World) :
  healthy w ->
  getConnection w =
  (Ok Connection, mkWorld (committed w) None (S (leased w)) (driver w) (console w)).
Proof. intros Hw. unfold getConnection, bind. rewrite (driver_call_healthy Hw). reflexivity. Qed.

Lemma beginTransaction_healthy (w : World) :
  healthy w ->
  beginTransaction w =
  (Ok tt, mkWorld (committed w) (Some []) (leased w) (driver w) (console w)).
Proof. intros Hw. unfold beginTransaction, bind. rewrite (driver_call_healthy Hw). reflexivity. Qed.

Lemma rollback_healthy (w : World) :
  healthy w ->
  rollback w = (Ok tt, mkWorld (committed w) None (leased w) (driver w) (console w)).
Proof. intros Hw. unfold rollback, bind. rewrite (driver_call_healthy Hw). reflexivity. Qed.

Lemma createOrder_complete_body {J : JSON} (userId totalAmount : Z) (shippingAddress : json)
      (first : item) (others : list item) :
  createOrder (mkRequest (mkOrderBody (Some (first :: others)) (Some totalAmount)
                                      (Some shippingAddress)) userId)
  = transact userId (first :: others) totalAmount shippingAddress.
Proof. reflexivity. Qed.

Lemma order_lines_cons {J : JSON} (orderId : Z) (connection : handle)
      (it : item) (rest : list item) :
  order_lines orderId connection (it :: rest) =
  (query connection
         (InsertOrderItem orderId (product_id it) (item_quantity it) (product_price it)) ;;;
   productController.deductProductStock (product_id it) (item_quantity it) (Some connection) ;;;
   order_lines orderId connection rest).
Proof. reflexivity. Qed.

(** One order line inside the transaction: the line is logged, then the
    guarded decrement runs against the view. *)
Lemma order_line_step {J : JSON} (orderId : Z) (it : item) (rest : list item)
      (w : World) (log : list statement) :
  healthy w -> transaction w = Some log ->
  let log' := log ++ [InsertOrderItem orderId (product_id it) (item_quantity it) (product_price it);
                      UpdateStock (item_quantity it) (product_id it) (item_quantity it)] in
  let w' := mkWorld (committed w) (Some log') (leased w) (driver w) (console w) in
  products (replay log' (committed w)) = line_taken (products (replay log (committed w))) it /\
  order_lines orderId Connection (it :: rest) w =
  if line_matches it (products (replay log (committed w)))
  then order_lines orderId Connection rest w'
  else (Throw (productController.insufficient_stock (product_id it)), w').
Proof.
  intros Hw Ht. cbv zeta.
  set (ins := InsertOrderItem orderId (product_id it) (item_quantity it) (product_price it)).
  set (upd := UpdateStock (item_quantity it) (product_id it) (item_quantity it)).
  assert (Hins : products (replay (log ++ [ins]) (committed w)) = products (replay log (committed w)))
    by (rewrite replay_snoc; reflexivity).
  split.
  - change (log ++ [ins; upd]) with (log ++ [ins] ++ [upd]).
    rewrite app_assoc, replay_snoc. unfold upd.
    cbn [execute fst products with_products].
    rewrite Hins. reflexivity.
  - rewrite order_lines_cons. fold ins. unfold bind at 1.
    rewrite (query_in_transaction ins Hw Ht).
    unfold bind at 1. unfold productController.deductProductStock, bind at 1.
    cbn [productController.dbConnection].
    match goal with |- context [query Connection _ ?x] => set (w1 := x) end.
    assert (Hw1 : healthy w1) by exact Hw.
    assert (Ht1 : transaction w1 = Some (log ++ [ins])) by reflexivity.
    fold upd. rewrite (query_in_transaction upd Hw1 Ht1). unfold upd at 1.
    cbn [execute snd affectedRows]. rewrite count_zero_existsb.
    subst w1. cbn [committed leased driver console]. rewrite Hins.
    unfold line_matches. rewrite <- app_assoc. cbn [app].
    destruct (existsb _ _); reflexivity.
Qed.

(** The lines before the short one go through, the short one throws. *)
Lemma order_lines_short {J : JSON} (orderId : Z) (line : item) (after : list item) :
  forall (before : list item) (w : World) (log : list statement),
    healthy w -> transaction w = Some log ->
    in_stock before (products (replay log (committed w))) = true ->
    line_matches line (stocks_after before (products (replay log (committed w)))) = false ->
    exists log',
      order_lines orderId Connection (before ++ line :: after) w =
      (Throw (productController.insufficient_stock (product_id line)),
       mkWorld (committed w) (Some log') (leased w) (driver w) (console w)).
Proof.
  induction before as [|it before IH]; intros w log Hw Ht Hstock Hshort.
  - cbn [app]. destruct (order_line_step orderId line after Hw Ht) as [_ ->].
    cbn [stocks_after fold_left] in Hshort. rewrite Hshort. eexists. reflexivity.
  - cbn [app]. destruct (order_line_step orderId it (before ++ line :: after) Hw Ht) as [Hp ->].
    cbn [in_stock] in Hstock. apply andb_true_iff in Hstock as [Hit Hrest].
    rewrite Hit.
    match goal with |- context [order_lines _ _ _ ?x] => set (w1 := x) end.
    destruct (IH w1 _ Hw eq_refl) as (log' & ->).
    + unfold w1. cbn [committed]. rewrite Hp. exact Hrest.
    + unfold w1. cbn [committed]. rewrite Hp. exact Hshort.
    + eexists. reflexivity.
Qed.

(** C1: when the conditional decrement of a cart line finds no row with
    enough stock, the lines before it having gone through, [createOrder]
    answers with the insufficient-stock error of that product and the
    transaction is rolled back: the committed tables are those from before
    the attempt (no order, no order line, every stock as it was), no
    transaction stays open and the connection is back in the pool. *)
Theorem createOrder_insufficient_stock_rolls_back :
  forall (J : JSON) (w : World) (userId totalAmount : Z) (shippingAddress : json)
         (before : list item) (line : item) (after : list item),
    healthy w ->
    in_stock before (products (committed w)) = true ->
    line_matches line (stocks_after before (products (committed w))) = false ->
    exists w',
      createOrder (mkRequest (mkOrderBody (Some (before ++ line :: after)) (Some totalAmount)
                                          (Some shippingAddress)) userId) w
      = (Ok (mkResponse 500
               (Message (message (productController.insufficient_stock (product_id line))))),
         w') /\
      committed w' = committed w /\
      transaction w' = None /\
      leased w' = leased w.
Proof.
  intros J w userId totalAmount shippingAddress before line after Hw Hstock Hshort.
  assert (Hbody : createOrder (mkRequest (mkOrderBody (Some (before ++ line :: after))
                                 (Some totalAmount) (Some shippingAddress)) userId)
                  = transact userId (before ++ line :: after) totalAmount shippingAddress)
    by (destruct before; reflexivity).
  rewrite Hbody. unfold transact. rewrite (getConnection_healthy Hw).
  unfold finally, try_catch, place. unfold bind at 1.
  match goal with |- context [beginTransaction ?x] => set (w0 := x) end.
  assert (Hw0 : healthy w0) by exact Hw.
  rewrite (beginTransaction_healthy Hw0). unfold bind at 1.
  match goal with |- context [query Connection _ ?x] => set (w1 := x) end.
  assert (Hw1 : healthy w1) by exact Hw.
  rewrite (query_in_transaction _ Hw1 (eq_refl : transaction w1 = Some [])).
  unfold bind at 1.
  match goal with |- context [order_lines ?o _ _ ?x] => set (orderId := o); set (w2 := x) end.
  destruct (@order_lines_short J orderId line after before w2 _ Hw eq_refl)
    as (log' & Hlines).
  - exact Hstock.
  - exact Hshort.
  - rewrite Hlines. unfold bind at 1.
    match goal with |- context [rollback ?x] => set (w3 := x) end.
    assert (Hw3 : healthy w3) by exact Hw.
    rewrite (rollback_healthy Hw3). unfold order_failed, bind, console_error, ret, release.
    eexists. split; [reflexivity|]. repeat split.
Qed.

Lemma createOrder_insufficient_stock_rolls_back_witness :
  healthy (idle shop []) /\
  in_stock [mkItem 1 3 12000] (products (committed (idle shop []))) = true /\
  line_matches (mkItem 2 3 8000)
               (stocks_after [mkItem 1 3 12000] (products (committed (idle shop [])))) = false /\
  exists w',
    createOrder (J := literal_JSON) (checkout [mkItem 1 3 12000; mkItem 2 3 8000]) (idle shop [])
    = (Ok (mkResponse 500
             (Message "Insufficient stock or product not found for product ID: 2")), w') /\
    committed w' = shop /\ transaction w' = None /\ leased w' = 0%nat.
Proof.
  split; [reflexivity|]. split; [reflexivity|]. split; [reflexivity|].
  apply (@createOrder_insufficient_stock_rolls_back literal_JSON (idle shop []) 7 44000 address
           [mkItem 1 3 12000] (mkItem 2 3 8000) []); reflexivity.
Defined.

(** X19: the checks in front of the [try] block.  A body without a
    non-empty item array, without a total or without an address is answered
    with 400 and nothing else happens. *)
Lemma createOrder_rejects_incomplete_body {J : JSON} (w : World) (userId : Z) (b : order_body) :
  items b = None \/ items b = Some [] \/ totalAmount b = None \/ shippingAddress b = None ->
  exists m, createOrder (mkRequest b userId) w = (Ok (mkResponse 400 (Message m)), w).
Proof.
  unfold createOrder. cbn [req_body req_user_id].
  destruct (items b) as [[|first others]|]; try (intros _; eexists; reflexivity).
  destruct (totalAmount b) as [total|]; try (intros _; eexists; reflexivity).
  destruct (shippingAddress b) as [a|]; try (intros _; eexists; reflexivity).
  intros [H | [H | [H | H]]]; discriminate H.
Qed.

(** The cart endpoints do refuse a quantity that is not positive. *)
Lemma addItemToCart_rejects_nonpositive (w : World) (userId productId quantity : Z) :
  quantity <= 0 ->
  cartController.addItemToCart userId (Some productId) (Some quantity) w
  = (Ok (mkResponse 400 (Message "A valid Product ID and a positive quantity are required.")), w).
Proof.
  intros Hq. unfold cartController.addItemToCart.
  replace (quantity <=? 0) with true by (symmetry; apply Z.leb_le; exact Hq).
  rewrite orb_true_r. reflexivity.
Qed.

(** C5, as the code runs: an order line of quantity -2 passes the checks of
    [createOrder]; the order is placed (201), the line is stored with its
    negative quantity and the guarded update raises the stock from 5 to 7. *)
Theorem createOrder_accepts_negative_quantity :
  fst (createOrder (J := literal_JSON) (checkout [mkItem 1 (-2) 12000]) (idle shop []))
  = Ok (mkResponse 201 (OrderPlaced "Order placed successfully!" 1)) /\
  stock_of 1 (products shop) = Some 5 /\
  stock_of 1 (products (committed
     (snd (createOrder (J := literal_JSON) (checkout [mkItem 1 (-2) 12000]) (idle shop [])))))
  = Some 7 /\
  order_items (committed
     (snd (createOrder (J := literal_JSON) (checkout [mkItem 1 (-2) 12000]) (idle shop []))))
  = [mkOrderItem 1 1 1 (-2) 12000].
Proof. vm_compute. repeat split; reflexivity. Qed.

(** [clearCart] goes through the pool: its DELETE is committed at once and
    never enters the transaction open on the request's connection. *)
Lemma clearCart_bypasses_transaction (w : World) (userId : Z) :
  healthy w ->
  committed (snd (cartModel.clearCart userId w))
  = with_cart_items (delete_where (cart_of_user userId) (cart_items (committed w))) (committed w) /\
  transaction (snd (cartModel.clearCart userId w)) = transaction w.
Proof.
  intros Hw. unfold cartModel.clearCart, bind. rewrite (query_pool _ Hw).
  split; reflexivity.
Qed.

(** C2, as the code runs: the commit of a one-line order is rejected by the
    driver (seventh call).  The attempt fails with 500 and is rolled back (no
    order, no order line, stocks as before), yet the two cart lines of the
    user are gone from the committed tables. *)
Theorem createOrder_commit_failure_loses_cart :
  fst (createOrder (J := literal_JSON) (checkout [mkItem 1 3 12000]) (idle shop (fails_at 6)))
  = Ok (mkResponse 500 (Message (message lost))) /\
  orders (committed
     (snd (createOrder (J := literal_JSON) (checkout [mkItem 1 3 12000]) (idle shop (fails_at 6)))))
  = [] /\
  order_items (committed
     (snd (createOrder (J := literal_JSON) (checkout [mkItem 1 3 12000]) (idle shop (fails_at 6)))))
  = [] /\
  products (committed
     (snd (createOrder (J := literal_JSON) (checkout [mkItem 1 3 12000]) (idle shop (fails_at 6)))))
  = products shop /\
  filter (cart_of_user 7) (cart_items shop) = [mkCartItem 1 7 1 3; mkCartItem 2 7 2 1] /\
  filter (cart_of_user 7) (cart_items (committed
     (snd (createOrder (J := literal_JSON) (checkout [mkItem 1 3 12000]) (idle shop (fails_at 6))))))
  = [].
Proof. vm_compute. repeat split; reflexivity. Qed.

(** C6, refuted as stated: the commit is rejected with the driver's own
    error, which is not the ledger's, and its message is what the caller
    gets, not the generic one. *)
Lemma createOrder_exposes_driver_message :
  fst (createOrder (J := literal_JSON) (checkout [mkItem 1 3 12000]) (idle shop (fails_at 6)))
  = Ok (mkResponse 500 (Message "Connection lost: The server closed the connection.")) /\
  message lost <> "Failed to place order." /\
  forall productId, message lost <> message (productController.insufficient_stock productId).
Proof.
  split; [vm_compute; reflexivity|]. split; [discriminate|].
  intros productId. cbn. discriminate.
Qed.

(** C6, as the code has it: whatever is thrown once the connection is there,
    the reply (when the rollback goes through) is a 500 carrying the error's
    own message, and the generic text only for an empty message; the ledger's
    error is passed on in this way like any other. *)
Theorem createOrder_failure_message :
  forall (J : JSON) (w w1 w2 : World) (userId totalAmount : Z) (shippingAddress : json)
         (first : item) (others : list item) (error : Error),
    getConnection w = (Ok Connection, w1) ->
    place Connection userId (first :: others) totalAmount shippingAddress w1 = (Throw error, w2) ->
    fst (createOrder (mkRequest (mkOrderBody (Some (first :: others)) (Some totalAmount)
                                             (Some shippingAddress)) userId) w)
    = match fst (rollback w2) with
      | Ok _ => Ok (mkResponse 500 (Message (or_else (message error) "Failed to place order.")))
      | Throw e => Throw e
      end
    /\
    (message error <> "" -> or_else (message error) "Failed to place order." = message error)
    /\
    (forall productId,
        or_else (message (productController.insufficient_stock productId)) "Failed to place order."
        = ("Insufficient stock or product not found for product ID: " ++ template productId)%string).
Proof.
  intros J w w1 w2 userId totalAmount shippingAddress first others error Hconn Hplace.
  split; [|split].
  - rewrite createOrder_complete_body. unfold transact. rewrite Hconn.
    unfold finally, try_catch. rewrite Hplace. unfold bind.
    destruct (rollback w2) as [[[]|e] w3]; reflexivity.
  - intros Hmsg. unfold or_else. destruct (String.eqb_spec (message error) ""); [contradiction|].
    reflexivity.
  - intros productId. reflexivity.
Qed.

Lemma createOrder_failure_message_witness :
  getConnection (idle shop (fails_at 6))
  = (Ok Connection, mkWorld shop None 1 (fails_at 5) []) /\
  fst (place (J := literal_JSON) Connection 7 [mkItem 1 3 12000] 44000 address
             (mkWorld shop None 1 (fails_at 5) [])) = Throw lost /\
  fst (createOrder (J := literal_JSON) (checkout [mkItem 1 3 12000]) (idle shop (fails_at 6)))
  = Ok (mkResponse 500 (Message (message lost))).
Proof.
  split; [reflexivity|]. split; [vm_compute; reflexivity|].
  assert (Hplace : place (J := literal_JSON) Connection 7 [mkItem 1 3 12000] 44000 address
                         (mkWorld shop None 1 (fails_at 5) [])
                   = (Throw lost,
                      snd (place (J := literal_JSON) Connection 7 [mkItem 1 3 12000] 44000 address
                                 (mkWorld shop None 1 (fails_at 5) []))))
    by (vm_compute; reflexivity).
  destruct (@createOrder_failure_message literal_JSON (idle shop (fails_at 6))
              (mkWorld shop None 1 (fails_at 5) []) _ 7 44000 address
              (mkItem 1 3 12000) [] lost eq_refl Hplace) as (Hreply & _ & _).
  unfold checkout. rewrite Hreply. vm_compute. reflexivity.
Defined.

(** *** All or nothing, whatever the driver does *)

Lemma driver_call_frame (w : World) :
  committed (snd (driver_call w)) = committed w /\
  transaction (snd (driver_call w)) = transaction w.
Proof.
  unfold driver_call. destruct (driver w) as [|[e|] rest]; split; reflexivity.
Qed.

Lemma query_connection_pending (s : statement) (w : World) :
  transaction w <> None -> pending w (snd (query Connection s w)).
Proof.
  intros Hopen. unfold query, bind.
  destruct (driver_call_frame w) as [Hc Ht].
  destruct (driver_call w) as [[[]|e] w1]; cbn [snd] in *.
  - rewrite Ht. destruct (transaction w) as [log|]; [|contradiction].
    cbn [snd]. split; [cbn [committed]; rewrite Hc; reflexivity|discriminate].
  - split; [rewrite Hc; reflexivity|rewrite Ht; exact Hopen].
Qed.

Lemma query_pool_cart_pending (s : statement) (w : World) :
  ledger (fst (execute s (committed w))) = ledger (committed w) ->
  transaction w <> None -> pending w (snd (query Pool s w)).
Proof.
  intros Hs Hopen. unfold query, bind.
  destruct (driver_call_frame w) as [Hc Ht].
  destruct (driver_call w) as [[[]|e] w1]; cbn [snd] in *.
  - rewrite Hc. destruct (execute s (committed w)) as [d r]. cbn [snd fst] in *.
    split; [exact Hs|cbn [transaction]; rewrite Ht; exact Hopen].
  - split; [rewrite Hc; reflexivity|rewrite Ht; exact Hopen].
Qed.

Lemma pending_trans (w w1 w2 : World) : pending w w1 -> pending w1 w2 -> pending w w2.
Proof. intros [H1 _] [H2 Ho]. split; [congruence|exact Ho]. Qed.

Lemma deductProductStock_pending (productId q : Z) (w : World) :
  transaction w <> None ->
  pending w (snd (productController.deductProductStock productId q (Some Connection) w)).
Proof.
  intros Hopen. unfold productController.deductProductStock, bind.
  cbn [productController.dbConnection].
  pose proof (@query_connection_pending (UpdateStock q productId q) w Hopen) as Hq.
  destruct (query Connection (UpdateStock q productId q) w) as [[r|e] w1]; cbn [snd] in *.
  - destruct (affectedRows r =? 0); exact Hq.
  - exact Hq.
Qed.

Lemma order_lines_pending {J : JSON} (orderId : Z) :
  forall (lines : list item) (w : World),
    transaction w <> None -> pending w (snd (order_lines orderId Connection lines w)).
Proof.
  induction lines as [|it lines IH]; intros w Hopen.
  - split; [reflexivity|exact Hopen].
  - rewrite order_lines_cons. unfold bind.
    pose proof (@query_connection_pending
                  (InsertOrderItem orderId (product_id it) (item_quantity it) (product_price it))
                  w Hopen) as H1.
    destruct (query Connection _ w) as [[r|e] w1]; cbn [snd] in *; [|exact H1].
    pose proof (@deductProductStock_pending (product_id it) (item_quantity it) w1 (proj2 H1))
      as H2.
    destruct (productController.deductProductStock _ _ _ w1) as [[b|e] w2]; cbn [snd] in *.
    + exact (pending_trans H1 (pending_trans H2 (IH w2 (proj2 H2)))).
    + exact (pending_trans H1 H2).
Qed.

Lemma clearCart_pending (userId : Z) (w : World) :
  transaction w <> None -> pending w (snd (cartModel.clearCart userId w)).
Proof.
  intros Hopen. unfold cartModel.clearCart, bind.
  pose proof (@query_pool_cart_pending (DeleteCartOfUser userId) w eq_refl Hopen) as Hq.
  destruct (query Pool (DeleteCartOfUser userId) w) as [[r|e] w1]; exact Hq.
Qed.

Lemma beginTransaction_frame (w : World) :
  committed (snd (beginTransaction w)) = committed w /\
  (forall u, fst (beginTransaction w) = Ok u -> transaction (snd (beginTransaction w)) <> None).
Proof.
  unfold beginTransaction, bind. destruct (driver_call_frame w) as [Hc _].
  destruct (driver_call w) as [[[]|e] w0]; cbn [snd fst] in *.
  - split; [exact Hc|]. intros _ _. discriminate.
  - split; [exact Hc|]. intros u H. discriminate H.
Qed.

Lemma commit_frame (w : World) :
  forall e, fst (commit w) = Throw e -> committed (snd (commit w)) = committed w.
Proof.
  unfold commit, bind. destruct (driver_call_frame w) as [Hc _].
  destruct (driver_call w) as [[[]|e'] w0]; cbn [snd fst] in *; intros e H.
  - discriminate H.
  - exact Hc.
Qed.

Lemma rollback_frame (w : World) : committed (snd (rollback w)) = committed w.
Proof.
  unfold rollback, bind. destruct (driver_call_frame w) as [Hc _].
  destruct (driver_call w) as [[[]|e'] w0]; cbn [snd] in *; exact Hc.
Qed.

Lemma getConnection_frame (w : World) :
  committed (snd (getConnection w)) = committed w /\
  (forall c, fst (getConnection w) = Ok c -> c = Connection).
Proof.
  unfold getConnection, bind. destruct (driver_call_frame w) as [Hc _].
  destruct (driver_call w) as [[[]|e'] w0]; cbn [snd fst] in *.
  - split; [exact Hc|]. intros c H. injection H as <-. reflexivity.
  - split; [exact Hc|]. intros c H. discriminate H.
Qed.

(** The [try] block either ends in the 201 reply or throws with nothing of
    the ledger committed. *)
Lemma place_all_or_nothing {J : JSON} (userId : Z) (lines : list item)
      (totalAmount : Z) (shippingAddress : json) (w : World) :
  let (r, w') := place Connection userId lines totalAmount shippingAddress w in
  (exists orderId, r = Ok (mkResponse 201 (OrderPlaced "Order placed successfully!" orderId)))
  \/
  ((exists e, r = Throw e) /\ ledger (committed w') = ledger (committed w)).
Proof.
  unfold place. unfold bind at 1.
  destruct (beginTransaction_frame w) as [Hc1 Hopen1].
  destruct (beginTransaction w) as [[[]|e] w1]; cbn [snd fst] in *;
    [|right; split; [eexists; reflexivity|rewrite Hc1; reflexivity]].
  specialize (Hopen1 tt eq_refl).
  unfold bind at 1.
  pose proof (@query_connection_pending
                (InsertOrder userId totalAmount (JSON_stringify shippingAddress) "pending")
                w1 Hopen1) as H2.
  destruct (query Connection _ w1) as [[r|e] w2]; cbn [snd] in *;
    [|right; split; [eexists; reflexivity|destruct H2; congruence]].
  unfold bind at 1.
  pose proof (@order_lines_pending J (insertId r) lines w2 (proj2 H2)) as H3.
  destruct (order_lines (insertId r) Connection lines w2) as [[[]|e] w3]; cbn [snd] in *;
    [|right; split; [eexists; reflexivity|destruct H2, H3; congruence]].
  unfold bind at 1.
  pose proof (@clearCart_pending userId w3 (proj2 H3)) as H4.
  destruct (cartModel.clearCart userId w3) as [[c|e] w4]; cbn [snd] in *;
    [|right; split; [eexists; reflexivity|destruct H2, H3, H4; congruence]].
  unfold bind at 1.
  pose proof (commit_frame w4) as H5.
  destruct (commit w4) as [[[]|e] w5]; cbn [snd fst] in *.
  - left. eexists. reflexivity.
  - right. split; [eexists; reflexivity|]. rewrite (H5 e eq_refl).
    destruct H2, H3, H4; congruence.
Qed.

(** X18: order header, order lines and stock decrements are one unit under
    every driver script: unless the reply is the 201, none of them is committed. *)
Lemma createOrder_ledger_all_or_nothing {J : JSON} (req : request) (w : World) :
  let (r, w') := createOrder req w in
  (exists orderId, r = Ok (mkResponse 201 (OrderPlaced "Order placed successfully!" orderId)))
  \/ ledger (committed w') = ledger (committed w).
Proof.
  unfold createOrder.
  destruct (items (req_body req)) as [[|first others]|]; try (right; reflexivity).
  destruct (totalAmount (req_body req)) as [total|]; try (right; reflexivity).
  destruct (shippingAddress (req_body req)) as [a|]; try (right; reflexivity).
  unfold transact.
  destruct (getConnection_frame w) as [Hc Hconn].
  destruct (getConnection w) as [[connection|e] w1]; cbn [snd fst] in Hc, Hconn;
    [|right; cbn; rewrite Hc; reflexivity].
  rewrite (Hconn connection eq_refl).
  unfold finally, try_catch.
  pose proof (@place_all_or_nothing J (req_user_id req) (first :: others) total a w1) as Hplace.
  destruct (place Connection (req_user_id req) (first :: others) total a w1) as [r w2].
  destruct Hplace as [(orderId & ->) | ((e & ->) & Hledger)].
  - left. exists orderId. reflexivity.
  - unfold bind at 1. pose proof (rollback_frame w2) as Hc2.
    destruct (rollback w2) as [[[]|e'] w3]; cbn [snd] in Hc2; cbn; right;
      rewrite Hc2, Hledger, Hc; reflexivity.
Qed.

(** ** Order history *)

Lemma has_in (m : orders_map) (k : Z) : has m k = true <-> In k (map fst m).
Proof.
  unfold has. rewrite existsb_exists, in_map_iff. split.
  - intros (e & He & Hk). apply Z.eqb_eq in Hk. exists e. split; assumption.
  - intros (e & Hk & He). exists e. split; [exact He|]. apply Z.eqb_eq. exact Hk.
Qed.

Lemma push_at_keys (k : Z) (it : view_item) (m : orders_map) :
  map fst (push_at k it m) = map fst m.
Proof.
  unfold push_at. rewrite map_map. apply map_ext.
  intros e. destruct (fst e =? k); reflexivity.
Qed.

Lemma push_at_dates (k : Z) (it : view_item) (m : orders_map) :
  map v_order_date (map snd (push_at k it m)) = map v_order_date (map snd m).
Proof.
  unfold push_at. rewrite !map_map. apply map_ext.
  intros e. destruct (fst e =? k); reflexivity.
Qed.

Lemma push_at_absent (k : Z) (it : view_item) (m : orders_map) :
  ~ In k (map fst m) -> push_at k it m = m.
Proof.
  unfold push_at. induction m as [|e m IH]; [reflexivity|].
  cbn [map]. intros Hk. destruct (fst e =? k) eqn:E.
  - apply Z.eqb_eq in E. exfalso. apply Hk. left. exact E.
  - f_equal. apply IH. intros Hin. apply Hk. right. exact Hin.
Qed.

Lemma push_at_in (k : Z) (it : view_item) (m : orders_map) (k' : Z) (v' : order_view) :
  In (k', v') (push_at k it m) ->
  exists v, In (k', v) m /\ v' = if k' =? k then push_item it v else v.
Proof.
  unfold push_at. rewrite in_map_iff. intros ([k0 v0] & He & Hin). cbn [fst snd] in He.
  exists v0. destruct (k0 =? k) eqn:E; injection He as <- <-; rewrite E; split; auto.
Qed.

Lemma filter_absent (k : Z) (rows : list history_row) :
  ~ In k (map r_order_id rows) -> filter (fun r => r_order_id r =? k) rows = [].
Proof.
  induction rows as [|r rows IH]; [reflexivity|].
  cbn [map filter]. intros Hk. destruct (r_order_id r =? k) eqn:E.
  - apply Z.eqb_eq in E. exfalso. apply Hk. left. exact E.
  - apply IH. intros Hin. apply Hk. right. exact Hin.
Qed.

Lemma address_held_more {J : JSON} (row : history_row) (v : order_view) (c c' : list string) :
  address_held row v c -> address_held row v (c ++ c').
Proof.
  unfold address_held. destruct (r_shipping_address row) as [s|j]; [|trivial].
  destruct (JSON_parse s); [trivial|].
  intros [Hv Hin]. split; [exact Hv|]. apply in_or_app. left. exact Hin.
Qed.

(** [parse_address] never throws; it only ever writes to the console. *)
Lemma parse_address_total {J : JSON} (row : history_row) (w : World) :
  exists parsedAddress extra,
    parse_address row w =
    (Ok parsedAddress,
     mkWorld (committed w) (transaction w) (leased w) (driver w) (console w ++ extra)) /\
    forall v, v_shipping_address v = parsedAddress ->
              address_held row v (console w ++ extra).
Proof.
  unfold parse_address, address_held.
  destruct (r_shipping_address row) as [s|j].
  - destruct (JSON_parse s) as [j|].
    + exists j, []. rewrite app_nil_r, world_eta. split; [reflexivity|trivial].
    + exists JNull, [address_anomaly row s]. split; [reflexivity|].
      intros v Hv. split; [exact Hv|]. apply in_or_app. right. left. reflexivity.
  - exists j, []. rewrite app_nil_r, world_eta. split; [reflexivity|trivial].
Qed.

(** One row keeps the grouping. *)
Lemma collect_row_grouped {J : JSON} (done : list history_row) (m : orders_map)
      (row : history_row) (w : World) :
  grouped done m (console w) ->
  exists m' extra,
    collect_row m row w =
    (Ok m', mkWorld (committed w) (transaction w) (leased w) (driver w) (console w ++ extra)) /\
    grouped (done ++ [row]) m' (console w ++ extra) /\
    map v_order_date (map snd m') =
    map v_order_date (map snd m) ++
        (if has m (r_order_id row) then [] else [r_order_date row]).
Proof.
  intros (Hnodup & Hkeys & Hviews).
  unfold collect_row, bind.
  destruct (has m (r_order_id row)) eqn:Hhas.
  - exists (push_at (r_order_id row) (item_of row) m), [].
    rewrite app_nil_r, world_eta. unfold ret. split; [reflexivity|].
    split; [|rewrite push_at_dates, app_nil_r; reflexivity].
    apply has_in in Hhas. split; [|split].
    + rewrite push_at_keys. exact Hnodup.
    + intros k. rewrite push_at_keys, map_app, in_app_iff, Hkeys. cbn [map In].
      split; [auto|]. intros [H|[H|[]]]; [exact H|]. subst k. apply Hkeys. exact Hhas.
    + intros k v' Hin. apply push_at_in in Hin as (v & Hin & ->).
      destruct (Hviews k v Hin) as (Hid & Hitems & first & Hfirst & Hk & Hdate & Haddr).
      rewrite filter_app, map_app. cbn [filter].
      rewrite (Z.eqb_sym k (r_order_id row)).
      destruct (r_order_id row =? k); cbn [push_item v_order_id v_items v_order_date map].
      * split; [exact Hid|]. split; [rewrite Hitems; reflexivity|].
        exists first. repeat split; auto. apply in_or_app. left. exact Hfirst.
      * split; [exact Hid|]. split; [rewrite Hitems, app_nil_r; reflexivity|].
        exists first. repeat split; auto. apply in_or_app. left. exact Hfirst.
  - assert (Hfresh : ~ In (r_order_id row) (map fst m)).
    { intros Hin. apply has_in in Hin. congruence. }
    destruct (parse_address_total row w) as (parsedAddress & extra & -> & Haddr).
    exists (m ++ [(r_order_id row,
                   push_item (item_of row)
                     (mkOrderView (r_order_id row) (r_order_date row)
                                  (parseFloat (r_total_amount row)) (r_status row)
                                  parsedAddress (r_customer row) []))]), extra.
    unfold ret. split.
    { unfold push_at. rewrite map_app. fold (push_at (r_order_id row) (item_of row) m).
      rewrite (@push_at_absent _ (item_of row) m Hfresh). cbn [map fst snd]. rewrite Z.eqb_refl. reflexivity. }
    split; [|rewrite !map_app; reflexivity].
    split; [|split].
    + rewrite map_app. cbn [map fst]. apply NoDup_app; [exact Hnodup|repeat constructor; intros []|].
      intros k Hk [<-|[]]. exact (Hfresh Hk).
    + intros k. rewrite !map_app, !in_app_iff, Hkeys. reflexivity.
    + intros k v Hin. apply in_app_or in Hin as [Hin|[Heq|[]]].
      * destruct (Hviews k v Hin) as (Hid & Hitems & first & Hfirst & Hk & Hdate & Hheld).
        assert (Hne : (r_order_id row =? k) = false).
        { apply Z.eqb_neq. intros <-. apply Hfresh. apply in_map_iff.
          exists (r_order_id row, v). split; [reflexivity|exact Hin]. }
        rewrite filter_app, map_app. cbn [filter]. rewrite Hne, app_nil_r.
        split; [exact Hid|]. split; [exact Hitems|].
        exists first. repeat split; auto.
        -- apply in_or_app. left. exact Hfirst.
        -- apply address_held_more. exact Hheld.
      * inversion Heq; subst k v. clear Heq.
        rewrite filter_app, map_app. cbn [filter]. rewrite Z.eqb_refl.
        rewrite filter_absent by (rewrite <- Hkeys; exact Hfresh).
        split; [reflexivity|]. split; [reflexivity|].
        exists row. repeat split.
        -- apply in_or_app. right. left. reflexivity.
        -- apply Haddr. reflexivity.
Qed.

Lemma descending_snoc (l : list Z) (x : Z) :
  descending l -> Forall (fun a => x <= a) l -> descending (l ++ [x]).
Proof.
  unfold descending. induction l as [|a l IH]; intros Hl Hx.
  - repeat constructor.
  - inversion Hl as [|? ? Hrest Hall]; subst. inversion Hx as [|? ? Ha Hxs]; subst.
    cbn [app]. constructor; [apply IH; assumption|].
    apply Forall_app. split; [exact Hall|]. constructor; [exact Ha|constructor].
Qed.

Lemma descending_before (l1 l2 : list Z) (x : Z) :
  descending (l1 ++ x :: l2) -> Forall (fun a => x <= a) l1.
Proof.
  unfold descending. induction l1 as [|a l1 IH]; intros H; [constructor|].
  cbn [app] in H. inversion H as [|? ? Hrest Hall]; subst.
  constructor; [|apply IH; exact Hrest].
  rewrite Forall_forall in Hall. apply Hall. apply in_or_app. right. left. reflexivity.
Qed.

(** The whole loop: it never throws, writes to the console only, groups the
    rows, and keeps the views newest first when the rows are. *)
Lemma forEach_grouped {J : JSON} :
  forall (rest done : list history_row) (m : orders_map) (w : World),
    grouped done m (console w) ->
    exists m' extra,
      forEach rest m w =
      (Ok m', mkWorld (committed w) (transaction w) (leased w) (driver w) (console w ++ extra)) /\
      grouped (done ++ rest) m' (console w ++ extra) /\
      (descending (map r_order_date (done ++ rest)) ->
       descending (map v_order_date (map snd m)) ->
       descending (map v_order_date (map snd m'))).
Proof.
  induction rest as [|row rest IH]; intros done m w Hm.
  - exists m, []. rewrite !app_nil_r, world_eta. split; [reflexivity|]. split; [exact Hm|trivial].
  - cbn [forEach]. unfold bind.
    destruct (collect_row_grouped row w Hm) as (m1 & extra1 & -> & Hm1 & Hdates).
    match goal with |- context [forEach rest m1 ?x] => set (w1 := x) end.
    destruct (IH (done ++ [row]) m1 w1 Hm1) as (m2 & extra2 & -> & Hm2 & Hsorted).
    exists m2, (extra1 ++ extra2). subst w1. cbn [committed transaction leased driver console] in *.
    rewrite <- !app_assoc in *. cbn [app] in *.
    split; [reflexivity|]. split; [exact Hm2|].
    intros Hrows Hviews. apply Hsorted; [exact Hrows|].
    rewrite Hdates. destruct (has m (r_order_id row)); [rewrite app_nil_r; exact Hviews|].
    apply descending_snoc; [exact Hviews|].
    rewrite map_app in Hrows. cbn [map] in Hrows. apply descending_before in Hrows.
    destruct Hm as (_ & _ & Hheads).
    apply Forall_forall. intros date Hdate.
    apply in_map_iff in Hdate as (v & <- & Hv). apply in_map_iff in Hv as ([k v'] & Hsnd & Hin).
    cbn [snd] in Hsnd. subst v'.
    destruct (Hheads k v Hin) as (_ & _ & first & Hfirst & _ & -> & _).
    rewrite Forall_forall in Hrows. apply Hrows. apply in_map. exact Hfirst.
Qed.

Lemma grouped_history {J : JSON} (rows : list history_row) (m : orders_map) (c : list string) :
  grouped rows m c ->
  descending (map v_order_date (map snd m)) ->
  history_of rows (map snd m) c.
Proof.
  intros (Hnodup & Hkeys & Hviews) Hsorted.
  assert (Hids : map v_order_id (map snd m) = map fst m).
  { rewrite map_map. apply map_ext_in. intros [k v] Hin.
    destruct (Hviews k v Hin) as (Hid & _). exact Hid. }
  unfold history_of. rewrite Hids. split; [exact Hnodup|]. split; [|split; [|exact Hsorted]].
  - intros row Hrow. apply Hkeys. apply in_map. exact Hrow.
  - intros v Hv. apply in_map_iff in Hv as ([k v'] & Hsnd & Hin). cbn [snd] in Hsnd. subst v'.
    destruct (Hviews k v Hin) as (Hid & Hitems & Hrow). rewrite Hid. split; assumption.
Qed.

(** *** ORDER BY *)

Lemma insert_desc_in (r x : history_row) (l : list history_row) :
  In x (insert_desc r l) <-> x = r \/ In x l.
Proof.
  induction l as [|a l IH]; cbn [insert_desc].
  - cbn. intuition.
  - destruct (r_order_date a <=? r_order_date r); cbn [In]; [intuition|].
    rewrite IH. intuition.
Qed.

Lemma order_by_date_desc_in (x : history_row) (l : list history_row) :
  In x (order_by_date_desc l) <-> In x l.
Proof.
  unfold order_by_date_desc. induction l as [|a l IH]; cbn [fold_right]; [reflexivity|].
  rewrite insert_desc_in, IH. cbn [In]. intuition.
Qed.

Lemma insert_desc_sorted (r : history_row) (l : list history_row) :
  descending (map r_order_date l) -> descending (map r_order_date (insert_desc r l)).
Proof.
  unfold descending. induction l as [|a l IH]; intros Hl; cbn [insert_desc map].
  - repeat constructor.
  - inversion Hl as [|? ? Hrest Hall]; subst.
    destruct (r_order_date a <=? r_order_date r) eqn:E.
    + apply Z.leb_le in E. cbn [map]. constructor; [exact Hl|].
      constructor; [exact E|]. eapply Forall_impl; [|exact Hall]. cbn. intros; lia.
    + apply Z.leb_gt in E. cbn [map]. constructor; [apply IH; exact Hrest|].
      apply Forall_forall. intros d Hd. apply in_map_iff in Hd as (x & <- & Hx).
      apply insert_desc_in in Hx as [->|Hx]; [lia|].
      rewrite Forall_forall in Hall. apply Hall. apply in_map. exact Hx.
Qed.

Lemma order_by_date_desc_sorted (l : list history_row) :
  descending (map r_order_date (order_by_date_desc l)).
Proof.
  unfold order_by_date_desc. induction l as [|a l IH]; cbn [fold_right].
  - constructor.
  - apply insert_desc_sorted. exact IH.
Qed.

(** *** The joins *)

Lemma join_lines_in (d : Db) (c : option customer) (o : order) (row : history_row) :
  In row (join_lines d c o) <->
  exists oi p,
    In oi (order_items d) /\ oi_order_id oi = o_id o /\
    In p (products d) /\ p_id p = oi_product_id oi /\
    row = joined c o oi p.
Proof.
  unfold join_lines. rewrite in_flat_map. split.
  - intros (oi & Hoi & Hrow). apply filter_In in Hoi as [Hoi Eo].
    apply in_map_iff in Hrow as (p & <- & Hp). apply filter_In in Hp as [Hp Ep].
    apply Z.eqb_eq in Eo, Ep. exists oi, p. repeat split; auto.
  - intros (oi & p & Hoi & Eo & Hp & Ep & ->). exists oi. split.
    + apply filter_In. split; [exact Hoi|]. apply Z.eqb_eq. auto.
    + apply in_map. apply filter_In. split; [exact Hp|]. apply Z.eqb_eq. auto.
Qed.

Lemma select_user_orders_ids (userId : Z) (d : Db) (k : Z) :
  In k (map r_order_id (select_user_orders userId d)) <->
  exists o, In o (orders d) /\ o_user_id o = userId /\ o_id o = k /\ live_line d o.
Proof.
  unfold select_user_orders, live_line. rewrite in_map_iff. split.
  - intros (row & <- & Hrow). apply -> order_by_date_desc_in in Hrow.
    apply in_flat_map in Hrow as (o & Ho & Hrow). apply filter_In in Ho as [Ho Eu].
    apply join_lines_in in Hrow as (oi & p & Hoi & Eo & Hp & Ep & ->).
    apply Z.eqb_eq in Eu. exists o. repeat split; auto. exists oi, p. auto.
  - intros (o & Ho & Eu & <- & oi & p & Hoi & Eo & Hp & Ep).
    exists (joined None o oi p). split; [reflexivity|].
    apply <- order_by_date_desc_in. apply in_flat_map. exists o. split.
    + apply filter_In. split; [exact Ho|]. apply Z.eqb_eq. exact Eu.
    + apply join_lines_in. exists oi, p. auto.
Qed.

Lemma select_all_orders_ids (d : Db) (k : Z) :
  In k (map r_order_id (select_all_orders d)) <->
  exists o, In o (orders d) /\ o_id o = k /\
            (exists u, In u (users d) /\ u_id u = o_user_id o) /\ live_line d o.
Proof.
  unfold select_all_orders, live_line. rewrite in_map_iff. split.
  - intros (row & <- & Hrow). apply -> order_by_date_desc_in in Hrow.
    apply in_flat_map in Hrow as (o & Ho & Hrow).
    apply in_flat_map in Hrow as (u & Hu & Hrow). apply filter_In in Hu as [Hu Eu].
    apply join_lines_in in Hrow as (oi & p & Hoi & Eo & Hp & Ep & ->).
    apply Z.eqb_eq in Eu. exists o. repeat split; auto.
    + exists u. auto.
    + exists oi, p. auto.
  - intros (o & Ho & <- & (u & Hu & Eu) & oi & p & Hoi & Eo & Hp & Ep).
    exists (joined (Some (mkCustomer (u_username u) (u_email u))) o oi p).
    split; [reflexivity|].
    apply <- order_by_date_desc_in. apply in_flat_map. exists o. split; [exact Ho|].
    apply in_flat_map. exists u. split.
    + apply filter_In. split; [exact Hu|]. apply Z.eqb_eq. auto.
    + apply join_lines_in. exists oi, p. auto.
Qed.

(** *** The handlers *)

Lemma grouped_nil {J : JSON} (c : list string) : grouped [] [] c.
Proof.
  split; [constructor|]. split; [intros k; reflexivity|]. intros k v [].
Qed.

(** Both handlers are this block around their query. *)
Lemma history_run {J : JSON} (q : Db -> list history_row) (handler : Error -> M response)
      (w : World) :
  healthy w ->
  descending (map r_order_date (q (committed w))) ->
  exists m extra,
    try_catch
      (results <- select Pool q ;;
       ordersMap <- forEach results [] ;;
       ret (mkResponse 200 (OrderList (map snd ordersMap))))
      handler w
    = (Ok (mkResponse 200 (OrderList (map snd m))),
       mkWorld (committed w) (transaction w) (leased w) (driver w) (console w ++ extra)) /\
    grouped (q (committed w)) m (console w ++ extra) /\
    descending (map v_order_date (map snd m)).
Proof.
  intros Hw Hrows. unfold try_catch, bind. rewrite (select_pool q Hw).
  destruct (@forEach_grouped J (q (committed w)) [] [] w (grouped_nil (console w)))
    as (m & extra & -> & Hm & Hsorted).
  exists m, extra. unfold ret. split; [reflexivity|]. split; [exact Hm|].
  apply Hsorted; [exact Hrows|constructor].
Qed.

(** C9: with the driver healthy both history handlers answer 200 with one
    view per order id of the rows of their query; each view carries the items
    of all rows of its order, the views come newest first, and a shipping
    address whose text does not parse is [null] in its view with the anomaly
    written to the console, the reply being sent all the same. *)
Theorem order_history_grouped_newest_first :
  forall (J : JSON) (w : World) (userId : Z),
    healthy w ->
    (exists views w',
        getUserOrders userId w = (Ok (mkResponse 200 (OrderList views)), w') /\
        history_of (select_user_orders userId (committed w)) views (console w'))
    /\
    (exists views w',
        getAllOrders w = (Ok (mkResponse 200 (OrderList views)), w') /\
        history_of (select_all_orders (committed w)) views (console w')).
Proof.
  intros J w userId Hw. split.
  - destruct (history_run (select_user_orders userId)
                (fun error =>
                   console_error ("Error fetching user orders: " ++ message error)%string ;;;
                   ret (mkResponse 500 (Message "Failed to fetch user orders.")))
                Hw (order_by_date_desc_sorted _)) as (m & extra & Hrun & Hm & Hsorted).
    do 2 eexists. split; [exact Hrun|]. apply grouped_history; assumption.
  - destruct (history_run select_all_orders
                (fun error =>
                   console_error ("Error fetching all orders: " ++ message error)%string ;;;
                   ret (mkResponse 500 (Message "Failed to fetch all orders.")))
                Hw (order_by_date_desc_sorted _)) as (m & extra & Hrun & Hm & Hsorted).
    do 2 eexists. split; [exact Hrun|]. apply grouped_history; assumption.
Qed.

Lemma order_history_grouped_newest_first_witness :
  healthy (idle archive []) /\
  (exists views w',
      getUserOrders (J := literal_JSON) 7 (idle archive [])
      = (Ok (mkResponse 200 (OrderList views)), w') /\
      history_of (J := literal_JSON) (select_user_orders 7 archive) views (console w')) /\
  (exists views w',
      getAllOrders (J := literal_JSON) (idle archive [])
      = (Ok (mkResponse 200 (OrderList views)), w') /\
      history_of (J := literal_JSON) (select_all_orders archive) views (console w')).
Proof.
  split; [reflexivity|].
  apply (@order_history_grouped_newest_first literal_JSON (idle archive []) 7). reflexivity.
Defined.

(** The history of user 7 in [archive], evaluated: order 2 (newest) comes first with a [null]
    address, order 1 follows with both its items, order 3 is not listed, and
    the console has the anomaly of order 2. *)
Example getUserOrders_archive :
  getUserOrders (J := literal_JSON) 7 (idle archive [])
  = (Ok (mkResponse 200 (OrderList
       [mkOrderView 2 2000 12000 "shipped" JNull None
                    [mkViewItem "Kori Rotti" 1 12000 "img1"];
        mkOrderView 1 1000 32000 "pending" (JObject []) None
                    [mkViewItem "Kori Rotti" 2 12000 "img1";
                     mkViewItem "Banana Chips" 1 8000 "img2"]])),
     mkWorld archive None 0 []
       ["Could not parse shipping address for order ID 2: Car Street, Mangaluru"]).
Proof. vm_compute. reflexivity. Qed.

(** C10: the histories list exactly the orders that have a line whose
    product is still in the catalogue (for the admin listing, of a user that
    still exists); an order whose lines are all gone is not listed, and no
    listed order has an empty item list. *)
Theorem order_history_lists_live_orders_only :
  forall (J : JSON) (w : World) (userId : Z),
    healthy w ->
    (exists views w',
        getUserOrders userId w = (Ok (mkResponse 200 (OrderList views)), w') /\
        (forall k, In k (map v_order_id views) <->
                   exists o, In o (orders (committed w)) /\ o_user_id o = userId /\
                             o_id o = k /\ live_line (committed w) o) /\
        (forall v, In v views -> v_items v <> []))
    /\
    (exists views w',
        getAllOrders w = (Ok (mkResponse 200 (OrderList views)), w') /\
        (forall k, In k (map v_order_id views) <->
                   exists o, In o (orders (committed w)) /\ o_id o = k /\
                             (exists u, In u (users (committed w)) /\ u_id u = o_user_id o) /\
                             live_line (committed w) o) /\
        (forall v, In v views -> v_items v <> [])).
Proof.
  intros J w userId Hw.
  assert (Hlisted : forall rows m c,
             grouped rows m c ->
             (forall k, In k (map v_order_id (map snd m)) <-> In k (map r_order_id rows)) /\
             (forall v, In v (map snd m) -> v_items v <> [])).
  { intros rows m c (Hnodup & Hkeys & Hviews).
    assert (Hids : map v_order_id (map snd m) = map fst m).
    { rewrite map_map. apply map_ext_in. intros [k v] Hin.
      destruct (Hviews k v Hin) as (Hid & _). exact Hid. }
    rewrite Hids. split; [exact Hkeys|].
    intros v Hv. apply in_map_iff in Hv as ([k v'] & Hsnd & Hin). cbn [snd] in Hsnd. subst v'.
    destruct (Hviews k v Hin) as (_ & -> & row & Hrow & Hk & _).
    intros Hnil. apply map_eq_nil in Hnil.
    assert (Hin' : In row (filter (fun r => r_order_id r =? k) rows))
      by (apply filter_In; split; [exact Hrow|apply Z.eqb_eq; exact Hk]).
    rewrite Hnil in Hin'. exact Hin'. }
  split.
  - destruct (history_run (select_user_orders userId)
                (fun error =>
                   console_error ("Error fetching user orders: " ++ message error)%string ;;;
                   ret (mkResponse 500 (Message "Failed to fetch user orders.")))
                Hw (order_by_date_desc_sorted _)) as (m & extra & Hrun & Hm & _).
    destruct (Hlisted _ _ _ Hm) as [Hids Hitems].
    do 2 eexists. split; [exact Hrun|]. split; [|exact Hitems].
    intros k. rewrite Hids. apply select_user_orders_ids.
  - destruct (history_run select_all_orders
                (fun error =>
                   console_error ("Error fetching all orders: " ++ message error)%string ;;;
                   ret (mkResponse 500 (Message "Failed to fetch all orders.")))
                Hw (order_by_date_desc_sorted _)) as (m & extra & Hrun & Hm & _).
    destruct (Hlisted _ _ _ Hm) as [Hids Hitems].
    do 2 eexists. split; [exact Hrun|]. split; [|exact Hitems].
    intros k. rewrite Hids. apply select_all_orders_ids.
Qed.

Lemma order_history_lists_live_orders_only_witness :
  healthy (idle archive []) /\
  exists views w',
    getUserOrders (J := literal_JSON) 7 (idle archive [])
    = (Ok (mkResponse 200 (OrderList views)), w') /\
    ~ In 3 (map v_order_id views) /\
    (forall v, In v views -> v_items v <> []).
Proof.
  split; [reflexivity|].
  destruct (@order_history_lists_live_orders_only literal_JSON (idle archive []) 7 eq_refl)
    as [(views & w' & Hrun & Hids & Hitems) _].
  exists views, w'. split; [exact Hrun|]. split; [|exact Hitems].
  intros Hin. apply Hids in Hin as (o & Ho & _ & Hk & oi & p & Hoi & Eo & _).
  rewrite Hk in Eo. cbn in Hoi.
  destruct Hoi as [<-|[<-|[<-|[]]]]; discriminate Eo.
Defined.

(** * Further properties *)

(** ** Placing an order *)

Lemma commit_healthy (w : World) :
  healthy w ->
  commit w = (Ok tt, mkWorld (view w) None (leased w) (driver w) (console w)).
Proof. intros Hw. unfold commit, bind. rewrite (driver_call_healthy Hw). reflexivity. Qed.

(** With every line in stock the loop goes through and logs its statements. *)
Lemma order_lines_in_stock {J : JSON} (orderId : Z) :
  forall (lines : list item) (w : World) (log : list statement),
    healthy w -> transaction w = Some log ->
    in_stock lines (products (replay log (committed w))) = true ->
    order_lines orderId Connection lines w =
    (Ok tt, mkWorld (committed w) (Some (log ++ lines_log orderId lines))
                    (leased w) (driver w) (console w)).
Proof.
  induction lines as [|it lines IH]; intros w log Hw Ht Hstock.
  - cbn [lines_log flat_map]. rewrite app_nil_r, <- Ht, world_eta. reflexivity.
  - destruct (@order_line_step J orderId it lines w log Hw Ht) as [Hp ->].
    cbn [in_stock] in Hstock. apply andb_true_iff in Hstock as [Hit Hrest].
    rewrite Hit.
    match goal with |- order_lines _ _ _ ?x = _ => set (w1 := x) end.
    rewrite (IH w1 _ Hw eq_refl).
    + unfold w1. cbn [committed leased driver console lines_log flat_map].
      rewrite <- app_assoc. reflexivity.
    + unfold w1. cbn [committed]. rewrite Hp. exact Hrest.
Qed.

Lemma replay_cons (s : statement) (log : list statement) (d : Db) :
  replay (s :: log) d = replay log (fst (execute s d)).
Proof. reflexivity. Qed.

(** What the logged statements of the lines do to the tables. *)
Lemma replay_lines_log (orderId : Z) :
  forall (lines : list item) (d : Db),
    replay (lines_log orderId lines) d =
    mkDb (users d) (stocks_after lines (products d)) (cart_items d) (orders d)
         (order_items d ++ new_items orderId (next_order_item_id d) lines)
         (next_cart_item_id d) (next_order_id d)
         (next_order_item_id d + Z.of_nat (List.length lines))
         (current_timestamp d).
Proof.
  induction lines as [|it lines IH]; intros d.
  - cbn. rewrite app_nil_r, Z.add_0_r. destruct d; reflexivity.
  - cbn [lines_log flat_map app]. rewrite !replay_cons.
    fold (lines_log orderId lines). rewrite IH.
    cbn [execute fst users products cart_items orders order_items next_cart_item_id
         next_order_id next_order_item_id current_timestamp with_products
         stocks_after fold_left new_items List.length].
    rewrite <- app_assoc. cbn [app]. f_equal. lia.
Qed.

(** The whole attempt when nothing fails. *)
Lemma transact_placed {J : JSON} (w : World) (userId totalAmount : Z) (shippingAddress : json)
      (lines : list item) :
  healthy w ->
  in_stock lines (products (committed w)) = true ->
  transact userId lines totalAmount shippingAddress w
  = (Ok (mkResponse 201 (OrderPlaced "Order placed successfully!" (next_order_id (committed w)))),
     mkWorld (placed userId totalAmount shippingAddress lines (committed w))
             None (leased w) (driver w) (console w)).
Proof.
  intros Hw Hstock. unfold transact. rewrite (getConnection_healthy Hw).
  unfold finally, try_catch, place. unfold bind at 1.
  match goal with |- context [beginTransaction ?x] => set (w0 := x) end.
  assert (Hw0 : healthy w0) by exact Hw.
  rewrite (beginTransaction_healthy Hw0). unfold bind at 1.
  match goal with |- context [query Connection _ ?x] => set (w1 := x) end.
  assert (Hw1 : healthy w1) by exact Hw.
  rewrite (query_in_transaction _ Hw1 (eq_refl : transaction w1 = Some [])).
  unfold bind at 1.
  match goal with |- context [order_lines ?o _ _ ?x] => set (orderId := o); set (w2 := x) end.
  rewrite (@order_lines_in_stock J orderId lines w2 _ Hw eq_refl Hstock).
  unfold bind at 1. unfold cartModel.clearCart, bind at 1.
  match goal with |- context [query Pool _ ?x] => set (w3 := x) end.
  assert (Hw3 : healthy w3) by exact Hw.
  rewrite (query_pool _ Hw3). unfold ret at 1. unfold bind at 1.
  match goal with |- context [commit ?x] => set (w4 := x) end.
  assert (Hw4 : healthy w4) by exact Hw.
  rewrite (commit_healthy Hw4). unfold ret, release.
  unfold w4, w3, w2, w1, w0, orderId, view.
  cbn [committed transaction leased driver console execute fst snd insertId app Nat.pred].
  rewrite replay_cons, replay_lines_log.
  cbn [execute fst users products cart_items orders order_items next_cart_item_id
       next_order_id next_order_item_id current_timestamp with_cart_items].
  reflexivity.
Qed.



Lemma line_taken_primary_key (ps : list product) (it : item) :
  primary_key ps -> primary_key (line_taken ps it).
Proof. apply update_stock_primary_key. Qed.

(** Under the primary key, lines that are all in stock take from each
    product exactly what they ask of it. *)
Lemma stocks_after_stock_of (productId : Z) :
  forall (lines : list item) (ps : list product),
    primary_key ps ->
    in_stock lines ps = true ->
    stock_of productId (stocks_after lines ps)
    = option_map (fun s => s - demand productId lines) (stock_of productId ps).
Proof.
  induction lines as [|it lines IH]; intros ps Hk Hstock.
  - cbn. destruct (stock_of productId ps); cbn; [f_equal; lia|reflexivity].
  - cbn [in_stock] in Hstock. apply andb_true_iff in Hstock as [Hit Hrest].
    cbn [stocks_after fold_left]. fold (stocks_after lines (line_taken ps it)).
    rewrite (IH _ (line_taken_primary_key it Hk) Hrest).
    unfold line_taken at 1. rewrite stock_of_update.
    unfold line_matches in Hit.
    rewrite (guard_stock_of (product_id it) (item_quantity it) Hk) in Hit.
    cbn [demand fold_right]. fold (demand productId lines).
    destruct (stock_of productId ps) as [s|] eqn:Es; [|reflexivity].
    cbn [option_map]. f_equal.
    destruct (productId =? product_id it) eqn:Ep.
    + apply Z.eqb_eq in Ep. subst productId. rewrite Es in Hit. rewrite Hit.
      cbn [andb]. rewrite Z.eqb_refl. lia.
    + cbn [andb]. rewrite Z.eqb_sym, Ep. lia.
Qed.

(** X2: a placed order takes from every product exactly the sum of the
    quantities its lines ask of that product, and from no other. *)
Theorem createOrder_stock_conservation :
  forall (J : JSON) (w : World) (userId totalAmount : Z) (shippingAddress : json)
         (first : item) (others : list item) (productId : Z),
    healthy w ->
    primary_key (products (committed w)) ->
    in_stock (first :: others) (products (committed w)) = true ->
    stock_of productId
      (products (committed (snd
         (createOrder (mkRequest (mkOrderBody (Some (first :: others)) (Some totalAmount)
                                              (Some shippingAddress)) userId) w))))
    = option_map (fun s => s - demand productId (first :: others))
                 (stock_of productId (products (committed w))).
Proof.
  intros J w userId totalAmount shippingAddress first others productId Hw Hk Hstock.
  rewrite createOrder_complete_body, (transact_placed userId totalAmount shippingAddress _ Hw Hstock).
  cbn [snd committed placed products].
  apply stocks_after_stock_of; assumption.
Qed.

Lemma createOrder_stock_conservation_witness :
  healthy (idle shop []) /\
  primary_key (products (committed (idle shop []))) /\
  in_stock [mkItem 1 3 12000; mkItem 1 2 12000] (products (committed (idle shop []))) = true /\
  stock_of 1
    (products (committed (snd
       (createOrder (J := literal_JSON) (checkout [mkItem 1 3 12000; mkItem 1 2 12000])
                    (idle shop [])))))
  = Some (5 - (3 + (2 + 0))).
Proof.
  split; [reflexivity|]. split; [repeat constructor; simpl; intuition lia|].
  split; [reflexivity|].
  apply (@createOrder_stock_conservation literal_JSON (idle shop []) 7 44000 address
           (mkItem 1 3 12000) [mkItem 1 2 12000] 1).
  - reflexivity.
  - repeat constructor; simpl; intuition lia.
  - reflexivity.
Defined.

Lemma delete_where_own {A} (cond : A -> bool) (l : list A) :
  filter cond (delete_where cond l) = [].
Proof.
  unfold delete_where. induction l as [|a l IH]; [reflexivity|].
  cbn [filter]. destruct (cond a) eqn:E; cbn [negb filter]; [exact IH|].
  rewrite E. exact IH.
Qed.

Lemma delete_where_others {A} (cond keep : A -> bool) (l : list A) :
  (forall a, cond a = true -> keep a = false) ->
  filter keep (delete_where cond l) = filter keep l.
Proof.
  intros Hdisjoint. unfold delete_where. induction l as [|a l IH]; [reflexivity|].
  cbn [filter]. destruct (cond a) eqn:E; cbn [negb filter].
  - rewrite (Hdisjoint a E). exact IH.
  - destruct (keep a); rewrite IH; reflexivity.
Qed.

Lemma cart_of_other_user (userId other : Z) (c : cart_item) :
  other <> userId -> cart_of_user userId c = true -> cart_of_user other c = false.
Proof.
  unfold cart_of_user. intros Hne Hc. apply Z.eqb_eq in Hc. apply Z.eqb_neq. lia.
Qed.

(** X3: after a placed order the cart listing of the buyer is empty, and the
    cart lines of every other user are the ones from before. *)
Theorem createOrder_clears_cart_of_buyer :
  forall (J : JSON) (w : World) (userId totalAmount : Z) (shippingAddress : json)
         (first : item) (others : list item),
    healthy w ->
    in_stock (first :: others) (products (committed w)) = true ->
    fst (cartModel.getCartItems userId
           (snd (createOrder (mkRequest (mkOrderBody (Some (first :: others)) (Some totalAmount)
                                                     (Some shippingAddress)) userId) w)))
    = Ok [] /\
    forall other,
      other <> userId ->
      filter (cart_of_user other)
             (cart_items (committed (snd
                (createOrder (mkRequest (mkOrderBody (Some (first :: others)) (Some totalAmount)
                                                     (Some shippingAddress)) userId) w))))
      = filter (cart_of_user other) (cart_items (committed w)).
Proof.
  intros J w userId totalAmount shippingAddress first others Hw Hstock.
  rewrite createOrder_complete_body, (transact_placed userId totalAmount shippingAddress _ Hw Hstock).
  cbn [snd]. split.
  - unfold cartModel.getCartItems, bind.
    rewrite select_pool by exact Hw.
    unfold cartModel.select_cart. cbn [committed placed cart_items].
    rewrite delete_where_own. reflexivity.
  - intros other Hne. cbn [committed placed cart_items].
    apply delete_where_others. intros c. apply cart_of_other_user. exact Hne.
Qed.

Lemma createOrder_clears_cart_of_buyer_witness :
  healthy (idle shop []) /\
  in_stock [mkItem 1 3 12000] (products (committed (idle shop []))) = true /\
  fst (cartModel.getCartItems 7
         (snd (createOrder (J := literal_JSON) (checkout [mkItem 1 3 12000]) (idle shop []))))
  = Ok [] /\
  filter (cart_of_user 8)
         (cart_items (committed
            (snd (createOrder (J := literal_JSON) (checkout [mkItem 1 3 12000]) (idle shop [])))))
  = [mkCartItem 3 8 1 1].
Proof.
  split; [reflexivity|]. split; [reflexivity|].
  destruct (@createOrder_clears_cart_of_buyer literal_JSON (idle shop []) 7 44000 address
              (mkItem 1 3 12000) [] eq_refl eq_refl) as [Hmine Hothers].
  split; [exact Hmine|]. unfold checkout. rewrite (Hothers 8) by discriminate. reflexivity.
Defined.

(** *** The connection always goes back *)

Lemma bind_leased {A B} (m : M A) (k : A -> M B) :
  (forall w, leased (snd (m w)) = leased w) ->
  (forall a w, leased (snd (k a w)) = leased w) ->
  forall w, leased (snd (bind m k w)) = leased w.
Proof.
  intros Hm Hk w. unfold bind. specialize (Hm w).
  destruct (m w) as [[a|e] w1]; cbn [snd] in *; [rewrite Hk|]; exact Hm.
Qed.

Lemma driver_call_leased (w : World) : leased (snd (driver_call w)) = leased w.
Proof. unfold driver_call. destruct (driver w) as [|[e|] rest]; reflexivity. Qed.

Lemma query_leased (h : handle) (s : statement) (w : World) :
  leased (snd (query h s w)) = leased w.
Proof.
  unfold query. apply bind_leased; [apply driver_call_leased|].
  intros _ w1. destruct h; [|destruct (transaction w1)];
    try destruct (execute s (committed w1)); reflexivity.
Qed.

Lemma deductProductStock_leased (productId q : Z) (connection : option handle) (w : World) :
  leased (snd (productController.deductProductStock productId q connection w)) = leased w.
Proof.
  unfold productController.deductProductStock. apply bind_leased; [apply query_leased|].
  intros r w1. destruct (affectedRows r =? 0); reflexivity.
Qed.

Lemma order_lines_leased {J : JSON} (orderId : Z) (lines : list item) (w : World) :
  leased (snd (order_lines orderId Connection lines w)) = leased w.
Proof.
  revert w. induction lines as [|it lines IH]; intros w; [reflexivity|].
  rewrite order_lines_cons. apply bind_leased; [apply query_leased|].
  intros _ w1. apply bind_leased; [apply deductProductStock_leased|].
  intros _ w2. apply IH.
Qed.

Lemma place_leased {J : JSON} (userId : Z) (lines : list item) (totalAmount : Z)
      (shippingAddress : json) (w : World) :
  leased (snd (place Connection userId lines totalAmount shippingAddress w)) = leased w.
Proof.
  unfold place. apply bind_leased.
  { intros w0. unfold beginTransaction. apply bind_leased; [apply driver_call_leased|reflexivity]. }
  intros _ w1. apply bind_leased; [apply query_leased|].
  intros r w2. apply bind_leased; [apply order_lines_leased|].
  intros _ w3. apply bind_leased.
  { intros w0. unfold cartModel.clearCart. apply bind_leased; [apply query_leased|reflexivity]. }
  intros _ w4. apply bind_leased; [|reflexivity].
  intros w0. unfold commit. apply bind_leased; [apply driver_call_leased|reflexivity].
Qed.

Lemma order_failed_leased (error : Error) (w : World) :
  leased (snd (order_failed error w)) = leased w.
Proof. reflexivity. Qed.

(** X4: whatever the request and whatever the driver does, [createOrder]
    leaves as many connections leased as it found: the one it takes is
    released on every path, and none is released that was not taken. *)
Theorem createOrder_releases_connection :
  forall (J : JSON) (req : request) (w : World),
    leased (snd (createOrder req w)) = leased w.
Proof.
  intros J req w. unfold createOrder.
  destruct (items (req_body req)) as [[|first others]|]; try reflexivity.
  destruct (totalAmount (req_body req)) as [total|]; try reflexivity.
  destruct (shippingAddress (req_body req)) as [a|]; try reflexivity.
  unfold transact, getConnection, bind at 1.
  pose proof (driver_call_leased w) as Hd.
  destruct (driver_call w) as [[[]|e] w0]; cbn [snd] in Hd; [|exact Hd].
  unfold finally, try_catch.
  match goal with |- context [place _ _ _ _ _ ?x] => set (w1 := x) end.
  pose proof (place_leased (req_user_id req) (first :: others) total a w1) as Hp.
  destruct (place Connection (req_user_id req) (first :: others) total a w1) as [[r|e] w2];
    cbn [snd] in Hp.
  - cbn. rewrite Hp. unfold w1. cbn. exact Hd.
  - pose proof (bind_leased rollback (fun _ => order_failed e)) as Hr.
    specialize (Hr (fun w0 => ltac:(unfold rollback; apply bind_leased;
                                     [apply driver_call_leased|reflexivity]))
                   (fun _ w0 => order_failed_leased e w0) w2).
    destruct (bind rollback (fun _ => order_failed e) w2) as [r3 w3].
    cbn [snd] in Hr. cbn. rewrite Hr, Hp. unfold w1. cbn. exact Hd.
Qed.

(** ** Reading the history *)

(** The block shared by both history handlers, under any driver script: it
    writes nothing, and it fails, with its generic message, exactly when the
    driver rejects the query. *)
Lemma history_run_any {J : JSON} (q : Db -> list history_row) (label generic : string)
      (w : World) :
  let handler :=
    try_catch
      (results <- select Pool q ;;
       ordersMap <- forEach results [] ;;
       ret (mkResponse 200 (OrderList (map snd ordersMap))))
      (fun error =>
         console_error (label ++ message error)%string ;;;
         ret (mkResponse 500 (Message generic))) in
  committed (snd (handler w)) = committed w /\
  transaction (snd (handler w)) = transaction w /\
  match driver w with
  | Some _ :: _ => fst (handler w) = Ok (mkResponse 500 (Message generic))
  | _ => exists views, fst (handler w) = Ok (mkResponse 200 (OrderList views))
  end.
Proof.
  cbv zeta.
  match goal with |- context [try_catch ?b ?h w] => remember (try_catch b h w) as out eqn:Hout end.
  unfold try_catch, bind in Hout.
  destruct (driver w) as [|[e|] rest] eqn:E.
  - assert (Hsel : select Pool q w = (Ok (q (committed w)), w))
      by (unfold select, bind, driver_call; rewrite E; reflexivity).
    rewrite Hsel in Hout.
    destruct (@forEach_grouped J (q (committed w)) [] [] w (grouped_nil (console w)))
      as (m & extra & Hf & _).
    rewrite Hf in Hout. subst out. cbn. repeat split. eexists. reflexivity.
  - assert (Hsel : select Pool q w
                   = (Throw e, mkWorld (committed w) (transaction w) (leased w) rest (console w)))
      by (unfold select, bind, driver_call; rewrite E; reflexivity).
    rewrite Hsel in Hout. subst out. cbn. repeat split.
  - set (w1 := mkWorld (committed w) (transaction w) (leased w) rest (console w)) in *.
    assert (Hsel : select Pool q w = (Ok (q (committed w)), w1))
      by (unfold select, bind, driver_call; rewrite E; reflexivity).
    rewrite Hsel in Hout.
    destruct (@forEach_grouped J (q (committed w)) [] [] w1 (grouped_nil (console w1)))
      as (m & extra & Hf & _).
    rewrite Hf in Hout. subst out. cbn. repeat split. eexists. reflexivity.
Qed.

(** X5: the history handlers only read.  Under every driver script the
    committed tables and the open transaction are untouched; the reply is the
    200 listing unless the driver rejects the query, and then it is a 500
    with the handler's fixed message, never the error's own. *)
Theorem order_history_reads_only :
  forall (J : JSON) (w : World) (userId : Z),
    (committed (snd (getUserOrders userId w)) = committed w /\
     transaction (snd (getUserOrders userId w)) = transaction w /\
     match driver w with
     | Some _ :: _ =>
         fst (getUserOrders userId w)
         = Ok (mkResponse 500 (Message "Failed to fetch user orders."))
     | _ => exists views, fst (getUserOrders userId w) = Ok (mkResponse 200 (OrderList views))
     end)
    /\
    (committed (snd (getAllOrders w)) = committed w /\
     transaction (snd (getAllOrders w)) = transaction w /\
     match driver w with
     | Some _ :: _ =>
         fst (getAllOrders w) = Ok (mkResponse 500 (Message "Failed to fetch all orders."))
     | _ => exists views, fst (getAllOrders w) = Ok (mkResponse 200 (OrderList views))
     end).
Proof.
  intros J w userId. split.
  - exact (history_run_any (select_user_orders userId) "Error fetching user orders: "
                           "Failed to fetch user orders." w).
  - exact (history_run_any select_all_orders "Error fetching all orders: "
                           "Failed to fetch all orders." w).
Qed.

Lemma stocks_after_ids (lines : list item) (ps : list product) :
  map p_id (stocks_after lines ps) = map p_id ps.
Proof.
  revert ps. induction lines as [|it lines IH]; intros ps; [reflexivity|].
  cbn [stocks_after fold_left]. fold (stocks_after lines (line_taken ps it)).
  rewrite IH. apply update_stock_ids.
Qed.

(** X6: an order that was placed is listed in the history of its buyer. *)
Theorem placed_order_is_listed :
  forall (J : JSON) (w : World) (userId totalAmount : Z) (shippingAddress : json)
         (first : item) (others : list item),
    healthy w ->
    in_stock (first :: others) (products (committed w)) = true ->
    exists views w'',
      getUserOrders userId
        (snd (createOrder (mkRequest (mkOrderBody (Some (first :: others)) (Some totalAmount)
                                                  (Some shippingAddress)) userId) w))
      = (Ok (mkResponse 200 (OrderList views)), w'') /\
      In (next_order_id (committed w)) (map v_order_id views).
Proof.
  intros J w userId totalAmount shippingAddress first others Hw Hstock.
  rewrite createOrder_complete_body, (transact_placed userId totalAmount shippingAddress _ Hw Hstock).
  cbn [snd].
  set (w' := mkWorld (placed userId totalAmount shippingAddress (first :: others) (committed w))
                     None (leased w) (driver w) (console w)).
  assert (Hw' : healthy w') by exact Hw.
  destruct (@history_run J (select_user_orders userId)
              (fun error =>
                 console_error ("Error fetching user orders: " ++ message error)%string ;;;
                 ret (mkResponse 500 (Message "Failed to fetch user orders.")))
              w' Hw' (order_by_date_desc_sorted _)) as (m & extra & Hrun & Hm & _).
  do 2 eexists. split; [exact Hrun|].
  destruct Hm as (_ & Hkeys & Hviews).
  assert (Hids : map v_order_id (map snd m) = map fst m).
  { rewrite map_map. apply map_ext_in. intros [k v] Hin.
    destruct (Hviews k v Hin) as (Hid & _). exact Hid. }
  rewrite Hids. apply Hkeys. apply select_user_orders_ids.
  unfold w'. cbn [committed].
  exists (mkOrder (next_order_id (committed w)) userId totalAmount
                  (Text (JSON_stringify shippingAddress)) "pending"
                  (current_timestamp (committed w))).
  split; [cbn [placed orders]; apply in_or_app; right; left; reflexivity|].
  split; [reflexivity|]. split; [reflexivity|].
  cbn [in_stock] in Hstock. apply andb_true_iff in Hstock as [Hfirst _].
  unfold line_matches in Hfirst. apply existsb_exists in Hfirst as (p & Hp & Hguard).
  unfold stock_guard in Hguard. apply andb_true_iff in Hguard as [Hid _].
  apply Z.eqb_eq in Hid.
  assert (Hin : In (product_id first)
                   (map p_id (stocks_after (first :: others) (products (committed w))))).
  { rewrite stocks_after_ids. rewrite <- Hid. apply in_map. exact Hp. }
  apply in_map_iff in Hin as (p' & Hid' & Hp').
  exists (mkOrderItem (next_order_item_id (committed w)) (next_order_id (committed w))
                      (product_id first) (item_quantity first) (product_price first)), p'.
  cbn [placed order_items products new_items oi_order_id oi_product_id o_id].
  repeat split; auto. apply in_or_app. right. left. reflexivity.
Qed.

Lemma placed_order_is_listed_witness :
  healthy (idle shop []) /\
  in_stock [mkItem 1 3 12000] (products (committed (idle shop []))) = true /\
  exists views w'',
    getUserOrders (J := literal_JSON) 7
      (snd (createOrder (J := literal_JSON) (checkout [mkItem 1 3 12000]) (idle shop [])))
    = (Ok (mkResponse 200 (OrderList views)), w'') /\
    In 1 (map v_order_id views).
Proof.
  split; [reflexivity|]. split; [reflexivity|].
  apply (@placed_order_is_listed literal_JSON (idle shop []) 7 44000 address
           (mkItem 1 3 12000) []); reflexivity.
Defined.

(** ** More on the cart *)

Lemma update_owned_others (userId other cartItemId q : Z) (l : list cart_item) :
  other <> userId ->
  filter (cart_of_user other) (update_where (cart_owned cartItemId userId) (set_quantity q) l)
  = filter (cart_of_user other) l.
Proof.
  intros Hne. unfold update_where. induction l as [|c l IH]; [reflexivity|].
  cbn [map filter]. destruct (cart_owned cartItemId userId c) eqn:E.
  - unfold cart_owned in E. apply andb_true_iff in E as [_ Eu].
    rewrite (@cart_of_other_user userId other (set_quantity q c) Hne Eu).
    rewrite (@cart_of_other_user userId other c Hne Eu). exact IH.
  - destruct (cart_of_user other c); rewrite IH; reflexivity.
Qed.

(** The committed cart after a pool statement, whatever the driver does. *)
Lemma query_pool_committed (s : statement) (w : World) :
  committed (snd (query Pool s w)) = fst (execute s (committed w)) \/
  committed (snd (query Pool s w)) = committed w.
Proof.
  destruct (query_pool_cases s w) as [(w' & -> & Hc & _) | (e & w' & -> & Hc & _)];
    [left|right]; exact Hc.
Qed.

(** X7: the cart calls made for one user never touch the cart lines of
    another, whatever the driver does: changing a quantity, removing an item
    and clearing the cart leave every other user's lines as they were. *)
Theorem cart_calls_leave_other_users_alone :
  forall (w : World) (userId other cartItemId quantity : Z),
    other <> userId ->
    filter (cart_of_user other)
           (cart_items (committed (snd (cartModel.updateCartItemQuantity
                                          cartItemId userId quantity w))))
    = filter (cart_of_user other) (cart_items (committed w))
    /\
    filter (cart_of_user other)
           (cart_items (committed (snd (cartModel.removeCartItem cartItemId userId w))))
    = filter (cart_of_user other) (cart_items (committed w))
    /\
    filter (cart_of_user other)
           (cart_items (committed (snd (cartModel.clearCart userId w))))
    = filter (cart_of_user other) (cart_items (committed w)).
Proof.
  intros w userId other cartItemId quantity Hne.
  assert (Hsame : forall (A : Type) (k : packet -> M A) (s : statement),
             (forall r w0, committed (snd (k r w0)) = committed w0) ->
             committed (snd (bind (query Pool s) k w)) = committed (snd (query Pool s w))).
  { intros A k s Hk. unfold bind. destruct (query Pool s w) as [[r|e] w1]; cbn [snd];
      [apply Hk|reflexivity]. }
  split; [|split].
  - unfold cartModel.updateCartItemQuantity. rewrite Hsame
      by (intros r w0; destruct (affectedRows r =? 0); reflexivity).
    destruct (query_pool_committed (UpdateCartItemOfUser quantity cartItemId userId) w)
      as [-> | ->]; [|reflexivity].
    cbn [execute fst cart_items with_cart_items]. apply update_owned_others. exact Hne.
  - unfold cartModel.removeCartItem. rewrite Hsame
      by (intros r w0; destruct (affectedRows r =? 0); reflexivity).
    destruct (query_pool_committed (DeleteCartItemOfUser cartItemId userId) w)
      as [-> | ->]; [|reflexivity].
    cbn [execute fst cart_items with_cart_items]. apply delete_where_others.
    intros c Hc. unfold cart_owned in Hc. apply andb_true_iff in Hc as [_ Hu].
    exact (@cart_of_other_user userId other c Hne Hu).
  - unfold cartModel.clearCart. rewrite Hsame by (intros r w0; reflexivity).
    destruct (query_pool_committed (DeleteCartOfUser userId) w) as [-> | ->]; [|reflexivity].
    cbn [execute fst cart_items with_cart_items]. apply delete_where_others.
    intros c. apply cart_of_other_user. exact Hne.
Qed.

Lemma cart_calls_leave_other_users_alone_witness :
  8 <> 7 /\
  filter (cart_of_user 8)
         (cart_items (committed (snd (cartModel.clearCart 7 (idle shop [])))))
  = [mkCartItem 3 8 1 1] /\
  filter (cart_of_user 8)
         (cart_items (committed (snd (cartModel.removeCartItem 3 7 (idle shop [])))))
  = [mkCartItem 3 8 1 1].
Proof.
  assert (Hne : 8 <> 7) by discriminate.
  destruct (@cart_calls_leave_other_users_alone (idle shop []) 7 8 3 10 Hne)
    as (_ & Hremove & Hclear).
  split; [exact Hne|]. split; [rewrite Hclear|rewrite Hremove]; reflexivity.
Defined.

(** X8: clearing the cart answers 200 with the number of lines deleted, and
    the cart listing that follows is the empty list. *)
Theorem clearUserCart_empties_cart :
  forall (w : World) (userId : Z),
    healthy w ->
    fst (cartController.clearUserCart userId w)
    = Ok (mkReply 200
            (Sent ("Cart cleared successfully.",
                   Z.of_nat (List.length (filter (cart_of_user userId)
                                                 (cart_items (committed w))))))) /\
    fst (cartController.getCart userId (snd (cartController.clearUserCart userId w)))
    = Ok (mkReply 200 (Sent [])).
Proof.
  intros w userId Hw.
  unfold cartController.clearUserCart, try_catch, cartModel.clearCart, bind.
  rewrite (query_pool _ Hw). cbn [execute fst snd affectedRows ret].
  split; [reflexivity|].
  match goal with |- context [cartController.getCart _ ?x] => set (w1 := x) end.
  assert (Hw1 : healthy w1) by exact Hw.
  unfold cartController.getCart, try_catch, cartModel.getCartItems, bind.
  rewrite (select_pool _ Hw1). unfold cartModel.select_cart, w1.
  cbn [committed cart_items with_cart_items]. rewrite delete_where_own. reflexivity.
Qed.

Lemma clearUserCart_empties_cart_witness :
  healthy (idle shop []) /\
  fst (cartController.clearUserCart 7 (idle shop []))
  = Ok (mkReply 200 (Sent ("Cart cleared successfully.", 2))) /\
  fst (cartController.getCart 7 (snd (cartController.clearUserCart 7 (idle shop []))))
  = Ok (mkReply 200 (Sent [])).
Proof.
  split; [reflexivity|].
  destruct (@clearUserCart_empties_cart (idle shop []) 7 eq_refl) as [Hclear Hlist].
  split; [rewrite Hclear; reflexivity|exact Hlist].
Defined.

(** X9: a quantity that is missing, not a number, zero or negative is
    refused by both cart endpoints that take one, with a 400, before anything
    is asked of the database. *)
Theorem cart_endpoints_refuse_bad_quantity :
  forall (w : World) (cartItemId userId : Z) (productId quantity : option Z),
    match quantity with Some q => q <= 0 | None => True end ->
    cartController.updateCartItem cartItemId userId quantity w
    = (Ok (mkResponse 400 (Message "A valid positive quantity is required.")), w) /\
    cartController.addItemToCart userId productId quantity w
    = (Ok (mkResponse 400
             (Message "A valid Product ID and a positive quantity are required.")), w).
Proof.
  intros w cartItemId userId productId quantity Hq.
  unfold cartController.updateCartItem, cartController.addItemToCart.
  destruct quantity as [q|].
  - replace (q <=? 0) with true by (symmetry; apply Z.leb_le; exact Hq).
    destruct productId as [p|]; [rewrite orb_true_r|]; split; reflexivity.
  - destruct productId; split; reflexivity.
Qed.

Lemma cart_endpoints_refuse_bad_quantity_witness :
  0 <= 0 /\
  cartController.updateCartItem 1 7 (Some 0) (idle shop [])
  = (Ok (mkResponse 400 (Message "A valid positive quantity is required.")), idle shop []) /\
  cartController.addItemToCart 7 (Some 1) (Some 0) (idle shop [])
  = (Ok (mkResponse 400
           (Message "A valid Product ID and a positive quantity are required.")), idle shop []).
Proof.
  split; [lia|].
  apply (@cart_endpoints_refuse_bad_quantity (idle shop []) 1 7 (Some 1) (Some 0)).
  cbn. lia.
Defined.

Lemma cart_id_unique (l : list cart_item) (a b : cart_item) :
  cart_primary_key l -> In a l -> In b l -> ci_id a = ci_id b -> a = b.
Proof.
  unfold cart_primary_key. induction l as [|c l IH]; intros Hk Ha Hb Hid; [contradiction|].
  cbn [map] in Hk. inversion Hk as [|? ? Hnotin Hrest]; subst.
  destruct Ha as [<-|Ha], Hb as [<-|Hb].
  - reflexivity.
  - exfalso. apply Hnotin. rewrite Hid. apply in_map. exact Hb.
  - exfalso. apply Hnotin. rewrite <- Hid. apply in_map. exact Ha.
  - apply IH; assumption.
Qed.

(** Under the primary key, once the caller owns the item, the owner test of
    the statement is a test on the id alone. *)
Lemma cart_owned_is_id (l : list cart_item) (cartItemId userId : Z) :
  cart_primary_key l ->
  existsb (cart_owned cartItemId userId) l = true ->
  forall c, In c l -> cart_owned cartItemId userId c = cart_id_is cartItemId c.
Proof.
  intros Hk Hsome c Hc. apply existsb_exists in Hsome as (mine & Hmine & Howned).
  unfold cart_owned, cart_id_is in *. destruct (ci_id c =? cartItemId) eqn:E; [|reflexivity].
  apply andb_true_iff in Howned as [Hid Hu]. apply Z.eqb_eq in E, Hid.
  assert (c = mine) by (apply (@cart_id_unique l c mine Hk Hc Hmine); lia).
  subst c. exact Hu.
Qed.

Lemma cart_quantity_updated (cartItemId q other : Z) (l : list cart_item) :
  cart_quantity other (update_where (cart_id_is cartItemId) (set_quantity q) l)
  = if other =? cartItemId
    then option_map (fun _ => q) (cart_quantity other l)
    else cart_quantity other l.
Proof.
  unfold cart_quantity, update_where. induction l as [|c l IH]; cbn [map find].
  - destruct (other =? cartItemId); reflexivity.
  - assert (Hid : cart_id_is other (if cart_id_is cartItemId c then set_quantity q c else c)
                  = cart_id_is other c)
      by (destruct (cart_id_is cartItemId c); reflexivity).
    rewrite Hid. destruct (cart_id_is other c) eqn:Eo; [|exact IH].
    unfold cart_id_is in *. apply Z.eqb_eq in Eo. subst other.
    destruct (ci_id c =? cartItemId); reflexivity.
Qed.

Lemma cart_quantity_deleted (cartItemId other : Z) (l : list cart_item) :
  cart_quantity other (delete_where (cart_id_is cartItemId) l)
  = if other =? cartItemId then None else cart_quantity other l.
Proof.
  unfold cart_quantity, delete_where. induction l as [|c l IH]; cbn [filter find].
  - destruct (other =? cartItemId); reflexivity.
  - destruct (cart_id_is cartItemId c) eqn:E; cbn [negb find];
      destruct (cart_id_is other c) eqn:Eo; unfold cart_id_is in *.
    + apply Z.eqb_eq in E, Eo. rewrite IH.
      replace (other =? cartItemId) with true by (symmetry; apply Z.eqb_eq; lia).
      reflexivity.
    + exact IH.
    + apply Z.eqb_eq in Eo. subst other. rewrite E. reflexivity.
    + exact IH.
Qed.

Lemma update_where_ext_in {A} (c1 c2 : A -> bool) (g : A -> A) (l : list A) :
  (forall a, In a l -> c1 a = c2 a) -> update_where c1 g l = update_where c2 g l.
Proof.
  intros H. unfold update_where. apply map_ext_in. intros a Ha. rewrite (H a Ha). reflexivity.
Qed.

Lemma delete_where_ext_in {A} (c1 c2 : A -> bool) (l : list A) :
  (forall a, In a l -> c1 a = c2 a) -> delete_where c1 l = delete_where c2 l.
Proof.
  intros H. unfold delete_where. induction l as [|a l IH]; [reflexivity|].
  cbn [filter]. rewrite (H a (or_introl eq_refl)).
  rewrite IH by (intros b Hb; apply H; right; exact Hb). reflexivity.
Qed.

Lemma owned_has_quantity (cartItemId userId : Z) (l : list cart_item) :
  existsb (cart_owned cartItemId userId) l = true ->
  exists q0, cart_quantity cartItemId l = Some q0.
Proof.
  unfold cart_quantity. induction l as [|c l IH]; cbn [existsb find]; [discriminate|].
  intros H. unfold cart_id_is at 1. destruct (ci_id c =? cartItemId) eqn:E.
  - eexists. reflexivity.
  - unfold cart_owned at 1 in H. rewrite E in H. cbn [andb orb] in H. apply IH. exact H.
Qed.

(** X10: with ids unique in the cart, the owner's update makes the quantity
    of the item the given one and the owner's removal makes the item
    disappear; either way every other cart item keeps its quantity. *)
Theorem cart_item_update_and_removal :
  forall (w : World) (cartItemId userId quantity : Z),
    healthy w ->
    cart_primary_key (cart_items (committed w)) ->
    existsb (cart_owned cartItemId userId) (cart_items (committed w)) = true ->
    (fst (cartModel.updateCartItemQuantity cartItemId userId quantity w)
     = Ok "Cart item quantity updated successfully." /\
     forall other,
       cart_quantity other
         (cart_items (committed (snd (cartModel.updateCartItemQuantity
                                        cartItemId userId quantity w))))
       = if other =? cartItemId then Some quantity
         else cart_quantity other (cart_items (committed w)))
    /\
    (fst (cartModel.removeCartItem cartItemId userId w)
     = Ok "Product removed from cart successfully." /\
     forall other,
       cart_quantity other
         (cart_items (committed (snd (cartModel.removeCartItem cartItemId userId w))))
       = if other =? cartItemId then None
         else cart_quantity other (cart_items (committed w))).
Proof.
  intros w cartItemId userId quantity Hw Hk Hsome.
  pose proof (@cart_owned_is_id (cart_items (committed w)) cartItemId userId Hk Hsome) as Hid.
  destruct (@owned_has_quantity cartItemId userId (cart_items (committed w)) Hsome)
    as (q0 & Hq0).
  unfold cartModel.updateCartItemQuantity, cartModel.removeCartItem, bind.
  rewrite !(query_pool _ Hw). cbn [execute fst snd affectedRows].
  rewrite count_zero_existsb, Hsome. cbn [negb ret fst snd committed cart_items with_cart_items].
  split; (split; [reflexivity|]); intros other.
  - rewrite (@update_where_ext_in _ _ (cart_id_is cartItemId) _ _ Hid), cart_quantity_updated.
    destruct (other =? cartItemId) eqn:E; [|reflexivity].
    apply Z.eqb_eq in E. subst other. rewrite Hq0. reflexivity.
  - rewrite (@delete_where_ext_in _ _ (cart_id_is cartItemId) _ Hid). apply cart_quantity_deleted.
Qed.

Lemma cart_item_update_and_removal_witness :
  healthy (idle shop []) /\
  cart_primary_key (cart_items (committed (idle shop []))) /\
  existsb (cart_owned 2 7) (cart_items (committed (idle shop []))) = true /\
  cart_quantity 2 (cart_items (committed (snd (cartModel.updateCartItemQuantity 2 7 9
                                                 (idle shop [])))))
  = Some 9 /\
  cart_quantity 2 (cart_items (committed (snd (cartModel.removeCartItem 2 7 (idle shop [])))))
  = None.
Proof.
  assert (Hk : cart_primary_key (cart_items (committed (idle shop []))))
    by (repeat constructor; simpl; intuition lia).
  destruct (@cart_item_update_and_removal (idle shop []) 2 7 9 eq_refl Hk eq_refl)
    as [[_ Hupdate] [_ Hremove]].
  split; [reflexivity|]. split; [exact Hk|]. split; [reflexivity|].
  split; [rewrite Hupdate|rewrite Hremove]; reflexivity.
Defined.

Lemma cartController_not_found_is_404_witness :
  healthy (idle shop []) /\ 0 < 10 /\
  existsb (cart_owned 1 8) (cart_items (committed (idle shop []))) = false /\
  fst (cartController.updateCartItem 1 8 (Some 10) (idle shop []))
  = Ok (mkResponse 404 (Message "Cart item not found or does not belong to the user.")) /\
  fst (cartController.removeCartItem 1 8 (idle shop []))
  = Ok (mkResponse 404 (Message "Cart item not found or does not belong to the user.")).
Proof.
  split; [reflexivity|]. split; [lia|]. split; [reflexivity|].
  apply (@cartController_not_found_is_404 (idle shop []) 1 8 10); [reflexivity|lia|reflexivity].
Defined.


Lemma cart_line_rebuilt (l : list cartModel.cart_line) :
  map (fun item =>
         cartModel.mkCartLine (cartModel.cart_item_id item) (cartModel.line_product_id item)
           (cartModel.line_quantity item) (cartModel.line_product_name item)
           (cartModel.line_product_price item) (cartModel.line_product_image_id item)
           (cartModel.line_product_stock_quantity item)) l = l.
Proof.
  induction l as [|[] l IH]; [reflexivity|]. cbn [map]. rewrite IH. reflexivity.
Qed.

Lemma getCartItems_healthy (userId : Z) (w : World) :
  healthy w ->
  cartModel.getCartItems userId w = (Ok (cartModel.select_cart userId (committed w)), w).
Proof.
  intros Hw. unfold cartModel.getCartItems, bind. rewrite (select_pool _ Hw).
  unfold ret. rewrite cart_line_rebuilt. reflexivity.
Qed.



(** ** More on the ledger *)

Lemma stock_of_row (ps : list product) (p : product) :
  primary_key ps -> In p ps -> stock_of (p_id p) ps = Some (p_stock_quantity p).
Proof.
  unfold primary_key, stock_of. induction ps as [|a ps IH]; intros Hk Hin; [contradiction|].
  cbn [map] in Hk. inversion Hk as [|? ? Hnotin Hrest]; subst.
  cbn [find]. destruct Hin as [->|Hin].
  - rewrite Z.eqb_refl. reflexivity.
  - destruct (p_id a =? p_id p) eqn:E.
    + apply Z.eqb_eq in E. exfalso. apply Hnotin. rewrite E. apply in_map. exact Hin.
    + apply IH; assumption.
Qed.

Lemma deductProductStock_pool_healthy (productId q : Z) (w : World) :
  healthy w ->
  products (committed (snd (productController.deductProductStock productId q None w)))
  = update_where (stock_guard productId q) (take_stock q) (products (committed w)) /\
  healthy (snd (productController.deductProductStock productId q None w)) /\
  fst (productController.deductProductStock productId q None w)
  = if existsb (stock_guard productId q) (products (committed w))
    then Ok true
    else Throw (productController.insufficient_stock productId).
Proof.
  intros Hw. unfold productController.deductProductStock, bind.
  cbn [productController.dbConnection]. rewrite (query_pool _ Hw).
  cbn [execute fst snd affectedRows]. rewrite count_zero_existsb.
  destruct (existsb (stock_guard productId q) (products (committed w)));
    cbn [negb]; repeat split; exact Hw.
Qed.

(** X12: two decrements in a row that the stock covers leave the products
    table as the one decrement of their sum does, and all three succeed. *)
Theorem deductProductStock_twice_is_sum :
  forall (w : World) (productId s q1 q2 : Z),
    healthy w ->
    primary_key (products (committed w)) ->
    stock_of productId (products (committed w)) = Some s ->
    0 <= q2 ->
    q1 + q2 <= s ->
    fst (productController.deductProductStock productId q1 None w) = Ok true /\
    fst (productController.deductProductStock productId q2 None
           (snd (productController.deductProductStock productId q1 None w))) = Ok true /\
    fst (productController.deductProductStock productId (q1 + q2) None w) = Ok true /\
    products (committed (snd (productController.deductProductStock productId q2 None
                (snd (productController.deductProductStock productId q1 None w)))))
    = products (committed (snd (productController.deductProductStock productId (q1 + q2)
                                  None w))).
Proof.
  intros w productId s q1 q2 Hw Hk Hs Hq2 Hsum.
  destruct (@deductProductStock_pool_healthy productId q1 w Hw) as (Hp1 & Hw1 & Hr1).
  destruct (@deductProductStock_pool_healthy productId (q1 + q2) w Hw) as (Hp12 & _ & Hr12).
  destruct (@deductProductStock_pool_healthy productId q2 _ Hw1) as (Hp2 & _ & Hr2).
  rewrite Hr1, Hr2, Hr12, Hp2, Hp12, Hp1.
  rewrite !guard_stock_of by (try apply update_stock_primary_key; exact Hk).
  rewrite stock_of_update, Hs. cbn [option_map]. rewrite Z.eqb_refl. cbn [andb].
  replace (q1 <=? s) with true by (symmetry; apply Z.leb_le; lia).
  replace (q2 <=? s - q1) with true by (symmetry; apply Z.leb_le; lia).
  replace (q1 + q2 <=? s) with true by (symmetry; apply Z.leb_le; lia).
  repeat split.
  unfold update_where. rewrite map_map. apply map_ext_in. intros p Hp.
  unfold stock_guard. destruct (p_id p =? productId) eqn:E; cbn [andb].
  - apply Z.eqb_eq in E. pose proof (@stock_of_row (products (committed w)) p Hk Hp) as Hrow.
    rewrite E, Hs in Hrow. injection Hrow as Hrow.
    destruct p as [pid name price stock image]. cbn [p_id p_stock_quantity] in *. subst stock pid.
    replace (q1 <=? s) with true by (symmetry; apply Z.leb_le; lia).
    replace (q1 + q2 <=? s) with true by (symmetry; apply Z.leb_le; lia).
    cbn [take_stock p_id p_name p_price p_stock_quantity p_image_id].
    rewrite Z.eqb_refl. cbn [andb].
    replace (q2 <=? s - q1) with true by (symmetry; apply Z.leb_le; lia).
    unfold take_stock. cbn [p_id p_name p_price p_stock_quantity p_image_id].
    f_equal. lia.
  - rewrite E. reflexivity.
Qed.

Lemma deductProductStock_twice_is_sum_witness :
  healthy (idle shop []) /\
  primary_key (products (committed (idle shop []))) /\
  stock_of 1 (products (committed (idle shop []))) = Some 5 /\
  0 <= 3 /\ 2 + 3 <= 5 /\
  products (committed (snd (productController.deductProductStock 1 3 None
              (snd (productController.deductProductStock 1 2 None (idle shop []))))))
  = products (committed (snd (productController.deductProductStock 1 (2 + 3) None
                                (idle shop [])))).
Proof.
  assert (Hk : primary_key (products (committed (idle shop []))))
    by (repeat constructor; simpl; intuition lia).
  split; [reflexivity|]. split; [exact Hk|]. split; [reflexivity|].
  split; [lia|]. split; [lia|].
  apply (@deductProductStock_twice_is_sum (idle shop []) 1 5 2 3 eq_refl Hk eq_refl);
    lia.
Defined.

(** ** Cloudinary public ids *)

Lemma split_nonempty (sep : Ascii.ascii) (s : string) : split sep s <> [].
Proof.
  destruct s as [|c s]; cbn [split]; [discriminate|].
  destruct (Ascii.eqb c sep); [discriminate|].
  destruct (split sep s); discriminate.
Qed.

Lemma split_app (sep : Ascii.ascii) (a b : string) :
  split sep (a ++ String sep b)%string = split sep a ++ split sep b.
Proof.
  induction a as [|c a IH]; cbn [append split].
  - rewrite Ascii.eqb_refl. reflexivity.
  - rewrite IH. destruct (Ascii.eqb c sep); [reflexivity|].
    pose proof (split_nonempty sep a) as Hne.
    destruct (split sep a) as [|piece pieces]; [contradiction|]. reflexivity.
Qed.

Lemma concat_cons_char (sep : string) (c : Ascii.ascii) (piece : string) (pieces : list string) :
  String.concat sep (String c piece :: pieces) = String c (String.concat sep (piece :: pieces)).
Proof. destruct pieces; reflexivity. Qed.

(** Splitting on the slash and joining with it gives the string back. *)
Lemma join_split (s : string) : join "/" (split slash s) = s.
Proof.
  unfold join. induction s as [|c s IH]; [reflexivity|].
  cbn [split]. pose proof (split_nonempty slash s) as Hne.
  destruct (Ascii.eqb c slash) eqn:E.
  - apply Ascii.eqb_eq in E. subst c.
    destruct (split slash s) as [|piece pieces]; [contradiction|].
    cbn [String.concat]. cbn [String.concat] in IH. rewrite IH. reflexivity.
  - destruct (split slash s) as [|piece pieces]; [contradiction|].
    rewrite concat_cons_char, IH. reflexivity.
Qed.

Lemma indexOf_first (x : string) (before rest : list string) :
  ~ In x before -> indexOf x (before ++ x :: rest) = Some (List.length before).
Proof.
  induction before as [|y before IH]; intros Hnot; cbn [app indexOf List.length].
  - rewrite String.eqb_refl. reflexivity.
  - destruct (String.eqb_spec y x) as [->|_].
    + exfalso. apply Hnot. left. reflexivity.
    + rewrite IH by (intros H; apply Hnot; right; exact H). reflexivity.
Qed.

Lemma indexOf_found (x : string) (parts : list string) (i : nat) :
  indexOf x parts = Some i ->
  exists before rest,
    parts = before ++ x :: rest /\ List.length before = i /\ ~ In x before.
Proof.
  revert i. induction parts as [|y parts IH]; intros i H; cbn [indexOf] in H; [discriminate|].
  destruct (String.eqb_spec y x) as [->|Hne].
  - injection H as <-. exists [], parts. repeat split. intros [].
  - destruct (indexOf x parts) as [j|]; [|discriminate]. injection H as <-.
    destruct (IH j eq_refl) as (before & rest & -> & <- & Hnot).
    exists (y :: before), rest. repeat split. intros [Hy|Hin]; [congruence|exact (Hnot Hin)].
Qed.

Lemma lastIndexOf_after (c : Ascii.ascii) (stem ext : string) :
  lastIndexOf c ext = None ->
  lastIndexOf c (stem ++ String c ext)%string = Some (String.length stem).
Proof.
  intros Hext. induction stem as [|a stem IH]; cbn [append lastIndexOf String.length].
  - rewrite Hext, Ascii.eqb_refl. reflexivity.
  - rewrite IH. reflexivity.
Qed.

Lemma lastIndexOf_found (c : Ascii.ascii) (s : string) (k : nat) :
  lastIndexOf c s = Some k ->
  exists ext, s = (String.substring 0 k s ++ String c ext)%string /\ lastIndexOf c ext = None.
Proof.
  revert k. induction s as [|a s IH]; intros k H; cbn [lastIndexOf] in H; [discriminate|].
  destruct (lastIndexOf c s) as [j|] eqn:E.
  - injection H as <-. destruct (IH j eq_refl) as (ext & Hs & Hext).
    exists ext. cbn [String.substring append]. rewrite <- Hs. split; [reflexivity|exact Hext].
  - destruct (Ascii.eqb a c) eqn:Ea; [|discriminate]. injection H as <-.
    apply Ascii.eqb_eq in Ea. subst a. exists s. cbn [String.substring append].
    split; [reflexivity|exact E].
Qed.

Lemma substring_stem (stem rest : string) :
  String.substring 0 (String.length stem) (stem ++ rest)%string = stem.
Proof.
  induction stem as [|a stem IH]; cbn [append String.length String.substring].
  - destruct rest; reflexivity.
  - rewrite IH. reflexivity.
Qed.

Lemma skipn_past (before : list string) (a b : string) (rest : list string) :
  skipn (List.length before + 2) (before ++ a :: b :: rest) = rest.
Proof. induction before as [|y before IH]; [reflexivity|]. exact IH. Qed.

(** X13: from a delivery URL [<pre>/upload/<version>/<stem>.<ext>] that
    mentions cloudinary.com, [getPublicIdFromUrl] returns [<stem>], the path
    after the version without its extension: the id under which the upload
    service stored the image. *)
Theorem getPublicIdFromUrl_strips_extension :
  forall (pre version stem ext : string),
    includes "cloudinary.com" (pre ++ "/upload/" ++ version ++ "/" ++ stem ++ "." ++ ext)%string
    = true ->
    ~ In "upload" (split slash pre) ->
    split slash version = [version] ->
    lastIndexOf dot ext = None ->
    productController.getPublicIdFromUrl
      (Some (pre ++ "/upload/" ++ version ++ "/" ++ stem ++ "." ++ ext)%string)
    = Some stem.
Proof.
  intros pre version stem ext Hcloud Hpre Hversion Hext.
  unfold productController.getPublicIdFromUrl. rewrite Hcloud.
  assert (Hnonempty : String.eqb (pre ++ "/upload/" ++ version ++ "/" ++ stem ++ "." ++ ext) ""
                      = false) by (destruct pre; reflexivity).
  rewrite Hnonempty. cbn [orb negb].
  assert (Hparts : split slash (pre ++ "/upload/" ++ version ++ "/" ++ stem ++ "." ++ ext)
                   = split slash pre
                       ++ "upload" :: version :: split slash (stem ++ "." ++ ext)).
  { change (pre ++ "/upload/" ++ version ++ "/" ++ stem ++ "." ++ ext)%string
      with (pre ++ String slash ("upload" ++ String slash
                                   (version ++ String slash (stem ++ "." ++ ext))))%string.
    rewrite !split_app, Hversion. reflexivity. }
  rewrite Hparts, indexOf_first by exact Hpre.
  rewrite length_app. cbn [List.length].
  pose proof (split_nonempty slash (stem ++ "." ++ ext)) as Hne.
  destruct (split slash (stem ++ "." ++ ext)) as [|piece pieces] eqn:Hrest; [contradiction|].
  replace (List.length (split slash pre) + S (S (List.length (piece :: pieces)))
           <=? List.length (split slash pre) + 2)%nat
    with false by (symmetry; apply Nat.leb_gt; cbn [List.length]; lia).
  rewrite skipn_past, <- Hrest, join_split.
  change (stem ++ "." ++ ext)%string with (stem ++ String dot ext)%string.
  rewrite lastIndexOf_after by exact Hext. rewrite substring_stem. reflexivity.
Qed.

Lemma getPublicIdFromUrl_strips_extension_witness :
  includes "cloudinary.com"
    ("http://res.cloudinary.com/demo/image" ++ "/upload/" ++ "v1712" ++ "/"
       ++ "tulunad-store-products/kori-rotti" ++ "." ++ "jpg")%string = true /\
  ~ In "upload" (split slash "http://res.cloudinary.com/demo/image") /\
  split slash "v1712" = ["v1712"] /\
  lastIndexOf dot "jpg" = None /\
  productController.getPublicIdFromUrl
    (Some "http://res.cloudinary.com/demo/image/upload/v1712/tulunad-store-products/kori-rotti.jpg")
  = Some "tulunad-store-products/kori-rotti".
Proof.
  assert (Hpre : ~ In "upload" (split slash "http://res.cloudinary.com/demo/image")).
  { cbn. intros [H|[H|[H|[H|[H|[]]]]]]; discriminate H. }
  split; [reflexivity|]. split; [exact Hpre|]. split; [reflexivity|]. split; [reflexivity|].
  exact (@getPublicIdFromUrl_strips_extension "http://res.cloudinary.com/demo/image" "v1712"
           "tulunad-store-products/kori-rotti" "jpg" eq_refl Hpre eq_refl eq_refl).
Defined.

(** X14: whatever [getPublicIdFromUrl] returns comes from a URL that
    mentions cloudinary.com and has, after its first [upload] piece, a
    version and at least one more piece; the result is the joined pieces
    after the version cut at their last dot, and the empty string when they
    have no dot at all. *)
Theorem getPublicIdFromUrl_only_from_delivery_urls :
  forall (imageUrl : option string) (publicId : string),
    productController.getPublicIdFromUrl imageUrl = Some publicId ->
    exists url before version rest,
      imageUrl = Some url /\
      includes "cloudinary.com" url = true /\
      split slash url = before ++ "upload" :: version :: rest /\
      ~ In "upload" before /\
      rest <> [] /\
      ((lastIndexOf dot (join "/" rest) = None /\ publicId = "")
       \/ exists ext, join "/" rest = (publicId ++ String dot ext)%string /\
                      lastIndexOf dot ext = None).
Proof.
  intros [url|] publicId H; unfold productController.getPublicIdFromUrl in H; [|discriminate].
  destruct (String.eqb url ""); [discriminate|]. cbn [orb] in H.
  destruct (includes "cloudinary.com" url) eqn:Hcloud; [|discriminate]. cbn [negb] in H.
  destruct (indexOf "upload" (split slash url)) as [i|] eqn:Hi; [|discriminate].
  destruct (@indexOf_found "upload" (split slash url) i Hi)
    as (before & after & Hparts & Hlen & Hnot).
  destruct (List.length (split slash url) <=? i + 2)%nat eqn:Hshort; [discriminate|].
  apply Nat.leb_gt in Hshort. rewrite Hparts in Hshort, H.
  rewrite length_app in Hshort. cbn [List.length] in Hshort.
  destruct after as [|version rest]; [cbn [List.length] in Hshort; lia|].
  destruct rest as [|piece pieces]; [cbn [List.length] in Hshort; lia|].
  rewrite <- Hlen, skipn_past in H.
  exists url, before, version, (piece :: pieces).
  split; [reflexivity|]. split; [exact Hcloud|]. split; [exact Hparts|].
  split; [exact Hnot|]. split; [discriminate|].
  destruct (lastIndexOf dot (join "/" (piece :: pieces))) as [k|] eqn:Hdot.
  - right. injection H as <-. destruct (@lastIndexOf_found dot (join "/" (piece :: pieces)) k Hdot) as (ext & Hs & Hext).
    exists ext. split; [exact Hs|exact Hext].
  - left. injection H as <-. split; reflexivity.
Qed.

Lemma getPublicIdFromUrl_only_from_delivery_urls_witness :
  productController.getPublicIdFromUrl
    (Some "http://res.cloudinary.com/demo/image/upload/v1712/kori-rotti") = Some "" /\
  exists url before version rest,
    Some "http://res.cloudinary.com/demo/image/upload/v1712/kori-rotti" = Some url /\
    includes "cloudinary.com" url = true /\
    split slash url = before ++ "upload" :: version :: rest /\
    ~ In "upload" before /\
    rest <> [] /\
    ((lastIndexOf dot (join "/" rest) = None /\ "" = "")
     \/ exists ext, join "/" rest = ("" ++ String dot ext)%string /\
                    lastIndexOf dot ext = None).
Proof.
  split; [reflexivity|].
  exact (@getPublicIdFromUrl_only_from_delivery_urls
           (Some "http://res.cloudinary.com/demo/image/upload/v1712/kori-rotti") "" eq_refl).
Defined.

(** ** Who gets through *)

Lemma payload_copied (decoded : user_payload) :
  mkPayload (t_id decoded) (t_username decoded) (t_email decoded) (t_role decoded) = decoded.
Proof. destruct decoded; reflexivity. Qed.

(** X15: [protect] lets a request through only with a bearer token that
    verifies, and then hands the rest of the route the payload of that token;
    any other request is answered with a 401 and nothing is asked of the
    database. *)
Theorem protect_needs_verified_token :
  forall (T : JWT) (R : Type) (deny : Z -> string -> R) (authorization : option string)
         (next : user_payload -> M R) (w : World),
    (exists token user,
        authMiddleware.bearer authorization = Some token /\
        jwt_verify token = Ok user /\
        authMiddleware.protect deny authorization next w = next user w)
    \/
    (exists m,
        fst (authMiddleware.protect deny authorization next w) = Ok (deny 401 m) /\
        committed (snd (authMiddleware.protect deny authorization next w)) = committed w /\
        transaction (snd (authMiddleware.protect deny authorization next w)) = transaction w /\
        driver (snd (authMiddleware.protect deny authorization next w)) = driver w).
Proof.
  intros T R deny authorization next w. unfold authMiddleware.protect.
  destruct (authMiddleware.bearer authorization) as [token|] eqn:Hbearer.
  - destruct (String.eqb token "").
    + right. eexists. repeat split.
    + destruct (jwt_verify token) as [decoded|error] eqn:Hverify.
      * left. exists token, decoded. rewrite payload_copied. repeat split. exact Hverify.
      * right. eexists. repeat split.
  - right. eexists. repeat split.
Qed.

(** X16: the listing of all orders is served to an admin only.  Either the
    bearer token verifies with the role admin, and the route is
    [getAllOrders]; or the reply is a 401 or a 403 and nothing is asked of
    the database. *)
Theorem orders_all_is_for_admins :
  forall (J : JSON) (T : JWT) (authorization : option string) (w : World),
    (exists token user,
        authMiddleware.bearer authorization = Some token /\
        jwt_verify token = Ok user /\
        t_role user = "admin" /\
        get_orders_all authorization w = getAllOrders w)
    \/
    (exists s m,
        (s = 401 \/ s = 403) /\
        fst (get_orders_all authorization w) = Ok (mkResponse s (Message m)) /\
        committed (snd (get_orders_all authorization w)) = committed w /\
        driver (snd (get_orders_all authorization w)) = driver w).
Proof.
  intros J T authorization w. unfold get_orders_all, authMiddleware.protect.
  destruct (authMiddleware.bearer authorization) as [token|] eqn:Hbearer.
  - destruct (String.eqb token "").
    + right. exists 401. eexists. split; [left; reflexivity|]. repeat split.
    + destruct (jwt_verify token) as [decoded|error] eqn:Hverify.
      * rewrite payload_copied. unfold authMiddleware.authorizeRoles, includes_role.
        cbn [existsb]. rewrite orb_false_r.
        destruct (String.eqb_spec (t_role decoded) "admin") as [Hrole|Hrole].
        -- left. exists token, decoded. repeat split; assumption.
        -- right. exists 403. eexists. split; [right; reflexivity|]. repeat split.
      * right. exists 401. eexists. split; [left; reflexivity|]. repeat split.
  - right. exists 401. eexists. split; [left; reflexivity|]. repeat split.
Qed.

(** The routes on the sample tokens. *)
Example orders_all_on_sample_tokens :
  fst (get_orders_all (J := literal_JSON) (T := sample_JWT)
         (Some "Bearer token-of-asha") (idle archive []))
  = Ok (mkResponse 403 (Message "User role 'user' is not authorized to access this route.")) /\
  fst (get_orders_all (J := literal_JSON) (T := sample_JWT) (Some "Bearer") (idle archive []))
  = Ok (mkResponse 401 (Message "Not authorized, no token provided.")) /\
  fst (get_orders_all (J := literal_JSON) (T := sample_JWT)
         (Some "Bearer forged") (idle archive []))
  = Ok (mkResponse 401 (Message "Not authorized, token failed.")) /\
  get_orders_all (J := literal_JSON) (T := sample_JWT)
    (Some "Bearer token-of-admin") (idle archive [])
  = getAllOrders (J := literal_JSON) (idle archive []).
Proof. repeat split; vm_compute; reflexivity. Qed.

(** ** The statement built by productModel.updateProduct *)

Lemma occurrences_app (c : Ascii.ascii) (a b : string) :
  occurrences c (a ++ b)%string = (occurrences c a + occurrences c b)%nat.
Proof.
  induction a as [|x a IH]; [reflexivity|]. cbn [append occurrences]. rewrite IH. lia.
Qed.

Lemma concat_two (sep x y : string) (l : list string) :
  String.concat sep (x :: y :: l) = (x ++ sep ++ String.concat sep (y :: l))%string.
Proof. reflexivity. Qed.

Lemma occurrences_fields (productData : list (string * json)) :
  Forall (fun entry => occurrences question (fst entry) = 0%nat) productData ->
  occurrences question
    (join ", " (map (fun entry => (fst entry ++ " = ?")%string) productData))
  = List.length productData.
Proof.
  unfold join. induction productData as [|entry rest IH]; intros Hkeys; [reflexivity|].
  inversion Hkeys as [|? ? Hkey Hrest]; subst. specialize (IH Hrest).
  destruct rest as [|entry' rest'].
  - cbn [map String.concat List.length]. rewrite occurrences_app, Hkey. reflexivity.
  - change (map (fun e : string * json => (fst e ++ " = ?")%string) (entry :: entry' :: rest'))
      with ((fst entry ++ " = ?")%string
              :: (fst entry' ++ " = ?")%string
              :: map (fun e : string * json => (fst e ++ " = ?")%string) rest').
    rewrite concat_two.
    change ((fst entry' ++ " = ?")%string
              :: map (fun e : string * json => (fst e ++ " = ?")%string) rest')
      with (map (fun e : string * json => (fst e ++ " = ?")%string) (entry' :: rest')).
    rewrite !occurrences_app, IH, Hkey. reflexivity.
Qed.

(** X17: [updateProduct] refuses an empty update with its error; otherwise,
    for column names free of question marks, the statement it builds has
    exactly one placeholder per value it passes, the values being those of
    the data in order followed by the product id. *)
Theorem updateProduct_placeholders_match_values :
  forall (productId : json) (productData : list (string * json)),
    Forall (fun entry => occurrences question (fst entry) = 0%nat) productData ->
    match productModel.updateProduct productId productData with
    | inl error => productData = [] /\ message error = "No fields to update."
    | inr (text, values) =>
        productData <> [] /\
        values = map snd productData ++ [productId] /\
        occurrences question text = List.length values
    end.
Proof.
  intros productId productData Hkeys. unfold productModel.updateProduct.
  destruct productData as [|entry rest] eqn:Hdata; cbn [map]; [split; reflexivity|].
  split; [discriminate|]. split; [reflexivity|].
  rewrite !occurrences_app.
  change (((fst entry ++ " = ?")%string) :: map (fun e => (fst e ++ " = ?")%string) rest)
    with (map (fun e => (fst e ++ " = ?")%string) (entry :: rest)).
  rewrite (occurrences_fields Hkeys).
  rewrite length_app. cbn [map List.length]. rewrite length_map.
  cbn. lia.
Qed.

Lemma updateProduct_placeholders_match_values_witness :
  Forall (fun entry => occurrences question (fst entry) = 0%nat)
         [("price", JNumber 9000); ("stock_quantity", JNumber 12)] /\
  productModel.updateProduct (JNumber 2) [("price", JNumber 9000); ("stock_quantity", JNumber 12)]
  = inr ("UPDATE products SET price = ?, stock_quantity = ? WHERE id = ?",
         [JNumber 9000; JNumber 12; JNumber 2]) /\
  occurrences question "UPDATE products SET price = ?, stock_quantity = ? WHERE id = ?" = 3%nat.
Proof.
  assert (Hkeys : Forall (fun entry : string * json => occurrences question (fst entry) = 0%nat)
                         [("price", JNumber 9000); ("stock_quantity", JNumber 12)])
    by (repeat constructor).
  pose proof (@updateProduct_placeholders_match_values (JNumber 2)
                [("price", JNumber 9000); ("stock_quantity", JNumber 12)] Hkeys) as H.
  split; [exact Hkeys|]. split; [reflexivity|].
  change (productModel.updateProduct (JNumber 2)
            [("price", JNumber 9000); ("stock_quantity", JNumber 12)])
    with (@inr Error (string * list json)
            ("UPDATE products SET price = ?, stock_quantity = ? WHERE id = ?",
             [JNumber 9000; JNumber 12; JNumber 2])) in H.
  destruct H as (_ & _ & Hcount). exact Hcount.
Defined.

Lemma createOrder_rejects_incomplete_body_witness :
  items (mkOrderBody (Some []) (Some 44000) (Some address)) = Some [] /\
  exists m,
    createOrder (J := literal_JSON)
                (mkRequest (mkOrderBody (Some []) (Some 44000) (Some address)) 7) (idle shop [])
    = (Ok (mkResponse 400 (Message m)), idle shop []).
Proof.
  split; [reflexivity|].
  apply (@createOrder_rejects_incomplete_body literal_JSON (idle shop []) 7
           (mkOrderBody (Some []) (Some 44000) (Some address))).
  right. left. reflexivity.
Defined.

(** ** Deleting a product *)

Lemma run_pool_healthy (meaning : Db -> Db * packet) (w : World) :
  healthy w ->
  run_pool meaning w =
  (Ok (snd (meaning (committed w))),
   mkWorld (fst (meaning (committed w))) (transaction w) (leased w) (driver w) (console w)).
Proof.
  intros Hw. unfold run_pool, bind. rewrite (driver_call_healthy Hw).
  destruct (meaning (committed w)); reflexivity.
Qed.

(** [deleteImage] never throws and writes to the console only. *)
Lemma deleteImage_frame {C : Cloudinary} (publicId : string) (w : World) :
  exists done extra,
    cloudinaryService.deleteImage publicId w =
    (Ok done, mkWorld (committed w) (transaction w) (leased w) (driver w) (console w ++ extra)).
Proof.
  unfold cloudinaryService.deleteImage.
  destruct (uploader_destroy publicId) as [outcome|error].
  - destruct (negb (String.eqb outcome "ok")); do 2 eexists; reflexivity.
  - do 2 eexists. reflexivity.
Qed.

Lemma delete_where_in {A} (cond : A -> bool) (l : list A) (a : A) :
  In a (delete_where cond l) <-> In a l /\ cond a = false.
Proof.
  unfold delete_where. rewrite filter_In. rewrite negb_true_iff. reflexivity.
Qed.

Lemma select_image_none (id : Z) (d : Db) :
  select_image id d = [] <-> existsb (fun p => p_id p =? id) (products d) = false.
Proof.
  unfold select_image. induction (products d) as [|p ps IH]; cbn [filter map existsb].
  - split; reflexivity.
  - destruct (p_id p =? id); cbn [map orb]; [split; discriminate|exact IH].
Qed.

(** The run of [deleteProduct] on a product that is there. *)
Lemma deleteProduct_run {C : Cloudinary} (id : Z) (w : World) :
  healthy w ->
  existsb (fun p => p_id p =? id) (products (committed w)) = true ->
  exists extra,
    deleteProduct id w =
    (Ok (mkResponse 200 (Message "Product deleted successfully.")),
     mkWorld (fst (delete_product id (committed w))) (transaction w) (leased w) (driver w)
             (console w ++ extra)).
Proof.
  intros Hw Hsome. unfold deleteProduct, try_catch. unfold bind at 1.
  rewrite (select_pool _ Hw).
  destruct (select_image id (committed w)) as [|imageUrl others] eqn:Himage.
  { apply select_image_none in Himage. congruence. }
  unfold bind at 1. rewrite (run_pool_healthy _ Hw).
  unfold delete_product at 1. rewrite Hsome. cbn [snd affectedRows].
  rewrite count_zero_existsb, Hsome. cbn [negb].
  set (w1 := mkWorld (fst (delete_product id (committed w))) (transaction w) (leased w)
                     (driver w) (console w)).
  unfold bind at 1.
  destruct (productController.getPublicIdFromUrl (Some imageUrl)) as [publicId|].
  - destruct (String.eqb publicId "").
    + exists []. unfold ret. unfold w1. rewrite app_nil_r. reflexivity.
    + unfold bind. destruct (deleteImage_frame publicId w1) as (done & extra & ->).
      exists extra. reflexivity.
  - exists []. unfold ret. unfold w1. rewrite app_nil_r. reflexivity.
Qed.

(** X21: [deleteProduct] on an id that is not in the catalogue answers 404
    and changes nothing.  On a product that is there it answers 200 whatever
    the image service does, and in the committed tables the product is gone
    together with the cart lines and the order lines that referred to it;
    everything else is kept. *)
Theorem deleteProduct_takes_its_lines_along :
  forall (C : Cloudinary) (w : World) (id : Z),
    healthy w ->
    if existsb (fun p => p_id p =? id) (products (committed w))
    then
      fst (deleteProduct id w) = Ok (mkResponse 200 (Message "Product deleted successfully."))
      /\
      (forall p, In p (products (committed (snd (deleteProduct id w))))
                 <-> In p (products (committed w)) /\ p_id p <> id) /\
      (forall c, In c (cart_items (committed (snd (deleteProduct id w))))
                 <-> In c (cart_items (committed w)) /\ ci_product_id c <> id) /\
      (forall oi, In oi (order_items (committed (snd (deleteProduct id w))))
                  <-> In oi (order_items (committed w)) /\ oi_product_id oi <> id) /\
      orders (committed (snd (deleteProduct id w))) = orders (committed w) /\
      users (committed (snd (deleteProduct id w))) = users (committed w)
    else
      deleteProduct id w = (Ok (mkResponse 404 (Message "Product not found.")), w).
Proof.
  intros C w id Hw.
  destruct (existsb (fun p => p_id p =? id) (products (committed w))) eqn:Hsome.
  - destruct (deleteProduct_run id Hw Hsome) as (extra & ->).
    cbn [fst snd committed]. unfold delete_product. rewrite Hsome.
    cbn [fst products cart_items order_items orders users].
    split; [reflexivity|].
    split; [intros p; rewrite delete_where_in, Z.eqb_neq; reflexivity|].
    split; [intros c; rewrite delete_where_in, Z.eqb_neq; reflexivity|].
    split; [intros oi; rewrite delete_where_in, Z.eqb_neq; reflexivity|].
    split; reflexivity.
  - unfold deleteProduct, try_catch, bind. rewrite (select_pool _ Hw).
    apply select_image_none in Hsome. rewrite Hsome. reflexivity.
Qed.

Lemma deleteProduct_takes_its_lines_along_witness :
  healthy (idle gallery []) /\
  fst (deleteProduct (H := cloudinary_down) 1 (idle gallery []))
  = Ok (mkResponse 200 (Message "Product deleted successfully.")) /\
  (forall c, In c (cart_items (committed (snd (deleteProduct (H := cloudinary_down) 1
                                                (idle gallery [])))))
             <-> In c (cart_items gallery) /\ ci_product_id c <> 1) /\
  deleteProduct (H := cloudinary_down) 5 (idle gallery [])
  = (Ok (mkResponse 404 (Message "Product not found.")), idle gallery []).
Proof.
  split; [reflexivity|].
  pose proof (@deleteProduct_takes_its_lines_along cloudinary_down (idle gallery []) 1 eq_refl)
    as Hthere.
  pose proof (@deleteProduct_takes_its_lines_along cloudinary_down (idle gallery []) 5 eq_refl)
    as Hmissing.
  change (existsb (fun p => p_id p =? 1) (products (committed (idle gallery [])))) with true
    in Hthere.
  change (existsb (fun p => p_id p =? 5) (products (committed (idle gallery [])))) with false
    in Hmissing.
  cbv iota in Hthere, Hmissing.
  destruct Hthere as (Hreply & _ & Hcart & _).
  split; [exact Hreply|]. split; [exact Hcart|exact Hmissing].
Defined.

(** X22: once a product is deleted, an order all of whose lines were of that
    product is no longer listed in any user's history, and no cart listing
    shows a line of that product. *)
Theorem deleted_product_leaves_history_and_carts :
  forall (J : JSON) (C : Cloudinary) (w : World) (id userId : Z),
    healthy w ->
    existsb (fun p => p_id p =? id) (products (committed w)) = true ->
    (forall k,
        (forall oi, In oi (order_items (committed w)) ->
                    oi_order_id oi = k -> oi_product_id oi = id) ->
        exists views w'',
          getUserOrders userId (snd (deleteProduct id w))
          = (Ok (mkResponse 200 (OrderList views)), w'') /\
          ~ In k (map v_order_id views))
    /\
    (exists lines,
        fst (cartModel.getCartItems userId (snd (deleteProduct id w))) = Ok lines /\
        forall line, In line lines -> cartModel.line_product_id line <> id).
Proof.
  intros J C w id userId Hw Hsome.
  destruct (deleteProduct_run id Hw Hsome) as (extra & ->). cbn [snd].
  set (w' := mkWorld (fst (delete_product id (committed w))) (transaction w) (leased w)
                     (driver w) (console w ++ extra)).
  assert (Hw' : healthy w') by exact Hw.
  assert (Hitems : forall oi, In oi (order_items (committed w'))
                              -> In oi (order_items (committed w)) /\ oi_product_id oi <> id).
  { intros oi. unfold w'. cbn [committed]. unfold delete_product. rewrite Hsome.
    cbn [fst order_items]. intros H. apply delete_where_in in H as [Hin Hne].
    split; [exact Hin|apply Z.eqb_neq; exact Hne]. }
  assert (Hcart : forall c, In c (cart_items (committed w')) -> ci_product_id c <> id).
  { intros c. unfold w'. cbn [committed]. unfold delete_product. rewrite Hsome.
    cbn [fst cart_items]. intros H. apply delete_where_in in H as [_ Hne].
    apply Z.eqb_neq. exact Hne. }
  split.
  - intros k Honly.
    destruct (@history_run J (select_user_orders userId)
                (fun error =>
                   console_error ("Error fetching user orders: " ++ message error)%string ;;;
                   ret (mkResponse 500 (Message "Failed to fetch user orders.")))
                w' Hw' (order_by_date_desc_sorted _)) as (m & more & Hrun & Hm & _).
    do 2 eexists. split; [exact Hrun|].
    destruct Hm as (_ & Hkeys & Hviews).
    assert (Hids : map v_order_id (map snd m) = map fst m).
    { rewrite map_map. apply map_ext_in. intros [k' v] Hin.
      destruct (Hviews k' v Hin) as (Hid & _). exact Hid. }
    rewrite Hids. intros Hin. apply Hkeys in Hin.
    apply select_user_orders_ids in Hin as (o & _ & _ & Hk & oi & p & Hoi & Ho & _).
    destruct (Hitems oi Hoi) as [Hold Hne]. apply Hne. apply Honly; [exact Hold|congruence].
  - exists (cartModel.select_cart userId (committed w')).
    rewrite (@getCartItems_healthy userId w' Hw'). split; [reflexivity|].
    intros line Hline. unfold cartModel.select_cart in Hline.
    apply in_flat_map in Hline as (c & Hc & Hline). apply filter_In in Hc as [Hc _].
    apply in_map_iff in Hline as (p & <- & _). cbn [cartModel.line_product_id].
    apply Hcart. exact Hc.
Qed.

Lemma deleted_product_leaves_history_and_carts_witness :
  healthy (idle gallery []) /\
  existsb (fun p => p_id p =? 1) (products (committed (idle gallery []))) = true /\
  (exists views w'',
      getUserOrders (J := literal_JSON) 7
        (snd (deleteProduct (H := cloudinary_down) 1 (idle gallery [])))
      = (Ok (mkResponse 200 (OrderList views)), w'') /\
      ~ In 2 (map v_order_id views)).
Proof.
  split; [reflexivity|]. split; [reflexivity|].
  destruct (@deleted_product_leaves_history_and_carts literal_JSON cloudinary_down
              (idle gallery []) 1 7 eq_refl eq_refl) as [Hhistory _].
  apply (Hhistory 2). intros oi Hoi Hk. cbn in Hoi.
  destruct Hoi as [<-|[<-|[<-|[]]]]; first [reflexivity | discriminate Hk].
Defined.

(** The history of user 7 after product 1 is deleted from [gallery] with the
    image service down: order 2 is gone, order 1 keeps the line of product 2,
    and the console has the failed image deletion. *)
Example deleteProduct_gallery :
  fst (getUserOrders (J := literal_JSON) 7
         (snd (deleteProduct (H := cloudinary_down) 1 (idle gallery []))))
  = Ok (mkResponse 200 (OrderList
       [mkOrderView 1 1000 32000 "pending" (JObject []) None
                    [mkViewItem "Banana Chips" 1 8000 "img2"]])) /\
  console (snd (deleteProduct (H := cloudinary_down) 1 (idle gallery [])))
  = ["Cloudinary deletion error for public_id tulunad-store-products/kori: getaddrinfo ENOTFOUND api.cloudinary.com"].
Proof. split; vm_compute; reflexivity. Qed.
